(** * google-form-submitter: a shallow embedding of [submit_google_form.py]

    The development follows the source file function by function:

    - Python values that can sit in a spreadsheet cell ([pyval]) and the
      string operations the code uses ([str.replace], [str.strip],
      [str.lower], [re.sub], [str.zfill], [in], [join]);
    - [GoogleFormSubmitter.normalize];
    - the proleptic Gregorian calendar, [datetime.strptime] for the six
      formats of the source, and [pd.to_datetime(unit='D', origin=...)];
    - [GoogleFormSubmitter._parse_date_value];
    - the browser: every Selenium call reads the next reply of an oracle,
      so that a statement quantified over the oracle covers every
      behaviour of the page;
    - [_extract_form_mapping], [_fill_date_field], [_fill_field_with_retry],
      [_wait_for_submission_confirmation], [_submit_row] and [run], in a
      state-and-exception monad whose state survives a raised exception
      (as Python's object state does);
    - of [app.py], the background task [run_submission_task] and
      [get_job_status], over the dictionary [job_status].

    Modelling conventions.  A Python [str] is a [string] whose characters
    are the code points U+0000..U+00FF; [isspace], [lower] and the regex
    classes [\s] and [\d] are the Unicode ones restricted to that range.
    Integers are [Z]; floating-point cell values are not modelled.
    The labels of the columns of a sheet are strings (line 446 joins the
    labels of the fields that failed, and raises [TypeError] on a label
    that is not one).
    [time.sleep] and console output ([print]) have no effect on any value
    the program computes and are left out, two announcements apart that
    the trace records (see [event]).  Exceptions are the subclasses of
    [Exception]; [KeyboardInterrupt] and the like are outside the model.
    [datetime.strptime] follows the regular expressions of CPython's
    [_strptime]; [pd.to_datetime] follows pandas 1.x and 2.x, where the
    result is a nanosecond [Timestamp]. *)

From Stdlib Require Import ZArith String Ascii List Lia Bool DecimalString.
Import ListNotations.

Open Scope string_scope.
Open Scope Z_scope.

(** ** Python values and strings *)

(** A date-like object: anything with [day], [month] and [year] attributes
    ([pd.Timestamp], [datetime.datetime], [datetime.date]). *)
Record datelike : Type := mk_datelike {
  dl_day : Z;
  dl_month : Z;
  dl_year : Z
}.

(** A cell value.  [VDate] carries its [str()] rendering, which depends on
    the concrete class; [VOther] is any other object (for instance [None]),
    known only through its [str()]. *)
Inductive pyval : Type :=
| VStr (s : string)
| VInt (n : Z)
| VDate (d : datelike) (repr : string)
| VOther (repr : string).

(** [str(n)] for an [int]. *)
Definition str_of_Z (n : Z) : string :=
  NilZero.string_of_int (Z.to_int n).

(** [str(v)]. *)
Definition py_str (v : pyval) : string :=
  match v with
  | VStr s => s
  | VInt n => str_of_Z n
  | VDate _ repr => repr
  | VOther repr => repr
  end.

Definition code (c : ascii) : N := N_of_ascii c.

(** [str.isspace] on one character: TAB..CR, FS..US, SPACE, NEL, NBSP. *)
Definition isspace (c : ascii) : bool :=
  let n := code c in
  (((9 <=? n) && (n <=? 13)) || ((28 <=? n) && (n <=? 32))
   || (n =? 133) || (n =? 160))%N.

(** The regex class [\d]. *)
Definition isdigit (c : ascii) : bool :=
  let n := code c in ((48 <=? n) && (n <=? 57))%N.

(** [str.lower] on one character: A-Z and the capital letters of the
    Latin-1 supplement (U+00C0..U+00DE without the multiplication sign). *)
Definition lower_char (c : ascii) : ascii :=
  let n := code c in
  if (((65 <=? n) && (n <=? 90))
      || ((192 <=? n) && (n <=? 214))
      || ((216 <=? n) && (n <=? 222)))%N
  then ascii_of_N (n + 32) else c.

(** [s.lower()]. *)
Fixpoint lower (s : string) : string :=
  match s with
  | EmptyString => EmptyString
  | String c r => String (lower_char c) (lower r)
  end.

(** [s.replace(c, '')] for a one-character [c]. *)
Fixpoint remove_char (c : ascii) (s : string) : string :=
  match s with
  | EmptyString => EmptyString
  | String d r =>
      if Ascii.eqb d c then remove_char c r else String d (remove_char c r)
  end.

(** [s.lstrip()], [s.rstrip()] and [s.strip()]. *)
Fixpoint lstrip (s : string) : string :=
  match s with
  | EmptyString => EmptyString
  | String c r => if isspace c then lstrip r else s
  end.

Fixpoint rstrip (s : string) : string :=
  match s with
  | EmptyString => EmptyString
  | String c r =>
      match rstrip r with
      | EmptyString => if isspace c then EmptyString else String c EmptyString
      | r' => String c r'
      end
  end.

Definition strip (s : string) : string := rstrip (lstrip s).

(** [re.sub(r'\s+', ' ', s)]: every maximal run of whitespace becomes one
    space.  [in_ws] tells that the previous character belonged to a run
    whose replacement has been emitted already. *)
Fixpoint collapse_from (in_ws : bool) (s : string) : string :=
  match s with
  | EmptyString => EmptyString
  | String c r =>
      if isspace c
      then (if in_ws then collapse_from true r
            else String " " (collapse_from true r))
      else String c (collapse_from false r)
  end.

Definition re_sub_spaces (s : string) : string := collapse_from false s.

(** [needle in hay] for strings. *)
Fixpoint py_in (needle hay : string) : bool :=
  String.prefix needle hay
  || match hay with
     | EmptyString => false
     | String _ r => py_in needle r
     end.

(** [sep.join(l)]. *)
Fixpoint join (sep : string) (l : list string) : string :=
  match l with
  | [] => ""
  | [x] => x
  | x :: r => x ++ sep ++ join sep r
  end.

(** [s.zfill(2)]. *)
Definition zfill2 (s : string) : string :=
  match s with
  | EmptyString => "00"
  | String c EmptyString =>
      if (Ascii.eqb c "-" || Ascii.eqb c "+")%bool
      then String c "0" else String "0" s
  | _ => s
  end.

(** ** [GoogleFormSubmitter.normalize] (lines 83-95) *)

Definition normalize_str (text : string) : string :=
  let text := lower (strip (remove_char "*" (remove_char "010" text))) in
  re_sub_spaces text.

Definition normalize (text : pyval) : string :=
  let text := match text with
              | VStr s => s
              | _ => py_str text
              end in
  normalize_str text.

(** What the output of [normalize] looks like: no whitespace other than
    single spaces strictly inside the string. *)
Fixpoint spaced (s : string) : bool :=
  match s with
  | EmptyString => true
  | String c r =>
      (if isspace c
       then Ascii.eqb c " "
            && match r with
               | EmptyString => false
               | String d _ => negb (isspace d)
               end
       else true) && spaced r
  end.

Definition head_nonspace (s : string) : bool :=
  match s with
  | EmptyString => true
  | String c _ => negb (isspace c)
  end.

Fixpoint last_nonspace (s : string) : bool :=
  match s with
  | EmptyString => true
  | String c EmptyString => negb (isspace c)
  | String _ r => last_nonspace r
  end.

Fixpoint string_forallb (p : ascii -> bool) (s : string) : bool :=
  match s with
  | EmptyString => true
  | String c r => p c && string_forallb p r
  end.

Definition not_star (c : ascii) : bool := negb (Ascii.eqb c "*").
Definition is_lowered (c : ascii) : bool := Ascii.eqb (lower_char c) c.

(** [normal s]: [s] is a possible output of [normalize]. *)
Definition normal (s : string) : Prop :=
  head_nonspace s = true /\ spaced s = true
  /\ string_forallb not_star s = true
  /\ string_forallb is_lowered s = true.

(** ** Exceptions *)

(** The classes of [Exception] the program can meet.  [TimeoutException]
    and [NoSuchElementException] are Selenium's; [PyException] stands for a
    plain [Exception(...)] and for every class not listed. *)
Inductive exn_class : Type :=
| TimeoutException
| NoSuchElementException
| WebDriverException
| ValueError
| OutOfBoundsDatetime
| PyException.

(** An exception object: its class and what [str(e)] gives. *)
Record exn : Type := mk_exn {
  exn_cls : exn_class;
  exn_str : string
}.

Definition is_timeout (e : exn) : bool :=
  match exn_cls e with
  | TimeoutException => true
  | _ => false
  end.

Definition is_value_error (e : exn) : bool :=
  match exn_cls e with
  | ValueError => true
  | _ => false
  end.

(** ** The proleptic Gregorian calendar of [datetime] *)

Definition is_leap (y : Z) : bool :=
  (y mod 4 =? 0) && (negb (y mod 100 =? 0) || (y mod 400 =? 0)).

Definition days_in_month (y m : Z) : Z :=
  if m =? 2 then (if is_leap y then 29 else 28)
  else if (m =? 4) || (m =? 6) || (m =? 9) || (m =? 11) then 30
  else 31.

(** The checks of the [datetime.date] constructor. *)
Definition valid_date (d : datelike) : bool :=
  (1 <=? dl_year d) && (dl_year d <=? 9999)
  && (1 <=? dl_month d) && (dl_month d <=? 12)
  && (1 <=? dl_day d) && (dl_day d <=? days_in_month (dl_year d) (dl_month d)).

(** [date.toordinal()]: the number of the day, 0001-01-01 being day 1. *)
Definition days_before_year (y : Z) : Z :=
  let y := y - 1 in y * 365 + y / 4 - y / 100 + y / 400.

Fixpoint days_before_month_from (y : Z) (m : nat) : Z :=
  match m with
  | O => 0
  | S k => days_before_month_from y k + days_in_month y (Z.of_nat (S k))
  end.

Definition days_before_month (y m : Z) : Z :=
  days_before_month_from y (Z.to_nat (m - 1)).

Definition toordinal (d : datelike) : Z :=
  days_before_year (dl_year d) + days_before_month (dl_year d) (dl_month d)
  + dl_day d.

(** ** [datetime.strptime] *)

(** The directives of a format string. *)
Inductive directive : Type :=
| Dir_d
| Dir_m
| Dir_Y
| Dir_y
| Lit (c : ascii).

(** [None] stands for the [ValueError] of a bad directive. *)
Fixpoint parse_format (fmt : string) : option (list directive) :=
  match fmt with
  | EmptyString => Some []
  | String "%" (String c r) =>
      match parse_format r with
      | None => None
      | Some ds =>
          if Ascii.eqb c "d" then Some (Dir_d :: ds)
          else if Ascii.eqb c "m" then Some (Dir_m :: ds)
          else if Ascii.eqb c "Y" then Some (Dir_Y :: ds)
          else if Ascii.eqb c "y" then Some (Dir_y :: ds)
          else None
      end
  | String c r =>
      match parse_format r with
      | None => None
      | Some ds => Some (Lit c :: ds)
      end
  end.

Definition digit_val (c : ascii) : Z := Z.of_N (code c) - 48.

Definition in_range (lo hi c : ascii) : bool :=
  ((code lo <=? code c) && (code c <=? code hi))%N.

(** One alternative of a directive's regex, made of two character classes;
    [int()] of the matched text skips a leading space. *)
Definition two_chars (p q : ascii -> bool) (s : string) : list (Z * string) :=
  match s with
  | String a (String b r) =>
      if p a && q b
      then [((if Ascii.eqb a " " then 0 else digit_val a) * 10 + digit_val b, r)]
      else []
  | _ => []
  end.

Definition one_char (p : ascii -> bool) (s : string) : list (Z * string) :=
  match s with
  | String a r => if p a then [(digit_val a, r)] else []
  | _ => []
  end.

(** The regexes of [_strptime.TimeRE], as the list of their matches in the
    order a backtracking matcher tries them:
    - [%d]: [3[0-1]|[1-2]\d|0[1-9]|[1-9]| [1-9]]
    - [%m]: [1[0-2]|0[1-9]|[1-9]]
    - [%Y]: [\d\d\d\d]
    - [%y]: [\d\d] *)
Definition re_d (s : string) : list (Z * string) :=
  two_chars (Ascii.eqb "3") (in_range "0" "1") s
  ++ two_chars (in_range "1" "2") isdigit s
  ++ two_chars (Ascii.eqb "0") (in_range "1" "9") s
  ++ one_char (in_range "1" "9") s
  ++ two_chars (Ascii.eqb " ") (in_range "1" "9") s.

Definition re_m (s : string) : list (Z * string) :=
  two_chars (Ascii.eqb "1") (in_range "0" "2") s
  ++ two_chars (Ascii.eqb "0") (in_range "1" "9") s
  ++ one_char (in_range "1" "9") s.

Definition re_y (s : string) : list (Z * string) :=
  two_chars isdigit isdigit s.

Definition re_Y (s : string) : list (Z * string) :=
  match s with
  | String a (String b (String c (String d r))) =>
      if isdigit a && isdigit b && isdigit c && isdigit d
      then [(((digit_val a * 10 + digit_val b) * 10 + digit_val c) * 10
             + digit_val d, r)]
      else []
  | _ => []
  end.

(** The groups of a match. *)
Record groups : Type := mk_groups {
  g_d : option Z;
  g_m : option Z;
  g_Y : option Z;
  g_y : option Z
}.

Definition no_groups : groups := mk_groups None None None None.

Definition re_directive (d : directive) (g : groups) (s : string)
  : list (groups * string) :=
  match d with
  | Dir_d => map (fun '(v, r) => (mk_groups (Some v) (g_m g) (g_Y g) (g_y g), r)) (re_d s)
  | Dir_m => map (fun '(v, r) => (mk_groups (g_d g) (Some v) (g_Y g) (g_y g), r)) (re_m s)
  | Dir_Y => map (fun '(v, r) => (mk_groups (g_d g) (g_m g) (Some v) (g_y g), r)) (re_Y s)
  | Dir_y => map (fun '(v, r) => (mk_groups (g_d g) (g_m g) (g_Y g) (Some v), r)) (re_y s)
  | Lit c =>
      match s with
      | String a r => if Ascii.eqb a c then [(g, r)] else []
      | EmptyString => []
      end
  end.

(** All the ways the regex of a format matches a prefix of [s], first the
    one [re.match] returns. *)
Fixpoint re_matches (ds : list directive) (g : groups) (s : string)
  : list (groups * string) :=
  match ds with
  | [] => [(g, s)]
  | d :: ds' =>
      flat_map (fun '(g', r) => re_matches ds' g' r) (re_directive d g s)
  end.

Definition value_error (msg : string) : exn := mk_exn ValueError msg.

(** The year of a match: [%Y], or [%y] with the POSIX pivot, or 1900. *)
Definition year_of_groups (g : groups) : Z :=
  match g_Y g, g_y g with
  | Some y, _ => y
  | None, Some y => if y <=? 68 then y + 2000 else y + 1900
  | None, None => 1900
  end.

(** [datetime.strptime(data_string, fmt)]: the date of the result, or the
    [ValueError] it raises. *)
Definition strptime (data_string fmt : string) : exn + datelike :=
  match parse_format fmt with
  | None => inl (value_error "bad directive in format")
  | Some ds =>
      match re_matches ds no_groups data_string with
      | [] => inl (value_error "time data does not match format")
      | (g, rest) :: _ =>
          match rest with
          | String _ _ => inl (value_error "unconverted data remains")
          | EmptyString =>
              let dt := mk_datelike (match g_d g with Some d => d | None => 1 end)
                                    (match g_m g with Some m => m | None => 1 end)
                                    (year_of_groups g) in
              if valid_date dt then inr dt
              else inl (value_error "day is out of range for month")
          end
      end
  end.

(** ** [pd.to_datetime(value, unit='D', origin='1899-12-30')] *)

(** The day after and the day before a date. *)
Definition next_day (d : datelike) : datelike :=
  if dl_day d <? days_in_month (dl_year d) (dl_month d)
  then mk_datelike (dl_day d + 1) (dl_month d) (dl_year d)
  else if dl_month d <? 12
  then mk_datelike 1 (dl_month d + 1) (dl_year d)
  else mk_datelike 1 1 (dl_year d + 1).

Definition prev_day (d : datelike) : datelike :=
  if 1 <? dl_day d
  then mk_datelike (dl_day d - 1) (dl_month d) (dl_year d)
  else if 1 <? dl_month d
  then mk_datelike (days_in_month (dl_year d) (dl_month d - 1))
                   (dl_month d - 1) (dl_year d)
  else mk_datelike 31 12 (dl_year d - 1).

(** The date [n] days after [d] (before it, when [n] is negative). *)
Definition add_days (d : datelike) (n : Z) : datelike :=
  if 0 <=? n then Nat.iter (Z.to_nat n) next_day d
  else Nat.iter (Z.to_nat (- n)) prev_day d.

Definition origin : datelike := mk_datelike 30 12 1899.
Definition unix_epoch : datelike := mk_datelike 1 1 1970.

(** The offset of the origin from the Unix epoch, in days. *)
Definition ioffset : Z := toordinal origin - toordinal unix_epoch.

(** The conversion shifts the value to a count of days from 1970-01-01 and
    makes a [Timestamp] of it.  A [Timestamp] counts nanoseconds in a
    signed 64-bit integer: the day count times 86400 * 10^9 has to fit,
    which leaves the days -106751 .. 106751 around 1970-01-01;
    [OutOfBoundsDatetime] is raised outside. *)
Definition ns_per_day : Z := 86400 * 1000000000.
Definition int64_max : Z := 9223372036854775807.

Definition to_datetime_days (value : Z) : exn + datelike :=
  let arg := value + ioffset in
  if Z.abs (arg * ns_per_day) <=? int64_max
  then inr (add_days unix_epoch arg)
  else inl (mk_exn OutOfBoundsDatetime "cannot convert input with unit 'D'").

(** ** [GoogleFormSubmitter._parse_date_value] (lines 196-237) *)

Definition date_formats : list string :=
  ["%d-%m-%Y"; "%Y-%m-%d"; "%m/%d/%Y"; "%d/%m/%Y"; "%d-%m-%y"; "%Y/%m/%d"].

(** [day, month, year], each possibly [None]. *)
Definition date_triple : Type := (option Z * option Z * option Z)%type.

Definition triple_of (dt : datelike) : date_triple :=
  (Some (dl_day dt), Some (dl_month dt), Some (dl_year dt)).

(** The [for fmt in [...]] loop: the first format that parses wins, a
    [ValueError] moves on to the next one, any other exception leaves the
    loop and is caught by the enclosing [except Exception]. *)
Fixpoint try_formats (value : string) (fmts : list string) : date_triple :=
  match fmts with
  | [] => (None, None, None)
  | fmt :: rest =>
      match strptime value fmt with
      | inr dt => triple_of dt
      | inl e =>
          if is_value_error e then try_formats value rest
          else (None, None, None)
      end
  end.

Definition _parse_date_value (value : pyval) : date_triple :=
  match value with
  | VDate d _ => triple_of d
  | VStr s => let value := strip s in try_formats value date_formats
  | VInt n =>
      match to_datetime_days n with
      | inr dt => triple_of dt
      | inl _ => (None, None, None)
      end
  | VOther _ => (None, None, None)
  end.

(** ** The browser and the state of a [GoogleFormSubmitter] *)

(** A [WebElement] handle. *)
Definition element : Type := nat.

(** What a call into Selenium comes back with: an exception, or the
    elements it found and the text (attribute, tag name, page source) it
    read.  Each call takes from the reply what its result type needs. *)
Record reply : Type := mk_reply {
  r_exn : option exn;
  r_elems : list element;
  r_text : option string
}.

(** The page, as the sequence of replies to the calls made on it. *)
Definition oracle : Type := nat -> reply.

(** [self.form_map[key]]: the dictionary built at lines 180-185. *)
Record field_info : Type := mk_field_info {
  fi_xpath : string;
  fi_type : string;
  fi_label : string;
  fi_index : Z
}.

(** A Python [dict] with string keys: an association list in insertion
    order, an assignment to a key that is there replacing its value. *)
Definition dict (V : Type) : Type := list (string * V).

Fixpoint dict_get {V : Type} (k : string) (d : dict V) : option V :=
  match d with
  | [] => None
  | (k', v) :: r => if String.eqb k' k then Some v else dict_get k r
  end.

Fixpoint dict_set {V : Type} (k : string) (v : V) (d : dict V) : dict V :=
  match d with
  | [] => [(k, v)]
  | (k', v') :: r =>
      if String.eqb k' k then (k', v) :: r else (k', v') :: dict_set k v r
  end.

Definition dict_keys {V : Type} (d : dict V) : list string := map fst d.

(** What can be observed of a run: the pages loaded, the keys sent, the
    end of the session, the progress callback's arguments, and two of the
    lines written to the console: ["Mapped: ..."] (line 186) and
    ["Successfully filled"] / ["Failed to fill field"] (lines 435, 437). *)
Inductive event : Type :=
| EvGet (url : string)
| EvSendKeys (target : element) (keys : string)
| EvSetValue (target : element) (value : string)
| EvQuit
| EvMapped (info : field_info)
| EvFilled (col : string) (ok : bool)
| EvProgress (current_row total_rows success fail : Z) (message : string).

Record world : Type := mk_world {
  w_clock : nat;              (** calls into Selenium made so far *)
  w_trace : list event;       (** oldest first *)
  w_errors : list string;     (** [self.errors] *)
  w_form_map : dict field_info;  (** [self.form_map] *)
  w_driver : bool             (** [self.driver] is set *)
}.

Definition initial_world : world := mk_world 0 [] [] [] false.

(** ** Computations that change the state and may raise *)

Inductive outcome (A : Type) : Type :=
| Ret (a : A)
| Raise (e : exn).
Arguments Ret {A} a.
Arguments Raise {A} e.

Definition M (A : Type) : Type := world -> outcome A * world.

Definition ret {A : Type} (a : A) : M A := fun w => (Ret a, w).

Definition raise {A : Type} (e : exn) : M A := fun w => (Raise e, w).

Definition bind {A B : Type} (m : M A) (f : A -> M B) : M B :=
  fun w =>
    match m w with
    | (Ret a, w') => f a w'
    | (Raise e, w') => (Raise e, w')
    end.

Declare Scope m_scope.
Delimit Scope m_scope with M.
Bind Scope m_scope with M.

Notation "x <- c1 ;; c2" := (bind c1 (fun x => c2))
  (at level 61, c1 at next level, right associativity) : m_scope.
Notation "' pat <- c1 ;; c2" := (bind c1 (fun x => match x with pat => c2 end))
  (at level 61, pat pattern, c1 at next level, right associativity) : m_scope.
Notation "c1 ;; c2" := (bind c1 (fun _ => c2))
  (at level 61, right associativity) : m_scope.

Open Scope m_scope.

(** [try: body except Exception as e: handler(e)]. *)
Definition try_except {A : Type} (body : M A) (handler : exn -> M A) : M A :=
  fun w =>
    match body w with
    | (Ret a, w') => (Ret a, w')
    | (Raise e, w') => handler e w'
    end.

(** [try: body except TimeoutException: handler]. *)
Definition try_except_timeout {A : Type} (body : M A) (handler : M A) : M A :=
  try_except body (fun e => if is_timeout e then handler else raise e).

(** [try: body finally: final]. *)
Definition try_finally {A : Type} (body : M A) (final : M unit) : M A :=
  fun w =>
    match body w with
    | (o, w') =>
        match final w' with
        | (Ret _, w'') => (o, w'')
        | (Raise e, w'') => (Raise e, w'')
        end
    end.

Definition py_exception (msg : string) : exn := mk_exn PyException msg.

Definition newline : string := String "010" "".

(** The [TimeoutException] of [WebDriverWait.until] and the
    [NoSuchElementException] of [find_element], with their [str()]. *)
Definition timeout_exception : exn :=
  mk_exn TimeoutException ("Message: " ++ newline).

Definition no_such_element : exn :=
  mk_exn NoSuchElementException
         ("Message: no such element: Unable to locate element" ++ newline).

Definition log (ev : event) : M unit :=
  fun w => (Ret tt, mk_world (w_clock w) (w_trace w ++ [ev]) (w_errors w)
                             (w_form_map w) (w_driver w)).

(** [self.errors.append(msg)] and [self.errors = []]. *)
Definition append_error (msg : string) : M unit :=
  fun w => (Ret tt, mk_world (w_clock w) (w_trace w) (w_errors w ++ [msg])
                             (w_form_map w) (w_driver w)).

Definition reset_errors : M unit :=
  fun w => (Ret tt, mk_world (w_clock w) (w_trace w) []
                             (w_form_map w) (w_driver w)).

Definition get_errors : M (list string) := fun w => (Ret (w_errors w), w).

Definition set_form_map (fm : dict field_info) : M unit :=
  fun w => (Ret tt, mk_world (w_clock w) (w_trace w) (w_errors w)
                             fm (w_driver w)).

Definition get_form_map : M (dict field_info) :=
  fun w => (Ret (w_form_map w), w).

Definition set_driver : M unit :=
  fun w => (Ret tt, mk_world (w_clock w) (w_trace w) (w_errors w)
                             (w_form_map w) true).

Definition has_driver : M bool := fun w => (Ret (w_driver w), w).

(** Python's truth value of [str | None]. *)
Definition truthy (s : option string) : bool :=
  match s with
  | Some (String _ _) => true
  | _ => false
  end.

Definition or_empty (s : option string) : string :=
  match s with
  | Some t => t
  | None => ""
  end.

Section Submitter.

(** The page the browser shows, and [self.form_url]. *)
Variable page : oracle.
Variable form_url : string.

(** One call into Selenium: the next reply of the page. *)
Definition call : M reply :=
  fun w => (Ret (page (w_clock w)),
            mk_world (S (w_clock w)) (w_trace w) (w_errors w)
                     (w_form_map w) (w_driver w)).

(** A call whose result is not used: [click], [clear], [execute_script],
    [save_screenshot], reading [current_url] or [title] for a message. *)
Definition call_unit : M unit :=
  r <- call ;;
  match r_exn r with
  | Some e => raise e
  | None => ret tt
  end.

(** [get_attribute], [text], [tag_name], [page_source]. *)
Definition call_text : M (option string) :=
  r <- call ;;
  match r_exn r with
  | Some e => raise e
  | None => ret (r_text r)
  end.

(** [find_elements]. *)
Definition find_elements (xpath : string) : M (list element) :=
  r <- call ;;
  match r_exn r with
  | Some e => raise e
  | None => ret (r_elems r)
  end.

(** [find_element]: the first element, or [NoSuchElementException]. *)
Definition find_element (xpath : string) : M element :=
  r <- call ;;
  match r_exn r with
  | Some e => raise e
  | None =>
      match r_elems r with
      | x :: _ => ret x
      | [] => raise no_such_element
      end
  end.

(** [WebDriverWait(driver, t).until(EC.presence_of_element_located(...))]
    and [...until(EC.element_to_be_clickable(...))]: the element, or
    [TimeoutException] when none shows up in time. *)
Definition wait_until (xpath : string) : M element :=
  r <- call ;;
  match r_exn r with
  | Some e => raise e
  | None =>
      match r_elems r with
      | x :: _ => ret x
      | [] => raise timeout_exception
      end
  end.

Definition driver_get (url : string) : M unit :=
  log (EvGet url) ;; call_unit.

Definition send_keys (target : element) (keys : string) : M unit :=
  log (EvSendKeys target keys) ;; call_unit.

Definition driver_quit : M unit :=
  log EvQuit ;; call_unit.

Definition scroll_into_view (target : element) : M unit := call_unit.
Definition click (target : element) : M unit := call_unit.
Definition clear (target : element) : M unit := call_unit.
Definition get_attribute (target : element) (name : string)
  : M (option string) := call_text.

Definition TAB : string := String "009" "".

(** ** [_extract_form_mapping] (lines 97-194) *)

Definition selectors : list string :=
  ["//div[@role='listitem']";
   "//div[contains(@class, 'freebirdFormviewerComponentsQuestionBaseRoot')]";
   "//div[contains(@class, 'freebirdFormviewerViewNumberedItemContainer')]";
   "//div[@data-params]"].

(** Lines 136-149: the first selector that finds something. *)
Fixpoint find_questions (sels : list string) : M (list element) :=
  match sels with
  | [] => ret []
  | selector :: rest =>
      found <- try_except_timeout
                 (wait_until selector ;;
                  questions <- find_elements selector ;;
                  ret (Some questions))
                 (ret None) ;;
      match found with
      | Some (q :: qs) => ret (q :: qs)
      | _ => find_questions rest
      end
  end.

Fixpoint read_roles (divs : list element) : M unit :=
  match divs with
  | [] => ret tt
  | d :: rest => get_attribute d "role" ;; read_roles rest
  end.

(** Lines 152-161: a look at the page when no question was found. *)
Definition inspect_page : M unit :=
  try_except
    (find_elements "form" ;;
     divs <- find_elements "//div[@role]" ;;
     read_roles (firstn 20 divs))
    (fun _ => ret tt).

Definition question_xpath (index : Z) : string :=
  "(//div[@role='listitem'])[" ++ str_of_Z index
  ++ "]//input | (//div[@role='listitem'])[" ++ str_of_Z index
  ++ "]//textarea".

(** Lines 168-192: one question [q], the [idx]-th counting from 0.  A
    question without heading or without input leaves [mapping] as it is. *)
Definition map_question (idx : Z) (q : element) (mapping : dict field_info)
  : M (dict field_info) :=
  try_except
    (label_elem <- find_element ".//div[@role='heading']" ;;
     label_text <- call_text ;;
     let label := or_empty label_text in
     try_except
       (input_box <- find_element ".//input | .//textarea" ;;
        type_attr <- get_attribute input_box "type" ;;
        field_type <- (if truthy type_attr then ret (or_empty type_attr)
                       else tag <- call_text ;; ret (or_empty tag)) ;;
        let xpath := question_xpath (idx + 1) in
        let info := mk_field_info xpath field_type label (idx + 1) in
        log (EvMapped info) ;;
        ret (dict_set (normalize (VStr label)) info mapping))
       (fun _ => ret mapping))
    (fun _ => ret mapping).

(** Lines 167-192: [for idx, q in enumerate(questions)]. *)
Fixpoint map_questions (idx : Z) (questions : list element)
         (mapping : dict field_info) : M (dict field_info) :=
  match questions with
  | [] => ret mapping
  | q :: rest =>
      mapping' <- map_question idx q mapping ;;
      map_questions (idx + 1) rest mapping'
  end.

Definition _extract_form_mapping : M (dict field_info) :=
  try_except_timeout
    (wait_until "body" ;; ret tt)
    (raise (py_exception "Page failed to load")) ;;
  call_unit ;;                          (* save_screenshot *)
  call_unit ;;                          (* current_url *)
  call_unit ;;                          (* title *)
  source <- call_text ;;
  let page_source := lower (or_empty source) in
  if py_in "sorry" page_source && py_in "access" page_source
  then raise (py_exception "Form access denied - the form may be restricted")
  else
    questions <- find_questions selectors ;;
    match questions with
    | [] =>
        inspect_page ;;
        raise (py_exception
                 "No form questions found. The form may not have loaded correctly.")
    | _ => map_questions 0 questions []
    end.

(** ** [_fill_date_field] (lines 239-344) *)

(** The longest prefix of digits, and what follows it. *)
Fixpoint span_digits (s : string) : string * string :=
  match s with
  | EmptyString => ("", "")
  | String c r =>
      if isdigit c
      then let '(ds, rest) := span_digits r in (String c ds, rest)
      else ("", s)
  end.

(** [re.search(r'\[(\d+)\]', s)]: group 1 of the leftmost match. *)
Fixpoint search_index (s : string) : option string :=
  match s with
  | EmptyString => None
  | String c r =>
      if Ascii.eqb c "["
      then match span_digits r with
           | (String d ds, String "]" _) => Some (String d ds)
           | _ => search_index r
           end
      else search_index r
  end.

(** Lines 269-293: one of the separate day, month and year inputs. *)
Definition fill_date_part (day month year : Z) (inp : element) : M unit :=
  aria <- get_attribute inp "aria-label" ;;
  let aria_label := lower (or_empty aria) in
  ph <- get_attribute inp "placeholder" ;;
  let placeholder := lower (or_empty ph) in
  let label_text := aria_label ++ placeholder in
  scroll_into_view inp ;;
  click inp ;;
  clear inp ;;
  if py_in "day" label_text || py_in "dd" label_text
  then send_keys inp (zfill2 (str_of_Z day))
  else if py_in "month" label_text || py_in "mm" label_text
  then send_keys inp (zfill2 (str_of_Z month))
  else if py_in "year" label_text || py_in "yyyy" label_text
  then send_keys inp (str_of_Z year)
  else ret tt.

Fixpoint fill_date_parts (day month year : Z) (inputs : list element)
  : M unit :=
  match inputs with
  | [] => ret tt
  | inp :: rest =>
      fill_date_part day month year inp ;;
      fill_date_parts day month year rest
  end.

(** Lines 262-338: the body of one attempt; [true] when it reaches one of
    its [return True], [false] when it falls through. *)
Definition date_attempt (base_xpath : string) (day month year : Z) : M bool :=
  date_inputs <- find_elements
                   (base_xpath ++ "//input[@type='text' or @type='tel']") ;;
  if (3 <=? length date_inputs)%nat
  then fill_date_parts day month year date_inputs ;; ret true
  else
    date_input <- find_elements (base_xpath ++ "//input[@type='date']") ;;
    match date_input with
    | field :: _ =>
        scroll_into_view field ;;
        let date_str := str_of_Z year ++ "-" ++ zfill2 (str_of_Z month)
                        ++ "-" ++ zfill2 (str_of_Z day) in
        log (EvSetValue field date_str) ;;
        call_unit ;;
        ret true
    | [] =>
        text_inputs <- find_elements (base_xpath ++ "//input") ;;
        match text_inputs with
        | field :: _ =>
            scroll_into_view field ;;
            click field ;;
            clear field ;;
            let date_str := zfill2 (str_of_Z day) ++ "-"
                            ++ zfill2 (str_of_Z month) ++ "-"
                            ++ str_of_Z year in
            send_keys field date_str ;;
            send_keys field TAB ;;
            ret true
        | [] => ret false
        end
    end.

(** [for attempt in range(max_retries): try: ... except Exception: ...],
    then [return False]. *)
Fixpoint retry (max_retries : nat) (attempt : M bool) : M bool :=
  match max_retries with
  | O => ret false
  | S k =>
      done <- try_except attempt (fun _ => ret false) ;;
      if done then ret true else retry k attempt
  end.

Definition _fill_date_field (question_container_xpath : string)
           (value : pyval) (max_retries : nat) : M bool :=
  match _parse_date_value value with
  | (Some day, Some month, Some year) =>
      match search_index question_container_xpath with
      | None => ret false
      | Some q_index =>
          let base_xpath := "(//div[@role='listitem'])[" ++ q_index ++ "]" in
          retry max_retries (date_attempt base_xpath day month year)
      end
  | _ => ret false
  end.

(** ** [_fill_field_with_retry] (lines 346-397) *)

(** Lines 360-391: one attempt on a field that is not a date. *)
Definition field_attempt (xpath field_type : string) (value : pyval)
  : M bool :=
  field <- wait_until xpath ;;
  scroll_into_view field ;;
  click field ;;
  clear field ;;
  send_keys field (py_str value) ;;
  (if String.eqb field_type "email" then send_keys field TAB else ret tt) ;;
  entered_value <- get_attribute field "value" ;;
  ret (truthy entered_value).

Definition _fill_field_with_retry (info : field_info) (value : pyval)
           (max_retries : nat) : M bool :=
  let xpath := fi_xpath info in
  let field_type := fi_type info in
  if String.eqb field_type "date"
  then _fill_date_field xpath value max_retries
  else retry max_retries (field_attempt xpath field_type value).

(** ** [_wait_for_submission_confirmation] (lines 399-411) *)

Definition confirmation_xpath : string :=
  "//*[contains(text(), 'Your response has been recorded') or contains(text(), 'submitted')]".

Definition _wait_for_submission_confirmation : M bool :=
  try_except_timeout
    (wait_until confirmation_xpath ;; ret true)
    (ret false).

(** ** [_submit_row] (lines 413-487) *)

(** A row of the sheet: its cells by column label, in column order. *)
Definition row : Type := list (string * pyval).

Definition row_prefix (row_index : Z) : string :=
  "Row " ++ str_of_Z (row_index + 1) ++ ": ".

(** Lines 427-440: the loop over the cells of the row. *)
Fixpoint fill_columns (items : row) (filled_count : Z)
         (failed_fields : list string) : M (Z * list string) :=
  match items with
  | [] => ret (filled_count, failed_fields)
  | (col, value) :: rest =>
      form_map <- get_form_map ;;
      let key := normalize (VStr col) in
      match dict_get key form_map with
      | Some info =>
          ok <- _fill_field_with_retry info value 3 ;;
          log (EvFilled col ok) ;;
          if ok
          then fill_columns rest (filled_count + 1) failed_fields
          else fill_columns rest filled_count (failed_fields ++ [col])
      | None => fill_columns rest filled_count failed_fields
      end
  end.

(** Lines 416-448: load the form, fill it, record the fields that failed. *)
Definition fill_form (r : row) (row_index : Z) : M unit :=
  driver_get form_url ;;
  wait_until "//div[@role='listitem']" ;;
  '(filled_count, failed_fields) <- fill_columns r 0 [] ;;
  match failed_fields with
  | [] => ret tt
  | _ => append_error (row_prefix row_index ++ "Failed fields - "
                       ++ join ", " failed_fields)
  end.

(** Lines 451-481: press the submit button and wait for the confirmation. *)
Definition press_submit (row_index : Z) : M bool :=
  try_except_timeout
    (submit_btn <- wait_until "//div[@role='button' and @aria-label='Submit']" ;;
     scroll_into_view submit_btn ;;
     call_unit ;;                       (* arguments[0].click() *)
     confirmed <- _wait_for_submission_confirmation ;;
     if confirmed then ret true
     else
       append_error (row_prefix row_index
                     ++ "Submission confirmation not received") ;;
       ret false)
    (append_error (row_prefix row_index ++ "Submit button not found") ;;
     ret false).

Definition _submit_row (r : row) (row_index : Z) : M bool :=
  try_except
    (fill_form r row_index ;; press_submit row_index)
    (fun e =>
       append_error (row_prefix row_index ++ exn_str e) ;;
       ret false).

(** ** [run] (lines 489-588) *)

(** The dictionary [run] returns. *)
Record run_result : Type := mk_run_result {
  total_rows : Z;
  success_count : Z;
  fail_count : Z;
  errors : list string
}.

(** The progress callback: what it is called with, and whether it raises. *)
Definition callback : Type := Z -> Z -> Z -> Z -> string -> option exn.

Definition call_progress (progress_callback : option callback)
           (current total success fail : Z) (message : string) : M unit :=
  match progress_callback with
  | None => ret tt
  | Some f =>
      log (EvProgress current total success fail message) ;;
      match f current total success fail message with
      | Some e => raise e
      | None => ret tt
      end
  end.

(** Lines 515-529: consent dialogs, every failure being ignored. *)
Fixpoint click_each (buttons : list element) : M unit :=
  match buttons with
  | [] => ret tt
  | btn :: rest =>
      try_except (click btn) (fun _ => ret tt) ;;
      click_each rest
  end.

Definition consent_xpath : string :=
  "//button[contains(text(), 'Accept') or contains(text(), 'I agree') or contains(text(), 'Continue')]".

Definition dismiss_consent : M unit :=
  try_except
    (consent_buttons <- find_elements consent_xpath ;;
     click_each consent_buttons)
    (fun _ => ret tt).

(** Lines 508-529: the first load of the form. *)
Definition open_form : M unit :=
  driver_get form_url ;;
  dismiss_consent.

(** Lines 550-567: [for index, row in df.iterrows()], [index] counting
    from 0. *)
Fixpoint submit_rows (progress_callback : option callback) (total : Z)
         (rows : list row) (index success fail : Z) : M (Z * Z) :=
  match rows with
  | [] => ret (success, fail)
  | r :: rest =>
      ok <- _submit_row r index ;;
      let success' := if ok then success + 1 else success in
      let fail' := if ok then fail else fail + 1 in
      call_progress progress_callback (index + 1) total success' fail'
        ("Processing row " ++ str_of_Z (index + 1) ++ "/" ++ str_of_Z total) ;;
      submit_rows progress_callback total rest (index + 1) success' fail'
  end.

Definition no_fields_exception : exn :=
  py_exception "No form fields detected! Check the form URL.".

(** Lines 531-579: from the mapping to the result. *)
Definition map_and_submit (progress_callback : option callback)
           (df : list row) : M run_result :=
  let total := Z.of_nat (length df) in
  form_map <- _extract_form_mapping ;;
  set_form_map form_map ;;
  match form_map with
  | [] => raise no_fields_exception
  | _ =>
      '(success, fail) <- submit_rows progress_callback total df 0 0 0 ;;
      errs <- get_errors ;;
      ret (mk_run_result total success fail errs)
  end.

(** Lines 586-588: [if self.driver: self.driver.quit()]. *)
Definition release : M unit :=
  live <- has_driver ;;
  if live then driver_quit else ret tt.

(** [pd.read_excel] either raises or gives the rows of the sheet;
    [_create_driver] starts the browser. *)
Definition _create_driver : M unit :=
  call_unit ;; set_driver.

Definition run (excel : exn + list row) (progress_callback : option callback)
  : M run_result :=
  df <- (match excel with
         | inl e => raise e
         | inr rows => ret rows
         end) ;;
  _create_driver ;;
  reset_errors ;;
  try_finally
    (open_form ;; map_and_submit progress_callback df)
    release.

End Submitter.

Close Scope m_scope.

(** ** Dates *)

(** A date of the calendar, whatever its year. *)
Definition wf_date (d : datelike) : Prop :=
  1 <= dl_month d <= 12
  /\ 1 <= dl_day d <= days_in_month (dl_year d) (dl_month d).

(** The serials whose date a nanosecond [Timestamp] can hold:
    1677-09-22 .. 2262-04-11. *)
Definition serial_min : Z := -81182.
Definition serial_max : Z := 132320.

(** A triple is whole when its three components are there, and empty when
    none is. *)
Definition all_some (t : date_triple) : bool :=
  match t with
  | (Some _, Some _, Some _) => true
  | _ => false
  end.

Definition all_none (t : date_triple) : bool :=
  match t with
  | (None, None, None) => true
  | _ => false
  end.

(** ** The texts a directive matches *)

Definition digit1 (w : string) : Prop :=
  exists a, w = String a "" /\ isdigit a = true.

Definition digit2 (w : string) : Prop :=
  exists a b, w = String a (String b "") /\ isdigit a = true /\ isdigit b = true.

Definition space_digit (w : string) : Prop :=
  exists b, w = String " " (String b "") /\ isdigit b = true.

Definition digit4 (w : string) : Prop :=
  exists a b c d,
    w = String a (String b (String c (String d "")))
    /\ isdigit a = true /\ isdigit b = true
    /\ isdigit c = true /\ isdigit d = true.

Definition text_of (d : directive) (w : string) : Prop :=
  match d with
  | Dir_d => digit1 w \/ digit2 w \/ space_digit w
  | Dir_m => digit1 w \/ digit2 w
  | Dir_Y => digit4 w
  | Dir_y => digit2 w
  | Lit c => w = String c ""
  end.

(** The language of a format: the texts of its directives, one after the
    other. *)
Fixpoint lang (ds : list directive) (w : string) : Prop :=
  match ds with
  | [] => w = ""
  | d :: ds' => exists w1 w2, w = w1 ++ w2 /\ text_of d w1 /\ lang ds' w2
  end.

(** The six formats of [_parse_date_value], as directives. *)
Definition fmt_dmY : list directive := [Dir_d; Lit "-"; Dir_m; Lit "-"; Dir_Y].
Definition fmt_Ymd : list directive := [Dir_Y; Lit "-"; Dir_m; Lit "-"; Dir_d].
Definition fmt_mdY_slash : list directive := [Dir_m; Lit "/"; Dir_d; Lit "/"; Dir_Y].
Definition fmt_dmY_slash : list directive := [Dir_d; Lit "/"; Dir_m; Lit "/"; Dir_Y].
Definition fmt_dmy : list directive := [Dir_d; Lit "-"; Dir_m; Lit "-"; Dir_y].
Definition fmt_Ymd_slash : list directive := [Dir_Y; Lit "/"; Dir_m; Lit "/"; Dir_d].

(** ** Scripted pages *)

Definition ok : reply := mk_reply None [] None.
Definition found (l : list element) : reply := mk_reply None l None.
Definition text (s : string) : reply := mk_reply None [] (Some s).
Definition raises (e : exn) : reply := mk_reply (Some e) [] None.

(** The page that answers with the replies of [l], in order, and with
    [default] from then on. *)
Definition script (l : list reply) (default : reply) : oracle :=
  fun n => nth n l default.

(** A form with the single text question "Name", loaded without trouble:
    the replies up to the end of [_extract_form_mapping]. *)
Definition one_question_form : list reply :=
  [ok;                (* _create_driver *)
   ok;                (* driver.get *)
   found [];          (* consent buttons *)
   found [1%nat];     (* body *)
   ok; ok; ok;        (* screenshot, current_url, title *)
   text "<html>";     (* page_source *)
   found [10%nat];    (* wait for the first selector *)
   found [10%nat];    (* the questions *)
   found [11%nat];    (* heading *)
   text "Name *";     (* its text *)
   found [12%nat];    (* input *)
   text "text"].      (* its type *)

Definition sample_url : string := "https://docs.google.com/forms/d/e/x/viewform".

Definition sample_row : row := [("Name", VStr "Asha")].

(** ** Properties of computations *)

(** [m] never raises. *)
Definition total {A : Type} (m : M A) : Prop :=
  forall w, exists a, fst (m w) = Ret a.

(** [m] only adds events that satisfy [P] to the trace. *)
Definition emits (P : event -> Prop) {A : Type} (m : M A) : Prop :=
  forall w, exists evs,
    w_trace (snd (m w)) = (w_trace w ++ evs)%list /\ Forall P evs.

(** [m] leaves [self.errors], [self.form_map] and [self.driver] alone. *)
Definition steady {A : Type} (m : M A) : Prop :=
  forall w,
    w_errors (snd (m w)) = w_errors w
    /\ w_form_map (snd (m w)) = w_form_map w
    /\ w_driver (snd (m w)) = w_driver w.

(** Events of the browser proper. *)
Definition browser_event (ev : event) : Prop :=
  match ev with
  | EvGet _ | EvSendKeys _ _ | EvSetValue _ _ => True
  | _ => False
  end.

(** Events of the submission of one row. *)
Definition row_event (ev : event) : Prop :=
  match ev with
  | EvGet _ | EvSendKeys _ _ | EvSetValue _ _ | EvFilled _ _ => True
  | _ => False
  end.

(** What the callback is told: as many rows counted as processed, and the
    number of rows of the sheet. *)
Definition progress_ok (total : Z) (ev : event) : Prop :=
  match ev with
  | EvProgress current_row total_rows success fail _ =>
      success + fail = current_row /\ total_rows = total
      /\ 1 <= current_row <= total
  | _ => True
  end.

(** The message of line 446. *)
Definition failed_fields_message (msg : string) : Prop :=
  exists row_index cols,
    cols <> []
    /\ msg = row_prefix row_index ++ "Failed fields - " ++ join ", " cols.

(** The descriptor last announced for the key [k] in a trace. *)
Fixpoint last_mapped (k : string) (evs : list event) : option field_info :=
  match evs with
  | [] => None
  | ev :: rest =>
      match last_mapped k rest with
      | Some info => Some info
      | None =>
          match ev with
          | EvMapped info =>
              if String.eqb (normalize (VStr (fi_label info))) k
              then Some info else None
          | _ => None
          end
      end
  end.

(** The reply of a wait that finds nothing in time. *)
Definition times_out (r : reply) : Prop :=
  match r_exn r with
  | Some e => is_timeout e = true
  | None => r_elems r = []
  end.

(** [w1] is [w] after the events [evs], all of them satisfying [P], the
    rest of the state being the same. *)
Definition advance (P : event -> Prop) (w w1 : world) (evs : list event)
  : Prop :=
  w_trace w1 = (w_trace w ++ evs)%list
  /\ Forall P evs
  /\ w_errors w1 = w_errors w
  /\ w_form_map w1 = w_form_map w
  /\ w_driver w1 = w_driver w.

Definition no_event (ev : event) : Prop := False.

Definition name_field : field_info :=
  mk_field_info (question_xpath 1) "text" "Name *" 1.

(** The state once [one_question_form] has been mapped. *)
Definition mapped_world : world :=
  mk_world 0 [] [] [("name", name_field)] true.

(** A row whose only field cannot be filled (the three attempts time out)
    and whose submission is confirmed all the same. *)
Definition row_unfilled_confirmed : list reply :=
  [ok; found [10%nat];             (* driver.get, wait for the questions *)
   found []; found []; found [];   (* three attempts, the field not there *)
   found [20%nat]; ok; ok;         (* submit button, scroll, click *)
   found [30%nat]].                (* confirmation *)

(** A row filled and confirmed. *)
Definition row_filled_confirmed : list reply :=
  [ok; found [10%nat];
   found [12%nat]; ok; ok; ok; ok; text "Asha";   (* one attempt *)
   found [20%nat]; ok; ok;
   found [30%nat]].

(** A row filled, the submit button never showing up. *)
Definition row_filled_no_button : list reply :=
  [ok; found [10%nat];
   found [12%nat]; ok; ok; ok; ok; text "Asha";
   found []].

(** A page whose only question has no heading: nothing is mapped. *)
Definition form_without_fields : list reply :=
  [ok; ok; found [];
   found [1%nat]; ok; ok; ok; text "<html>";
   found [5%nat]; found [5%nat]].

(** A form with two questions, "Name *" and " name", the mapping step
    alone. *)
Definition two_names_form : list reply :=
  [found [1%nat]; ok; ok; ok; text "<html>";
   found [10%nat]; found [10%nat; 20%nat];
   found [11%nat]; text "Name *"; found [12%nat]; text "text";
   found [21%nat]; text " name"; found [22%nat]; text "email"].

(** The pages of the examples. *)
Definition confirmed_page : oracle :=
  script (one_question_form ++ row_filled_confirmed) ok.

Definition unfilled_page : oracle :=
  script (one_question_form ++ row_unfilled_confirmed) ok.


Definition no_button_page : oracle := script row_filled_no_button ok.

Definition no_fields_page : oracle := script form_without_fields ok.

Definition two_names_page : oracle := script two_names_form ok.

Definition second_name_field : field_info :=
  mk_field_info (question_xpath 2) "email" " name" 2.


(** ** What the rows of a run answer *)

(** The answers of [_submit_row] for the rows of the loop of [run] (lines
    550-567), in the order of the sheet: the loop itself, collecting what
    line 555 tests. *)
Fixpoint row_answers (page : oracle) (form_url : string)
         (progress_callback : option callback) (total : Z)
         (rows : list row) (index success fail : Z) : M (list bool) :=
  match rows with
  | [] => ret []
  | r :: rest =>
      bind (_submit_row page form_url r index) (fun ok =>
      let success' := if ok then success + 1 else success in
      let fail' := if ok then fail else fail + 1 in
      bind (call_progress progress_callback (index + 1) total success' fail'
              ("Processing row " ++ str_of_Z (index + 1) ++ "/"
               ++ str_of_Z total)) (fun _ =>
      bind (row_answers page form_url progress_callback total rest
                        (index + 1) success' fail') (fun oks =>
      ret (ok :: oks))))
  end.

(** The state of a run when it comes to the first row: the browser
    started, the form opened and mapped (lines 504-548). *)
Definition before_rows (page : oracle) (form_url : string) (w : world)
  : world :=
  snd (bind (_create_driver page) (fun _ =>
       bind reset_errors (fun _ =>
       bind (open_form page form_url) (fun _ =>
       bind (_extract_form_mapping page) (fun form_map =>
       set_form_map form_map)))) w).

(** How many of the answers are [b]. *)
Definition how_many (b : bool) (oks : list bool) : Z :=
  Z.of_nat (length (filter (Bool.eqb b) oks)).

(** A call that returns, and a wait that finds its element. *)
Definition returns (r : reply) : Prop := r_exn r = None.

Definition shows (r : reply) : Prop :=
  r_exn r = None /\ r_elems r <> [].


(** The filled form is submitted and confirmed (lines 451-470): from the
    call number [c] on, the submit button shows, the two scripts return,
    and the confirmation shows. *)
Definition confirmed (page : oracle) (c : nat) : Prop :=
  shows (page c) /\ returns (page (1 + c)%nat)
  /\ returns (page (2 + c)%nat) /\ shows (page (3 + c)%nat).

(** A form that is mapped, and whose questions never show again: no row
    gets as far as its fields. *)
Definition unconfirmed_page : oracle := script one_question_form ok.
(** ** Further definitions *)

(** Whitespace or the asterisk of a required question. *)
Definition blank_or_star (c : ascii) : bool :=
  isspace c || Ascii.eqb c "*".

(** [m] makes at most [k] calls into Selenium. *)
Definition costs (k : nat) {A : Type} (m : M A) : Prop :=
  forall w, (w_clock (snd (m w)) <= w_clock w + k)%nat.

(** The events of a run before the browser is closed. *)
Definition not_quit (ev : event) : Prop :=
  match ev with
  | EvQuit => False
  | _ => True
  end.

(** Keys sent and values set, nothing else. *)
Definition typing_event (ev : event) : Prop :=
  match ev with
  | EvSendKeys _ _ | EvSetValue _ _ => True
  | _ => False
  end.

(** Every page loaded is [url]. *)
Definition loads_only (url : string) (ev : event) : Prop :=
  match ev with
  | EvGet u => u = url
  | _ => True
  end.

(** The row numbers the callback was given, in the order of the calls. *)
Fixpoint progress_rows (evs : list event) : list Z :=
  match evs with
  | [] => []
  | EvProgress current_row _ _ _ _ :: rest => current_row :: progress_rows rest
  | _ :: rest => progress_rows rest
  end.

(** [first, first + 1, ...], [n] numbers. *)
Fixpoint count_from (first : Z) (n : nat) : list Z :=
  match n with
  | O => []
  | S k => first :: count_from (first + 1) k
  end.

(** The index of the question a descriptor points to. *)
Definition indices (fm : dict field_info) : list Z :=
  map (fun kv => fi_index (snd kv)) fm.

(** The container of the [q_index]-th question (line 258). *)
Definition base_xpath (q_index : string) : string :=
  "(//div[@role='listitem'])[" ++ q_index ++ "]".


(** The cells of a row whose column is a question of the form. *)
Definition mapped (form_map : dict field_info) (item : string * pyval)
  : bool :=
  match dict_get (normalize (VStr (fst item))) form_map with
  | Some _ => true
  | None => false
  end.

(** Events that are no call of the progress callback. *)
Definition quiet (ev : event) : Prop :=
  match ev with
  | EvProgress _ _ _ _ _ => False
  | _ => True
  end.

(** [m] calls the progress callback for the rows [first], [first + 1], ...
    in this order, for at most [n] rows, and for the [n] of them when it
    returns. *)
Definition reports (first : Z) (n : nat) {A : Type} (m : M A) : Prop :=
  forall w, exists evs k,
    w_trace (snd (m w)) = (w_trace w ++ evs)%list
    /\ progress_rows evs = count_from first k
    /\ (k <= n)%nat
    /\ (forall a, fst (m w) = Ret a -> k = n).

(** ** More scripted pages *)

(** A page on which nothing ever shows up. *)
Definition blank_page : oracle := script [] ok.

(** The text field of a question, filled at the first attempt. *)
Definition typing_page : oracle :=
  script [found [12%nat]; ok; ok; ok; ok; text "Asha"] ok.

(** The page Google shows for a form that is not shared. *)
Definition denied_page : oracle :=
  script [found [1%nat]; ok; ok; ok;
          text "<html>Sorry, you need Access to this form</html>"] ok.

(** A page that loads and holds no question. *)
Definition no_questions_page : oracle :=
  script [found [1%nat]; ok; ok; ok; text "<html>"] ok.

(** A browser that cannot reach the network. *)
Definition offline_page : oracle :=
  script [raises (mk_exn WebDriverException "net::ERR_INTERNET_DISCONNECTED")]
         ok.

(** A row filled and submitted. *)
Definition filled_row_page : oracle := script row_filled_confirmed ok.

(** ** The texts of a date *)

(** The text typed into a plain input (line 331) and the value set on an
    HTML5 date input (line 301), as [date_attempt] builds them. *)
Definition typed_date (day month year : Z) : string :=
  zfill2 (str_of_Z day) ++ "-" ++ zfill2 (str_of_Z month) ++ "-"
  ++ str_of_Z year.

Definition html5_date (day month year : Z) : string :=
  str_of_Z year ++ "-" ++ zfill2 (str_of_Z month) ++ "-"
  ++ zfill2 (str_of_Z day).

(** [str(y)] is four digits that read [y]. *)
Definition year_text (y : Z) : bool :=
  match str_of_Z y with
  | String a (String b (String c (String e ""))) =>
      isdigit a && isdigit b && isdigit c && isdigit e
      && ((((digit_val a * 10 + digit_val b) * 10 + digit_val c) * 10
           + digit_val e) =? y)
  | _ => false
  end.

(** [p] holds of [first], [first + 1], ..., [n] numbers in all. *)
Fixpoint forall_from (p : Z -> bool) (first : Z) (n : nat) : bool :=
  match n with
  | O => true
  | S k => p first && forall_from p (first + 1) k
  end.

(** What the date filler may send for the date [day], [month], [year]:
    one of its parts, the whole date as text, the TAB that follows it, or
    the value of an HTML5 date input. *)
Definition date_event (day month year : Z) (ev : event) : Prop :=
  match ev with
  | EvSendKeys _ keys =>
      keys = zfill2 (str_of_Z day) \/ keys = zfill2 (str_of_Z month)
      \/ keys = str_of_Z year \/ keys = typed_date day month year
      \/ keys = TAB
  | EvSetValue _ value => value = html5_date day month year
  | _ => False
  end.

(** A date question with three text inputs that carry no label. *)
Definition unlabelled_date_page : oracle :=
  script [found [1%nat; 2%nat; 3%nat]] ok.

(** * The server, [app.py] *)

(** An entry of [job_status], with the fields of the class [JobStatus]
    (lines 24-32). *)
Record JobStatus : Type := mk_JobStatus {
  js_job_id : string;
  js_status : string;
  js_total_rows : Z;
  js_success_count : Z;
  js_fail_count : Z;
  js_current_row : Z;
  js_message : string;
  js_errors : list string
}.

(** What the server holds: the dictionary [job_status] and the files of
    the temporary directory. *)
Record server : Type := mk_server {
  job_status : dict JobStatus;
  files : list string
}.

(** The entry [submit_form] makes for a new job (lines 114-123). *)
Definition pending (job_id : string) : JobStatus :=
  mk_JobStatus job_id "pending" 0 0 0 0 "Job queued" [].

(** [str(e)] for the [KeyError] of a missing key. *)
Definition key_error (key : string) : exn :=
  mk_exn PyException ("'" ++ key ++ "'").

(** [progress_callback] (lines 51-58) updates the entry of the job and
    returns: as [run] sees it, a callback that never raises. *)
Definition progress_callback : callback := fun _ _ _ _ _ => None.

(** One call of [progress_callback], as the trace of the run records it,
    on the entry of the job. *)
Definition on_progress (job : JobStatus) (ev : event) : JobStatus :=
  match ev with
  | EvProgress current_row total_rows success fail message =>
      mk_JobStatus (js_job_id job) (js_status job) total_rows success fail
                   current_row message (js_errors job)
  | _ => job
  end.

(** Lines 62-69. *)
Definition completed (job : JobStatus) (result : run_result) : JobStatus :=
  mk_JobStatus (js_job_id job) "completed"
               (total_rows result) (success_count result) (fail_count result)
               (js_current_row job)
               ("Completed: " ++ str_of_Z (success_count result)
                ++ " successful, " ++ str_of_Z (fail_count result)
                ++ " failed")
               (errors result).

(** Lines 72-75. *)
Definition failed (job : JobStatus) (e : exn) : JobStatus :=
  mk_JobStatus (js_job_id job) "failed"
               (js_total_rows job) (js_success_count job) (js_fail_count job)
               (js_current_row job) (exn_str e) (js_errors job).

Definition running (job : JobStatus) : JobStatus :=
  mk_JobStatus (js_job_id job) "running"
               (js_total_rows job) (js_success_count job) (js_fail_count job)
               (js_current_row job) (js_message job) (js_errors job).

(** [if os.path.exists(path): os.remove(path)] (lines 77-79), in a
    [finally] clause without a handler: the file is removed when it is
    there, unless [os.remove] raises, [removal] being what it raises
    (no permission, a directory); the exception then leaves the task, and
    the file is left as it is. *)
Definition remove_file (path : string) (removal : option exn)
           (fs : list string) : option exn * list string :=
  if existsb (String.eqb path) fs
  then match removal with
       | Some e => (Some e, fs)
       | None => (None, filter (fun p => negb (String.eqb p path)) fs)
       end
  else (None, fs).

(** [run_submission_task] (lines 40-79).  The submitter is a new one, its
    browser shows [page], [excel] is what [pd.read_excel] gives on
    [excel_path] and [removal] what [os.remove] does.  The callback given
    to [run] changes nothing but the entry of the job and does not raise
    while the entry is there: its calls are replayed from the trace of the
    run.  When the entry is missing, the first line of the [try] raises
    [KeyError], and so does the handler.  The [finally] clause runs in
    every case; an exception of its own replaces the one on its way. *)
Definition run_submission_task (page : oracle)
           (job_id form_url excel_path : string) (excel : exn + list row)
           (removal : option exn) (s : server) : option exn * server :=
  let '(raised, jobs) :=
    match dict_get job_id (job_status s) with
    | None => (Some (key_error job_id), job_status s)
    | Some job =>
        let '(o, w) := run page form_url excel (Some progress_callback)
                           initial_world in
        let job := fold_left on_progress (w_trace w) (running job) in
        let job := match o with
                   | Ret result => completed job result
                   | Raise e => failed job e
                   end in
        (None, dict_set job_id job (job_status s))
    end in
  let '(in_finally, fs) := remove_file excel_path removal (files s) in
  (match in_finally with
   | Some e => Some e
   | None => raised
   end,
   mk_server jobs fs).

(** What a handler answers: [HTTPException(status_code, detail)] or a
    value. *)
Record http_exception : Type := mk_http_exception {
  status_code : Z;
  detail : string
}.

(** [get_job_status] (lines 137-147). *)
Definition get_job_status (job_id : string) (s : server)
  : http_exception + JobStatus :=
  match dict_get job_id (job_status s) with
  | None => inl (mk_http_exception 404 "Job not found")
  | Some job => inr job
  end.
(** * Properties *)

(** ** Characters and strings *)

Ltac each_char c := destruct c as [[] [] [] [] [] [] [] []].

Lemma lower_char_idem (c : ascii) : lower_char (lower_char c) = lower_char c.
Proof. each_char c; reflexivity. Qed.

Lemma isspace_lower_char (c : ascii) : isspace (lower_char c) = isspace c.
Proof. each_char c; reflexivity. Qed.

Lemma lower_char_star (c : ascii) :
  Ascii.eqb (lower_char c) "*" = Ascii.eqb c "*".
Proof. each_char c; reflexivity. Qed.

(** *** [strip] leaves no whitespace at either end *)

Lemma head_nonspace_lstrip (s : string) : head_nonspace (lstrip s) = true.
Proof.
  induction s as [|c r IH]; simpl; [reflexivity|].
  destruct (isspace c) eqn:E; [exact IH|]. simpl. now rewrite E.
Qed.

Lemma last_nonspace_rstrip (s : string) : last_nonspace (rstrip s) = true.
Proof.
  induction s as [|c r IH]; simpl; [reflexivity|].
  destruct (rstrip r) as [|d r'] eqn:E.
  - destruct (isspace c) eqn:Ec; simpl; [reflexivity|now rewrite Ec].
  - exact IH.
Qed.

Lemma head_nonspace_rstrip (s : string) :
  head_nonspace s = true -> head_nonspace (rstrip s) = true.
Proof.
  destruct s as [|c r]; simpl; [reflexivity|].
  intros H. destruct (rstrip r); simpl.
  - destruct (isspace c) eqn:E; [discriminate H|]. simpl. now rewrite E.
  - exact H.
Qed.

Lemma lstrip_fix (s : string) : head_nonspace s = true -> lstrip s = s.
Proof.
  destruct s as [|c r]; simpl; [reflexivity|].
  destruct (isspace c); [discriminate|reflexivity].
Qed.

Lemma rstrip_fix (s : string) : last_nonspace s = true -> rstrip s = s.
Proof.
  induction s as [|c r IH]; simpl; [reflexivity|].
  destruct r as [|d r'].
  - simpl. intros H. destruct (isspace c); [discriminate H|reflexivity].
  - intros H. rewrite (IH H). reflexivity.
Qed.

Lemma strip_fix (s : string) :
  head_nonspace s = true -> last_nonspace s = true -> strip s = s.
Proof.
  intros Hh Hl. unfold strip. rewrite (lstrip_fix s Hh). now apply rstrip_fix.
Qed.

Lemma strip_ends (s : string) :
  head_nonspace (strip s) = true /\ last_nonspace (strip s) = true.
Proof.
  unfold strip. split.
  - apply head_nonspace_rstrip, head_nonspace_lstrip.
  - apply last_nonspace_rstrip.
Qed.

Lemma head_nonspace_lower (s : string) :
  head_nonspace (lower s) = head_nonspace s.
Proof. destruct s as [|c r]; simpl; [reflexivity|]. now rewrite isspace_lower_char. Qed.

Lemma last_nonspace_lower (s : string) :
  last_nonspace (lower s) = last_nonspace s.
Proof.
  induction s as [|c r IH]; simpl; [reflexivity|].
  destruct r as [|d r']; simpl in *.
  - now rewrite isspace_lower_char.
  - exact IH.
Qed.

(** *** The shape of [re.sub(r'\s+', ' ', s)] *)

Lemma collapse_head (s : string) :
  head_nonspace s = true ->
  collapse_from true s = collapse_from false s.
Proof.
  destruct s as [|c r]; simpl; [reflexivity|].
  destruct (isspace c); [discriminate|reflexivity].
Qed.

Lemma head_nonspace_collapse (b : bool) (s : string) :
  head_nonspace s = true -> head_nonspace (collapse_from b s) = true.
Proof.
  destruct s as [|c r]; simpl; [reflexivity|].
  destruct (isspace c) eqn:E; [discriminate|]. simpl. now rewrite E.
Qed.

Lemma collapse_true_head (s : string) :
  last_nonspace s = true -> head_nonspace (collapse_from true s) = true.
Proof.
  induction s as [|c r IH]; simpl; [reflexivity|].
  destruct (isspace c) eqn:E.
  - destruct r as [|d r']; [discriminate|]. exact IH.
  - intros _. simpl. now rewrite E.
Qed.

Lemma collapse_true_nonempty (s : string) :
  last_nonspace s = true -> s <> "" -> collapse_from true s <> "".
Proof.
  induction s as [|c r IH]; simpl; [congruence|].
  destruct (isspace c) eqn:E.
  - destruct r as [|d r']; [discriminate|].
    intros H _. apply IH; [exact H|discriminate].
  - discriminate.
Qed.

Lemma spaced_space (d : ascii) (t : string) :
  spaced (String " " (String d t))
  = (negb (isspace d) && spaced (String d t))%bool.
Proof. reflexivity. Qed.

Lemma spaced_collapse (b : bool) (s : string) :
  last_nonspace s = true -> spaced (collapse_from b s) = true.
Proof.
  revert b. induction s as [|c r IH]; intros b; simpl; [reflexivity|].
  destruct (isspace c) eqn:E.
  - destruct r as [|d r']; [discriminate|]. intros H.
    destruct b; [now apply IH|].
    pose proof (IH true H) as Hsp.
    pose proof (collapse_true_head _ H) as Hh.
    pose proof (collapse_true_nonempty (String d r') H) as Hn.
    destruct (collapse_from true (String d r')) as [|e t].
    + exfalso. apply Hn; [discriminate|reflexivity].
    + rewrite spaced_space, Hsp. cbn [head_nonspace] in Hh.
      rewrite Hh. reflexivity.
  - intros H. simpl. rewrite E. simpl. apply IH.
    destruct r; [reflexivity|exact H].
Qed.

Lemma collapse_fix (s : string) :
  spaced s = true -> collapse_from false s = s.
Proof.
  induction s as [|c r IH]; simpl; [reflexivity|].
  destruct (isspace c) eqn:E.
  - intros H. apply andb_prop in H as [H1 H2].
    apply andb_prop in H1 as [Hc Hd]. apply Ascii.eqb_eq in Hc. subst c.
    rewrite collapse_head; [now rewrite (IH H2)|].
    destruct r; [discriminate|exact Hd].
  - simpl. intros H. now rewrite (IH H).
Qed.

Lemma spaced_last_nonspace (s : string) :
  spaced s = true -> last_nonspace s = true.
Proof.
  induction s as [|c r IH]; simpl; [reflexivity|].
  intros H. apply andb_prop in H as [H1 H2].
  destruct r as [|d r'].
  - destruct (isspace c); [|reflexivity].
    apply andb_prop in H1 as [_ H1]. discriminate H1.
  - now apply IH.
Qed.

(** Every whitespace character of a [spaced] string is a plain space, so it
    contains no line feed. *)
Lemma spaced_no_newline (s : string) :
  spaced s = true -> remove_char "010" s = s.
Proof.
  induction s as [|c r IH]; simpl; [reflexivity|].
  intros H. apply andb_prop in H as [H1 H2].
  destruct (Ascii.eqb c "010") eqn:E.
  - apply Ascii.eqb_eq in E. subst c. discriminate H1.
  - now rewrite (IH H2).
Qed.

(** *** Asterisks and capitals do not come back *)


Lemma nostar_remove (s : string) :
  string_forallb not_star (remove_char "*" s) = true.
Proof.
  induction s as [|c r IH]; simpl; [reflexivity|].
  destruct (Ascii.eqb c "*") eqn:E; [exact IH|].
  simpl. unfold not_star at 1. now rewrite E.
Qed.

Lemma forallb_lstrip (p : ascii -> bool) (s : string) :
  string_forallb p s = true -> string_forallb p (lstrip s) = true.
Proof.
  induction s as [|c r IH]; simpl; [reflexivity|].
  intros H. apply andb_prop in H as [H1 H2].
  destruct (isspace c); [now apply IH|]. simpl. now rewrite H1, H2.
Qed.

Lemma forallb_rstrip (p : ascii -> bool) (s : string) :
  string_forallb p s = true -> string_forallb p (rstrip s) = true.
Proof.
  induction s as [|c r IH]; simpl; [reflexivity|].
  intros H. apply andb_prop in H as [H1 H2]. specialize (IH H2).
  destruct (rstrip r).
  - destruct (isspace c); [reflexivity|]. simpl. now rewrite H1.
  - simpl. rewrite H1. exact IH.
Qed.

Lemma nostar_lower (s : string) :
  string_forallb not_star s = true -> string_forallb not_star (lower s) = true.
Proof.
  induction s as [|c r IH]; simpl; [reflexivity|].
  intros H. apply andb_prop in H as [H1 H2].
  unfold not_star at 1. rewrite lower_char_star. fold (not_star c).
  now rewrite H1, IH.
Qed.

Lemma forallb_collapse (p : ascii -> bool) (b : bool) (s : string) :
  p " "%char = true ->
  string_forallb p s = true -> string_forallb p (collapse_from b s) = true.
Proof.
  intros Hsp. revert b. induction s as [|c r IH]; intros b; simpl; [reflexivity|].
  intros H. apply andb_prop in H as [H1 H2].
  destruct (isspace c).
  - destruct b; [now apply IH|]. simpl. now rewrite Hsp, IH.
  - simpl. now rewrite H1, IH.
Qed.

Lemma lowered_lower (s : string) : string_forallb is_lowered (lower s) = true.
Proof.
  induction s as [|c r IH]; simpl; [reflexivity|].
  unfold is_lowered at 1. rewrite lower_char_idem, Ascii.eqb_refl. exact IH.
Qed.

Lemma remove_star_fix (s : string) :
  string_forallb not_star s = true -> remove_char "*" s = s.
Proof.
  induction s as [|c r IH]; simpl; [reflexivity|].
  intros H. apply andb_prop in H as [H1 H2].
  unfold not_star in H1. apply negb_true_iff in H1. rewrite H1.
  now rewrite (IH H2).
Qed.

Lemma lower_fix (s : string) :
  string_forallb is_lowered s = true -> lower s = s.
Proof.
  induction s as [|c r IH]; simpl; [reflexivity|].
  intros H. apply andb_prop in H as [H1 H2].
  apply Ascii.eqb_eq in H1. now rewrite H1, (IH H2).
Qed.

(** *** Normal forms *)

Lemma normalize_str_normal (s : string) : normal (normalize_str s).
Proof.
  unfold normalize_str, re_sub_spaces.
  set (t := remove_char "*" (remove_char "010" s)).
  destruct (strip_ends t) as [Hh Hl].
  repeat split.
  - apply head_nonspace_collapse. now rewrite head_nonspace_lower.
  - apply spaced_collapse. now rewrite last_nonspace_lower.
  - apply forallb_collapse; [reflexivity|]. apply nostar_lower.
    unfold strip. apply forallb_rstrip, forallb_lstrip. apply nostar_remove.
  - apply forallb_collapse; [reflexivity|]. apply lowered_lower.
Qed.

Lemma normalize_str_fix (s : string) : normal s -> normalize_str s = s.
Proof.
  intros (Hh & Hs & Hstar & Hlow).
  unfold normalize_str, re_sub_spaces.
  rewrite (spaced_no_newline s Hs), (remove_star_fix s Hstar).
  rewrite (strip_fix s Hh (spaced_last_nonspace s Hs)).
  rewrite (lower_fix s Hlow). now apply collapse_fix.
Qed.

(** C6. [normalize] is idempotent on every input, and on an input that is
    not a string it is [normalize] of the input's [str()] form. *)
Theorem normalize_idempotent (x : pyval) :
  normalize (VStr (normalize x)) = normalize x
  /\ normalize x = normalize (VStr (py_str x)).
Proof.
  split.
  - unfold normalize at 1. apply normalize_str_fix.
    unfold normalize. apply normalize_str_normal.
  - destruct x; reflexivity.
Qed.

(** ** Dates *)

Lemma days_in_month_bounds (y m : Z) : 28 <= days_in_month y m <= 31.
Proof.
  unfold days_in_month.
  destruct (m =? 2); [destruct (is_leap y); lia|].
  destruct ((m =? 4) || (m =? 6) || (m =? 9) || (m =? 11)); lia.
Qed.

Lemma days_before_month_succ (y m : Z) :
  1 <= m ->
  days_before_month y (m + 1) = days_before_month y m + days_in_month y m.
Proof.
  intros Hm. unfold days_before_month.
  replace (Z.to_nat (m + 1 - 1)) with (S (Z.to_nat (m - 1))) by lia.
  cbn [days_before_month_from].
  replace (Z.of_nat (S (Z.to_nat (m - 1)))) with m by lia. reflexivity.
Qed.

Lemma days_before_december (y : Z) :
  days_before_month y 12 = 334 + (if is_leap y then 1 else 0).
Proof.
  unfold days_before_month. change (Z.to_nat (12 - 1)) with 11%nat.
  cbn [days_before_month_from]. unfold days_in_month.
  generalize (is_leap y). intros [|]; vm_compute; reflexivity.
Qed.

Lemma days_before_month_bounds (y m : Z) :
  1 <= m <= 12 -> 0 <= days_before_month y m <= 335.
Proof.
  intros Hm.
  assert (H : m = 1 \/ m = 2 \/ m = 3 \/ m = 4 \/ m = 5 \/ m = 6 \/ m = 7
              \/ m = 8 \/ m = 9 \/ m = 10 \/ m = 11 \/ m = 12) by lia.
  unfold days_before_month.
  repeat (destruct H as [->|H]); try subst m;
    match goal with
    | |- context [Z.to_nat ?z] =>
        let k := eval vm_compute in (Z.to_nat z) in
        change (Z.to_nat z) with k
    end;
    cbn [days_before_month_from]; unfold days_in_month;
    generalize (is_leap y); intros [|]; cbn; lia.
Qed.

(** A year has 365 days, and one more when it is a leap year. *)
Lemma days_before_year_succ (y : Z) :
  days_before_year (y + 1)
  = days_before_year y + 365 + (if is_leap y then 1 else 0).
Proof.
  unfold days_before_year, is_leap. cbv zeta.
  replace (y + 1 - 1) with y by lia.
  destruct (Z.eqb_spec (y mod 4) 0); destruct (Z.eqb_spec (y mod 100) 0);
    destruct (Z.eqb_spec (y mod 400) 0); cbn [andb orb negb];
    Z.div_mod_to_equations; lia.
Qed.

(** The day after is the date with the next day number. *)
Lemma next_day_spec (d : datelike) :
  wf_date d ->
  wf_date (next_day d) /\ toordinal (next_day d) = toordinal d + 1.
Proof.
  destruct d as [day m y]. unfold wf_date, next_day, toordinal.
  cbn [dl_day dl_month dl_year]. intros [Hm Hd].
  destruct (Z.ltb_spec day (days_in_month y m)).
  - cbn [dl_day dl_month dl_year]. lia.
  - destruct (Z.ltb_spec m 12); cbn [dl_day dl_month dl_year].
    + pose proof (days_in_month_bounds y (m + 1)).
      rewrite days_before_month_succ by lia. lia.
    + assert (m = 12) by lia. subst m.
      rewrite days_before_year_succ, days_before_december.
      change (days_before_month (y + 1) 1) with 0.
      change (days_in_month (y + 1) 1) with 31.
      change (days_in_month y 12) with 31 in *.
      destruct (is_leap y); lia.
Qed.

(** The day before is the date with the previous day number. *)
Lemma prev_day_spec (d : datelike) :
  wf_date d ->
  wf_date (prev_day d) /\ toordinal (prev_day d) = toordinal d - 1.
Proof.
  destruct d as [day m y]. unfold wf_date, prev_day, toordinal.
  cbn [dl_day dl_month dl_year]. intros [Hm Hd].
  destruct (Z.ltb_spec 1 day).
  - cbn [dl_day dl_month dl_year]. lia.
  - destruct (Z.ltb_spec 1 m); cbn [dl_day dl_month dl_year].
    + pose proof (days_in_month_bounds y (m - 1)).
      pose proof (days_before_month_succ y (m - 1) ltac:(lia)) as E.
      replace (m - 1 + 1) with m in E by lia. lia.
    + assert (m = 1) by lia. subst m.
      pose proof (days_before_year_succ (y - 1)) as E.
      replace (y - 1 + 1) with y in E by lia.
      rewrite days_before_december.
      change (days_before_month y 1) with 0.
      change (days_in_month (y - 1) 12) with 31.
      destruct (is_leap (y - 1)); lia.
Qed.

Lemma iter_next_day (k : nat) (d : datelike) :
  wf_date d ->
  wf_date (Nat.iter k next_day d)
  /\ toordinal (Nat.iter k next_day d) = toordinal d + Z.of_nat k.
Proof.
  intros Hd. induction k as [|k [IHw IHo]].
  - cbn [Nat.iter nat_rect]. split; [exact Hd|lia].
  - change (Nat.iter (S k) next_day d) with (next_day (Nat.iter k next_day d)).
    destruct (next_day_spec _ IHw) as [Hw Ho]. split; [exact Hw|lia].
Qed.

Lemma iter_prev_day (k : nat) (d : datelike) :
  wf_date d ->
  wf_date (Nat.iter k prev_day d)
  /\ toordinal (Nat.iter k prev_day d) = toordinal d - Z.of_nat k.
Proof.
  intros Hd. induction k as [|k [IHw IHo]].
  - cbn [Nat.iter nat_rect]. split; [exact Hd|lia].
  - change (Nat.iter (S k) prev_day d) with (prev_day (Nat.iter k prev_day d)).
    destruct (prev_day_spec _ IHw) as [Hw Ho]. split; [exact Hw|lia].
Qed.

(** Stepping [n] days through the calendar adds [n] to the day number. *)
Lemma add_days_spec (d : datelike) (n : Z) :
  wf_date d ->
  wf_date (add_days d n) /\ toordinal (add_days d n) = toordinal d + n.
Proof.
  intros Hd. unfold add_days. destruct (Z.leb_spec 0 n).
  - destruct (iter_next_day (Z.to_nat n) d Hd) as [Hw Ho].
    split; [exact Hw|lia].
  - destruct (iter_prev_day (Z.to_nat (- n)) d Hd) as [Hw Ho].
    split; [exact Hw|lia].
Qed.

(** A date of the calendar whose day number is that of a day between
    0001-01-01 and 9999-12-31 passes the checks of [datetime.date]. *)
Lemma wf_date_valid (d : datelike) :
  wf_date d -> 1 <= toordinal d <= 3652059 -> valid_date d = true.
Proof.
  destruct d as [day m y]. unfold wf_date, valid_date, toordinal.
  cbn [dl_day dl_month dl_year]. intros [Hm Hd] Ho.
  pose proof (days_before_month_bounds y m Hm).
  pose proof (days_in_month_bounds y m).
  assert (Hy : 1 <= y <= 9999).
  { unfold days_before_year in Ho. cbv zeta in Ho.
    Z.div_mod_to_equations. lia. }
  repeat (apply andb_true_intro; split); apply Z.leb_le; lia.
Qed.

Lemma serial_in_range (n : Z) :
  serial_min <= n <= serial_max ->
  exists dt, to_datetime_days n = inr dt
             /\ valid_date dt = true
             /\ toordinal dt = toordinal origin + n.
Proof.
  unfold serial_min, serial_max. intros Hn. unfold to_datetime_days.
  change ioffset with (-25569). unfold ns_per_day, int64_max.
  destruct (Z.leb_spec (Z.abs ((n + -25569) * (86400 * 1000000000)))
                       9223372036854775807) as [H|H]; [|lia].
  eexists. split; [reflexivity|].
  assert (Hw : wf_date unix_epoch) by (unfold wf_date; cbn; lia).
  destruct (add_days_spec unix_epoch (n + -25569) Hw) as [Hwf Ho].
  change (toordinal unix_epoch) with 719163 in Ho.
  change (toordinal origin) with 693594.
  split; [|lia]. apply wf_date_valid; [exact Hwf|lia].
Qed.

Lemma serial_out_of_range (n : Z) :
  n < serial_min \/ serial_max < n ->
  exists e, to_datetime_days n = inl e.
Proof.
  intros Hn. unfold to_datetime_days.
  change ioffset with (-25569). unfold ns_per_day, int64_max.
  destruct (Z.leb_spec (Z.abs ((n + -25569) * (86400 * 1000000000)))
                       9223372036854775807) as [H|H].
  - unfold serial_min, serial_max in Hn. lia.
  - eexists. reflexivity.
Qed.

(** A serial outside the range of [Timestamp] is not parsed at all. *)
Lemma parse_date_serial_out_of_range (n : Z) :
  n < serial_min \/ serial_max < n ->
  _parse_date_value (VInt n) = (None, None, None).
Proof.
  intros Hn. destruct (serial_out_of_range n Hn) as [e He].
  unfold _parse_date_value. now rewrite He.
Qed.




Lemma try_formats_whole (value : string) (fmts : list string) :
  all_none (try_formats value fmts) = true
  \/ all_some (try_formats value fmts) = true.
Proof.
  induction fmts as [|fmt rest IH]; simpl; [now left|].
  destruct (strptime value fmt) as [e|dt].
  - destruct (is_value_error e); [exact IH|now left].
  - now right.
Qed.

(** C9.  [_parse_date_value] returns either three values or three [None]s,
    never a triple filled in part. *)
Theorem parse_date_all_or_nothing (value : pyval) :
  (exists d m y, _parse_date_value value = (Some d, Some m, Some y))
  \/ _parse_date_value value = (None, None, None).
Proof.
  assert (H : all_none (_parse_date_value value) = true
              \/ all_some (_parse_date_value value) = true).
  { destruct value as [s|n|d repr|repr]; cbn [_parse_date_value].
    - apply try_formats_whole.
    - destruct (to_datetime_days n); [now left|now right].
    - now right.
    - now left. }
  destruct (_parse_date_value value) as [[[d|] [m|]] [y|]];
    destruct H as [H|H]; try discriminate H.
  - left. now exists d, m, y.
  - now right.
Qed.

(** ** [strptime]: what a successful parse says about the string *)

Lemma in_range_isdigit (lo hi c : ascii) :
  isdigit lo = true -> isdigit hi = true ->
  in_range lo hi c = true -> isdigit c = true.
Proof.
  unfold isdigit, in_range. intros Hlo Hhi H.
  apply andb_prop in Hlo as [Hlo _]. apply andb_prop in Hhi as [_ Hhi].
  apply andb_prop in H as [H1 H2].
  apply N.leb_le in Hlo, Hhi, H1, H2.
  apply andb_true_intro. split; apply N.leb_le; lia.
Qed.

Lemma eqb_isdigit (d c : ascii) :
  isdigit d = true -> Ascii.eqb d c = true -> isdigit c = true.
Proof. intros Hd H. apply Ascii.eqb_eq in H. now subst c. Qed.

Lemma two_chars_inv (p q : ascii -> bool) (s r : string) (x : Z) :
  In (x, r) (two_chars p q s) ->
  exists a b, s = String a (String b r) /\ p a = true /\ q b = true.
Proof.
  destruct s as [|a [|b r']]; simpl; try tauto.
  destruct (p a) eqn:Ha; destruct (q b) eqn:Hb; simpl; try tauto.
  intros [H|[]]. injection H as _ <-. now exists a, b.
Qed.

Lemma one_char_inv (p : ascii -> bool) (s r : string) (x : Z) :
  In (x, r) (one_char p s) -> exists a, s = String a r /\ p a = true.
Proof.
  destruct s as [|a r']; simpl; try tauto.
  destruct (p a) eqn:Ha; simpl; try tauto.
  intros [H|[]]. injection H as _ <-. now exists a.
Qed.

Ltac digit_side :=
  solve [ assumption
        | eapply in_range_isdigit; [| |eassumption]; reflexivity
        | eapply eqb_isdigit; [|eassumption]; reflexivity ].

Lemma re_d_text (s r : string) (x : Z) :
  In (x, r) (re_d s) -> exists w, s = w ++ r /\ text_of Dir_d w.
Proof.
  unfold re_d. rewrite !in_app_iff.
  intros [H|[H|[H|[H|H]]]];
    try (apply two_chars_inv in H as (a & b & -> & Ha & Hb));
    try (apply one_char_inv in H as (a & -> & Ha)).
  - exists (String a (String b "")). split; [reflexivity|].
    right; left. exists a, b. repeat split; digit_side.
  - exists (String a (String b "")). split; [reflexivity|].
    right; left. exists a, b. repeat split; digit_side.
  - exists (String a (String b "")). split; [reflexivity|].
    right; left. exists a, b. repeat split; digit_side.
  - exists (String a ""). split; [reflexivity|].
    left. exists a. split; [reflexivity|digit_side].
  - apply Ascii.eqb_eq in Ha. subst a.
    exists (String " " (String b "")). split; [reflexivity|].
    right; right. exists b. split; [reflexivity|digit_side].
Qed.

Lemma re_m_text (s r : string) (x : Z) :
  In (x, r) (re_m s) -> exists w, s = w ++ r /\ text_of Dir_m w.
Proof.
  unfold re_m. rewrite !in_app_iff.
  intros [H|[H|H]];
    try (apply two_chars_inv in H as (a & b & -> & Ha & Hb));
    try (apply one_char_inv in H as (a & -> & Ha)).
  - exists (String a (String b "")). split; [reflexivity|].
    right. exists a, b. repeat split; digit_side.
  - exists (String a (String b "")). split; [reflexivity|].
    right. exists a, b. repeat split; digit_side.
  - exists (String a ""). split; [reflexivity|].
    left. exists a. split; [reflexivity|digit_side].
Qed.

Lemma re_y_text (s r : string) (x : Z) :
  In (x, r) (re_y s) -> exists w, s = w ++ r /\ text_of Dir_y w.
Proof.
  unfold re_y. intros H.
  apply two_chars_inv in H as (a & b & -> & Ha & Hb).
  exists (String a (String b "")). split; [reflexivity|].
  exists a, b. auto.
Qed.

Lemma re_Y_text (s r : string) (x : Z) :
  In (x, r) (re_Y s) -> exists w, s = w ++ r /\ text_of Dir_Y w.
Proof.
  unfold re_Y. destruct s as [|a [|b [|c [|d r']]]]; simpl; try tauto.
  destruct (isdigit a) eqn:Ha; destruct (isdigit b) eqn:Hb;
    destruct (isdigit c) eqn:Hc; destruct (isdigit d) eqn:Hd;
    simpl; try tauto.
  intros [H|[]]. injection H as _ <-.
  exists (String a (String b (String c (String d "")))). split; [reflexivity|].
  exists a, b, c, d. auto.
Qed.

Lemma re_directive_text (d : directive) (g g' : groups) (s r : string) :
  In (g', r) (re_directive d g s) -> exists w, s = w ++ r /\ text_of d w.
Proof.
  destruct d as [| | | |c]; simpl.
  - rewrite in_map_iff. intros ([x r'] & H & Hin). injection H as _ <-.
    eapply re_d_text; eassumption.
  - rewrite in_map_iff. intros ([x r'] & H & Hin). injection H as _ <-.
    eapply re_m_text; eassumption.
  - rewrite in_map_iff. intros ([x r'] & H & Hin). injection H as _ <-.
    eapply re_Y_text; eassumption.
  - rewrite in_map_iff. intros ([x r'] & H & Hin). injection H as _ <-.
    eapply re_y_text; eassumption.
  - destruct s as [|a r']; simpl; try tauto.
    destruct (Ascii.eqb a c) eqn:E; simpl; try tauto.
    intros [H|[]]. injection H as _ <-. apply Ascii.eqb_eq in E. subst a.
    now exists (String c "").
Qed.

Lemma string_app_assoc (a b c : string) : ((a ++ b) ++ c = a ++ (b ++ c))%string.
Proof. induction a as [|x a IH]; simpl; [reflexivity|now rewrite IH]. Qed.

Lemma string_app_nil_r (a : string) : (a ++ "")%string = a.
Proof. induction a as [|x a IH]; simpl; [reflexivity|now rewrite IH]. Qed.

Lemma re_matches_lang (ds : list directive) :
  forall g g' s r,
    In (g', r) (re_matches ds g s) -> exists w, s = (w ++ r)%string /\ lang ds w.
Proof.
  induction ds as [|d ds IH]; intros g g' s r; simpl.
  - intros [H|[]]. injection H as _ <-. now exists "".
  - rewrite in_flat_map. intros ([g1 r1] & H1 & H2).
    apply re_directive_text in H1 as (w1 & -> & Hw1).
    apply IH in H2 as (w2 & -> & Hw2).
    exists (w1 ++ w2)%string. split; [now rewrite string_app_assoc|].
    now exists w1, w2.
Qed.

Lemma strptime_value_error (v fmt : string) (e : exn) :
  strptime v fmt = inl e -> is_value_error e = true.
Proof.
  unfold strptime. destruct (parse_format fmt) as [ds|].
  - destruct (re_matches ds no_groups v) as [|[g [|c rest]] l].
    + intros H. now injection H as <-.
    + destruct (valid_date _); [discriminate|]. intros H. now injection H as <-.
    + intros H. now injection H as <-.
  - intros H. now injection H as <-.
Qed.

Lemma strptime_lang (v fmt : string) (dt : datelike) :
  strptime v fmt = inr dt ->
  exists ds, parse_format fmt = Some ds /\ lang ds v.
Proof.
  unfold strptime. destruct (parse_format fmt) as [ds|]; [|discriminate].
  destruct (re_matches ds no_groups v) as [|[g [|c rest]] l] eqn:E;
    try discriminate.
  intros _. exists ds. split; [reflexivity|].
  assert (Hin : In (g, "") (re_matches ds no_groups v)) by (rewrite E; now left).
  apply re_matches_lang in Hin as (w & -> & Hw). now rewrite string_app_nil_r.
Qed.

(** ** No string belongs to two formats, the two slash formats apart *)

Ltac break_hyps :=
  repeat match goal with
         | H : exists _, _ |- _ => destruct H as [? H]
         | H : _ /\ _ |- _ => destruct H as [? H]
         | H : _ \/ _ |- _ => destruct H as [H|H]
         end.

Ltac clash :=
  repeat match goal with
         | H : String _ _ = String _ _ |- _ =>
             injection H as ? ?; try subst
         | H : String _ _ = EmptyString |- _ => discriminate H
         | H : EmptyString = String _ _ |- _ => discriminate H
         end;
  try discriminate;
  match goal with
  | H : isdigit ?c = true |- _ =>
      lazymatch c with
      | Ascii _ _ _ _ _ _ _ _ => discriminate H
      end
  end.

Ltac disjoint_langs H1 H2 :=
  cbn [lang text_of] in H1, H2;
  unfold digit1, digit2, digit4, space_digit in H1, H2;
  break_hyps; subst; cbn [append] in *; clash.

Lemma excl_dmY_dmy (v : string) : lang fmt_dmY v -> lang fmt_dmy v -> False.
Proof. intros H1 H2. unfold fmt_dmY, fmt_dmy in *. disjoint_langs H1 H2. Qed.

Lemma excl_dmY_Ymd (v : string) : lang fmt_dmY v -> lang fmt_Ymd v -> False.
Proof. intros H1 H2. unfold fmt_dmY, fmt_Ymd in *. disjoint_langs H1 H2. Qed.

Lemma excl_dmY_mdY_slash (v : string) :
  lang fmt_dmY v -> lang fmt_mdY_slash v -> False.
Proof. intros H1 H2. unfold fmt_dmY, fmt_mdY_slash in *. disjoint_langs H1 H2. Qed.

Lemma excl_dmY_dmY_slash (v : string) :
  lang fmt_dmY v -> lang fmt_dmY_slash v -> False.
Proof. intros H1 H2. unfold fmt_dmY, fmt_dmY_slash in *. disjoint_langs H1 H2. Qed.

Lemma excl_dmY_Ymd_slash (v : string) :
  lang fmt_dmY v -> lang fmt_Ymd_slash v -> False.
Proof. intros H1 H2. unfold fmt_dmY, fmt_Ymd_slash in *. disjoint_langs H1 H2. Qed.

Lemma excl_Ymd_mdY_slash (v : string) :
  lang fmt_Ymd v -> lang fmt_mdY_slash v -> False.
Proof. intros H1 H2. unfold fmt_Ymd, fmt_mdY_slash in *. disjoint_langs H1 H2. Qed.

Lemma excl_Ymd_dmY_slash (v : string) :
  lang fmt_Ymd v -> lang fmt_dmY_slash v -> False.
Proof. intros H1 H2. unfold fmt_Ymd, fmt_dmY_slash in *. disjoint_langs H1 H2. Qed.

Lemma excl_Ymd_dmy (v : string) : lang fmt_Ymd v -> lang fmt_dmy v -> False.
Proof. intros H1 H2. unfold fmt_Ymd, fmt_dmy in *. disjoint_langs H1 H2. Qed.

Lemma excl_Ymd_Ymd_slash (v : string) :
  lang fmt_Ymd v -> lang fmt_Ymd_slash v -> False.
Proof. intros H1 H2. unfold fmt_Ymd, fmt_Ymd_slash in *. disjoint_langs H1 H2. Qed.

Lemma excl_mdY_slash_dmy (v : string) :
  lang fmt_mdY_slash v -> lang fmt_dmy v -> False.
Proof. intros H1 H2. unfold fmt_mdY_slash, fmt_dmy in *. disjoint_langs H1 H2. Qed.

Lemma excl_mdY_slash_Ymd_slash (v : string) :
  lang fmt_mdY_slash v -> lang fmt_Ymd_slash v -> False.
Proof. intros H1 H2. unfold fmt_mdY_slash, fmt_Ymd_slash in *. disjoint_langs H1 H2. Qed.

Lemma excl_dmY_slash_dmy (v : string) :
  lang fmt_dmY_slash v -> lang fmt_dmy v -> False.
Proof. intros H1 H2. unfold fmt_dmY_slash, fmt_dmy in *. disjoint_langs H1 H2. Qed.

Lemma excl_dmY_slash_Ymd_slash (v : string) :
  lang fmt_dmY_slash v -> lang fmt_Ymd_slash v -> False.
Proof. intros H1 H2. unfold fmt_dmY_slash, fmt_Ymd_slash in *. disjoint_langs H1 H2. Qed.

Lemma excl_dmy_Ymd_slash (v : string) :
  lang fmt_dmy v -> lang fmt_Ymd_slash v -> False.
Proof. intros H1 H2. unfold fmt_dmy, fmt_Ymd_slash in *. disjoint_langs H1 H2. Qed.

(** ** The loop over the formats *)

Lemma try_formats_hit (v fmt : string) (rest : list string) (dt : datelike) :
  strptime v fmt = inr dt -> try_formats v (fmt :: rest) = triple_of dt.
Proof. intros H. simpl. now rewrite H. Qed.

Lemma try_formats_skip (v fmt : string) (rest : list string) :
  (forall dt, strptime v fmt <> inr dt) ->
  try_formats v (fmt :: rest) = try_formats v rest.
Proof.
  intros H. simpl. destruct (strptime v fmt) as [e|dt] eqn:E.
  - now rewrite (strptime_value_error _ _ _ E).
  - destruct (H dt). reflexivity.
Qed.

Lemma no_parse (v f1 f2 : string) (ds1 ds2 : list directive) (dt : datelike) :
  parse_format f1 = Some ds1 -> parse_format f2 = Some ds2 ->
  (forall w, lang ds1 w -> lang ds2 w -> False) ->
  strptime v f2 = inr dt ->
  forall dt', strptime v f1 <> inr dt'.
Proof.
  intros P1 P2 Hex H2 dt' H1.
  apply strptime_lang in H1 as (d1 & Q1 & L1).
  apply strptime_lang in H2 as (d2 & Q2 & L2).
  rewrite P1 in Q1. rewrite P2 in Q2.
  injection Q1 as <-. injection Q2 as <-. exact (Hex v L1 L2).
Qed.

Ltac skip_by Hparsed lem :=
  rewrite try_formats_skip;
  [| eapply no_parse; [ | | | exact Hparsed];
     [vm_compute; reflexivity | vm_compute; reflexivity | exact lem] ].

(** The first format that parses decides the result. *)
Lemma try_formats_first (v : string) (before after : list string)
      (fmt : string) (dt : datelike) :
  (forall f dt', In f before -> strptime v f <> inr dt') ->
  strptime v fmt = inr dt ->
  try_formats v (before ++ fmt :: after)%list = triple_of dt.
Proof.
  induction before as [|f before IH]; intros Hb H.
  - now apply try_formats_hit.
  - change ((f :: before) ++ fmt :: after)%list
      with (f :: (before ++ fmt :: after)%list).
    rewrite try_formats_skip.
    + apply IH; [|exact H]. intros f' dt' Hin. apply Hb. now right.
    + intros dt'. apply Hb. now left.
Qed.

(** C4, as amended.  A string that (stripped) parses under one of DD-MM-YYYY,
    YYYY-MM-DD, MM/DD/YYYY, DD-MM-YY and YYYY/MM/DD is given the day, month
    and year that format reads in it.  A string that parses under DD/MM/YYYY
    is given its DD/MM/YYYY reading provided it does not parse under
    MM/DD/YYYY, which is tried before. *)
Theorem parse_date_string (s fmt : string) (dt : datelike) :
  In fmt date_formats ->
  strptime (strip s) fmt = inr dt ->
  (fmt = "%d/%m/%Y" -> forall dt', strptime (strip s) "%m/%d/%Y" <> inr dt') ->
  _parse_date_value (VStr s) = triple_of dt.
Proof.
  intros Hin H Hslash. cbn [_parse_date_value]. unfold date_formats.
  set (v := strip s) in *.
  destruct Hin as [<-|[<-|[<-|[<-|[<-|[<-|[]]]]]]].
  - now apply try_formats_hit.
  - skip_by H excl_dmY_Ymd.
    now apply try_formats_hit.
  - skip_by H excl_dmY_mdY_slash.
    skip_by H excl_Ymd_mdY_slash.
    now apply try_formats_hit.
  - skip_by H excl_dmY_dmY_slash.
    skip_by H excl_Ymd_dmY_slash.
    rewrite try_formats_skip; [|exact (Hslash eq_refl)].
    now apply try_formats_hit.
  - skip_by H excl_dmY_dmy.
    skip_by H excl_Ymd_dmy.
    skip_by H excl_mdY_slash_dmy.
    skip_by H excl_dmY_slash_dmy.
    now apply try_formats_hit.
  - skip_by H excl_dmY_Ymd_slash.
    skip_by H excl_Ymd_Ymd_slash.
    skip_by H excl_mdY_slash_Ymd_slash.
    skip_by H excl_dmY_slash_Ymd_slash.
    skip_by H excl_dmy_Ymd_slash.
    now apply try_formats_hit.
Qed.

Lemma parse_date_string_witness :
  _parse_date_value (VStr " 25/03/2021 ")
  = triple_of (mk_datelike 25 3 2021).
Proof.
  apply (parse_date_string " 25/03/2021 " "%d/%m/%Y").
  - simpl. tauto.
  - reflexivity.
  - intros _ dt'. vm_compute. discriminate.
Defined.

(** C4, as stated, fails: "05/03/2021" matches DD/MM/YYYY, where it reads
    5 March 2021, and [_parse_date_value] returns day 3, month 5, because
    MM/DD/YYYY comes first in the list. *)
Lemma parse_date_string_counterexample :
  In "%d/%m/%Y" date_formats
  /\ strptime (strip "05/03/2021") "%d/%m/%Y" = inr (mk_datelike 5 3 2021)
  /\ _parse_date_value (VStr "05/03/2021") = (Some 3, Some 5, Some 2021)
  /\ ~ (forall s fmt dt,
          In fmt date_formats -> strptime (strip s) fmt = inr dt ->
          _parse_date_value (VStr s) = triple_of dt).
Proof.
  assert (Hin : In "%d/%m/%Y" date_formats) by (simpl; tauto).
  repeat split; try exact Hin; try reflexivity.
  intros H.
  specialize (H "05/03/2021" "%d/%m/%Y" (mk_datelike 5 3 2021) Hin eq_refl).
  discriminate H.
Qed.
(** ** Computations *)

Lemma bind_inv {A B : Type} (m : M A) (f : A -> M B) (w w' : world)
      (o : outcome B) :
  bind m f w = (o, w') ->
  (exists a w1, m w = (Ret a, w1) /\ f a w1 = (o, w'))
  \/ (exists e, m w = (Raise e, w') /\ o = Raise e).
Proof.
  unfold bind. destruct (m w) as [[a|e] w1]; intros H.
  - left. now exists a, w1.
  - right. injection H as <- <-. now exists e.
Qed.

Lemma bind_ret_inv {A B : Type} (m : M A) (f : A -> M B) (w w' : world)
      (b : B) :
  bind m f w = (Ret b, w') ->
  exists a w1, m w = (Ret a, w1) /\ f a w1 = (Ret b, w').
Proof.
  intros H. apply bind_inv in H as [H|(e & _ & H)]; [exact H|discriminate].
Qed.

Lemma bind_step {A B : Type} (m : M A) (f : A -> M B) (w w1 : world) (a : A) :
  m w = (Ret a, w1) -> bind m f w = f a w1.
Proof. unfold bind. now intros ->. Qed.

Lemma bind_raise {A B : Type} (m : M A) (f : A -> M B) (w w1 : world) (e : exn) :
  m w = (Raise e, w1) -> bind m f w = (Raise e, w1).
Proof. unfold bind. now intros ->. Qed.

Lemma bind_ret_l {A B : Type} (a : A) (f : A -> M B) : bind (ret a) f = f a.
Proof. reflexivity. Qed.

(** *** Never raising *)

Lemma total_ret {A : Type} (a : A) : total (ret a).
Proof. intros w. now exists a. Qed.

Lemma total_bind {A B : Type} (m : M A) (f : A -> M B) :
  total m -> (forall a, total (f a)) -> total (bind m f).
Proof.
  intros Hm Hf w. unfold bind. destruct (Hm w) as [a Ha].
  destruct (m w) as [o w1]. simpl in Ha. subst o. apply Hf.
Qed.

Lemma total_try_except {A : Type} (body : M A) (handler : exn -> M A) :
  (forall e, total (handler e)) -> total (try_except body handler).
Proof.
  intros Hh w. unfold try_except. destruct (body w) as [[a|e] w1].
  - now exists a.
  - apply Hh.
Qed.

Lemma total_log (ev : event) : total (log ev).
Proof. intros w. now exists tt. Qed.

Lemma total_append_error (msg : string) : total (append_error msg).
Proof. intros w. now exists tt. Qed.

Lemma total_get_form_map : total get_form_map.
Proof. intros w. now exists (w_form_map w). Qed.

(** *** What a computation adds to the trace *)

Lemma emits_ret (P : event -> Prop) {A : Type} (a : A) : emits P (ret a).
Proof. intros w. exists []. simpl. now rewrite app_nil_r. Qed.

Lemma emits_raise (P : event -> Prop) {A : Type} (e : exn) :
  emits P (@raise A e).
Proof. intros w. exists []. simpl. now rewrite app_nil_r. Qed.

Lemma emits_bind (P : event -> Prop) {A B : Type} (m : M A) (f : A -> M B) :
  emits P m -> (forall a, emits P (f a)) -> emits P (bind m f).
Proof.
  intros Hm Hf w. unfold bind. destruct (Hm w) as (evs & Ht & Hevs).
  destruct (m w) as [[a|e] w1]; simpl in Ht.
  - destruct (Hf a w1) as (evs' & Ht' & Hevs').
    exists (evs ++ evs')%list. split.
    + now rewrite Ht', Ht, app_assoc.
    + apply Forall_app. now split.
  - now exists evs.
Qed.

Lemma emits_try_except (P : event -> Prop) {A : Type}
      (body : M A) (handler : exn -> M A) :
  emits P body -> (forall e, emits P (handler e)) ->
  emits P (try_except body handler).
Proof.
  intros Hm Hf w. unfold try_except. destruct (Hm w) as (evs & Ht & Hevs).
  destruct (body w) as [[a|e] w1]; simpl in Ht.
  - now exists evs.
  - destruct (Hf e w1) as (evs' & Ht' & Hevs').
    exists (evs ++ evs')%list. split.
    + now rewrite Ht', Ht, app_assoc.
    + apply Forall_app. now split.
Qed.

Lemma emits_try_except_timeout (P : event -> Prop) {A : Type}
      (body handler : M A) :
  emits P body -> emits P handler ->
  emits P (try_except_timeout body handler).
Proof.
  intros Hb Hh. apply emits_try_except; [exact Hb|].
  intros e. destruct (is_timeout e); [exact Hh|apply emits_raise].
Qed.

Lemma emits_try_finally (P : event -> Prop) {A : Type}
      (body : M A) (final : M unit) :
  emits P body -> emits P final -> emits P (try_finally body final).
Proof.
  intros Hm Hf w. unfold try_finally. destruct (Hm w) as (evs & Ht & Hevs).
  destruct (body w) as [o w1]; simpl in Ht.
  destruct (Hf w1) as (evs' & Ht' & Hevs').
  exists (evs ++ evs')%list. split.
  - destruct (final w1) as [[u|e] w2]; simpl in *; now rewrite Ht', Ht, app_assoc.
  - apply Forall_app. now split.
Qed.

Lemma emits_log (P : event -> Prop) (ev : event) : P ev -> emits P (log ev).
Proof. intros H w. exists [ev]. split; [reflexivity|]. now constructor. Qed.

Lemma emits_state (P : event -> Prop) {A : Type} (m : M A) :
  (forall w, w_trace (snd (m w)) = w_trace w) -> emits P m.
Proof. intros H w. exists []. now rewrite H, app_nil_r. Qed.

(** *** What a computation leaves alone *)

Lemma steady_ret {A : Type} (a : A) : steady (ret a).
Proof. intros w. simpl. auto. Qed.

Lemma steady_raise {A : Type} (e : exn) : steady (@raise A e).
Proof. intros w. simpl. auto. Qed.

Lemma steady_bind {A B : Type} (m : M A) (f : A -> M B) :
  steady m -> (forall a, steady (f a)) -> steady (bind m f).
Proof.
  intros Hm Hf w. unfold bind. destruct (Hm w) as (H1 & H2 & H3).
  destruct (m w) as [[a|e] w1]; simpl in *.
  - destruct (Hf a w1) as (G1 & G2 & G3). rewrite G1, G2, G3. auto.
  - auto.
Qed.

Lemma steady_try_except {A : Type} (body : M A) (handler : exn -> M A) :
  steady body -> (forall e, steady (handler e)) ->
  steady (try_except body handler).
Proof.
  intros Hm Hf w. unfold try_except. destruct (Hm w) as (H1 & H2 & H3).
  destruct (body w) as [[a|e] w1]; simpl in *.
  - auto.
  - destruct (Hf e w1) as (G1 & G2 & G3). rewrite G1, G2, G3. auto.
Qed.

Lemma steady_try_except_timeout {A : Type} (body handler : M A) :
  steady body -> steady handler -> steady (try_except_timeout body handler).
Proof.
  intros Hb Hh. apply steady_try_except; [exact Hb|].
  intros e. destruct (is_timeout e); [exact Hh|apply steady_raise].
Qed.

Lemma steady_log (ev : event) : steady (log ev).
Proof. intros w. simpl. auto. Qed.

Lemma steady_get_form_map : steady get_form_map.
Proof. intros w. simpl. auto. Qed.

(** ** The browser calls and the two fill functions *)

Create HintDb submitter.

#[local] Hint Resolve total_ret total_log total_append_error total_get_form_map
  emits_ret emits_raise steady_ret steady_raise steady_log steady_get_form_map
  : submitter.

(** One step of a proof that follows the shape of the computation. *)
Ltac follow :=
  match goal with
  | |- emits _ (bind _ _) => apply emits_bind; [|intros ?]
  | |- emits _ (try_except_timeout _ _) => apply emits_try_except_timeout
  | |- emits _ (try_except _ _) => apply emits_try_except; [|intros ?]
  | |- emits _ (log _) => apply emits_log; exact I
  | |- steady (bind _ _) => apply steady_bind; [|intros ?]
  | |- steady (try_except_timeout _ _) => apply steady_try_except_timeout
  | |- steady (try_except _ _) => apply steady_try_except; [|intros ?]
  | |- total (bind _ _) => apply total_bind; [|intros ?]
  | |- total (try_except _ _) => apply total_try_except; intros ?
  | |- _ (match ?x with _ => _ end) => destruct x
  | |- _ => solve [auto with submitter]
  end.

Section Facts.

Variable page : oracle.
Variable form_url : string.

Section Emits.

Variable P : event -> Prop.

Lemma emits_call : emits P (call page).
Proof. apply emits_state. reflexivity. Qed.

Hint Resolve emits_call : submitter.

Lemma emits_call_unit : emits P (call_unit page).
Proof. unfold call_unit. repeat follow. Qed.

Lemma emits_call_text : emits P (call_text page).
Proof. unfold call_text. repeat follow. Qed.

Lemma emits_find_elements (xpath : string) : emits P (find_elements page xpath).
Proof. unfold find_elements. repeat follow. Qed.

Lemma emits_find_element (xpath : string) : emits P (find_element page xpath).
Proof. unfold find_element. repeat follow. Qed.

Lemma emits_wait_until (xpath : string) : emits P (wait_until page xpath).
Proof. unfold wait_until. repeat follow. Qed.

Lemma emits_append_error (msg : string) : emits P (append_error msg).
Proof. apply emits_state. reflexivity. Qed.

Lemma emits_get_form_map : emits P get_form_map.
Proof. apply emits_state. reflexivity. Qed.

Lemma emits_set_form_map (fm : dict field_info) : emits P (set_form_map fm).
Proof. apply emits_state. reflexivity. Qed.

Lemma emits_get_errors : emits P get_errors.
Proof. apply emits_state. reflexivity. Qed.

Lemma emits_reset_errors : emits P reset_errors.
Proof. apply emits_state. reflexivity. Qed.

Lemma emits_set_driver : emits P set_driver.
Proof. apply emits_state. reflexivity. Qed.

Lemma emits_has_driver : emits P has_driver.
Proof. apply emits_state. reflexivity. Qed.

End Emits.

Hint Resolve emits_call emits_call_unit emits_call_text emits_find_elements
  emits_find_element emits_wait_until emits_append_error emits_get_form_map
  emits_set_form_map emits_get_errors emits_reset_errors emits_set_driver
  emits_has_driver : submitter.

Lemma steady_call : steady (call page).
Proof. intros w. simpl. auto. Qed.

Hint Resolve steady_call : submitter.

Lemma steady_call_unit : steady (call_unit page).
Proof. unfold call_unit. repeat follow. Qed.

Lemma steady_call_text : steady (call_text page).
Proof. unfold call_text. repeat follow. Qed.

Lemma steady_find_elements (xpath : string) : steady (find_elements page xpath).
Proof. unfold find_elements. repeat follow. Qed.

Lemma steady_find_element (xpath : string) : steady (find_element page xpath).
Proof. unfold find_element. repeat follow. Qed.

Lemma steady_wait_until (xpath : string) : steady (wait_until page xpath).
Proof. unfold wait_until. repeat follow. Qed.

Hint Resolve steady_call_unit steady_call_text steady_find_elements
  steady_find_element steady_wait_until : submitter.

(** The calls that show in the trace. *)

Lemma emits_driver_get (P : event -> Prop) (url : string) :
  P (EvGet url) -> emits P (driver_get page url).
Proof.
  intros H. unfold driver_get. apply emits_bind; [now apply emits_log|].
  intros _. apply emits_call_unit.
Qed.

Lemma emits_send_keys (P : event -> Prop) (target : element) (keys : string) :
  P (EvSendKeys target keys) -> emits P (send_keys page target keys).
Proof.
  intros H. unfold send_keys. apply emits_bind; [now apply emits_log|].
  intros _. apply emits_call_unit.
Qed.

Lemma emits_driver_quit (P : event -> Prop) :
  P EvQuit -> emits P (driver_quit page).
Proof.
  intros H. unfold driver_quit. apply emits_bind; [now apply emits_log|].
  intros _. apply emits_call_unit.
Qed.

Lemma steady_driver_get (url : string) : steady (driver_get page url).
Proof. unfold driver_get. repeat follow. Qed.

Lemma steady_send_keys (target : element) (keys : string) :
  steady (send_keys page target keys).
Proof. unfold send_keys. repeat follow. Qed.

Lemma steady_driver_quit : steady (driver_quit page).
Proof. unfold driver_quit. repeat follow. Qed.

Hint Resolve steady_driver_get steady_send_keys steady_driver_quit : submitter.

Hint Extern 1 (emits _ (send_keys _ _ _)) =>
  (apply emits_send_keys; exact I) : submitter.
Hint Extern 1 (emits _ (driver_get _ _)) =>
  (apply emits_driver_get; exact I) : submitter.
Hint Extern 1 (emits _ (scroll_into_view _ _)) =>
  (apply emits_call_unit) : submitter.
Hint Extern 1 (emits _ (click _ _)) => (apply emits_call_unit) : submitter.
Hint Extern 1 (emits _ (clear _ _)) => (apply emits_call_unit) : submitter.
Hint Extern 1 (emits _ (get_attribute _ _ _)) =>
  (apply emits_call_text) : submitter.
Hint Extern 1 (steady (scroll_into_view _ _)) =>
  (apply steady_call_unit) : submitter.
Hint Extern 1 (steady (click _ _)) => (apply steady_call_unit) : submitter.
Hint Extern 1 (steady (clear _ _)) => (apply steady_call_unit) : submitter.
Hint Extern 1 (steady (get_attribute _ _ _)) =>
  (apply steady_call_text) : submitter.

(** *** [retry] swallows every exception *)

Lemma total_retry (n : nat) (attempt : M bool) : total (retry n attempt).
Proof.
  induction n as [|n IH]; simpl; [apply total_ret|].
  apply total_bind.
  - apply total_try_except. intros e. apply total_ret.
  - intros [|]; [apply total_ret|exact IH].
Qed.

Lemma emits_retry (P : event -> Prop) (n : nat) (attempt : M bool) :
  emits P attempt -> emits P (retry n attempt).
Proof.
  intros H. induction n as [|n IH]; simpl; repeat follow.
Qed.

Lemma steady_retry (n : nat) (attempt : M bool) :
  steady attempt -> steady (retry n attempt).
Proof.
  intros H. induction n as [|n IH]; simpl; repeat follow.
Qed.

(** *** [_fill_date_field] *)

Lemma emits_fill_date_part (day month year : Z) (inp : element) :
  emits browser_event (fill_date_part page day month year inp).
Proof. unfold fill_date_part. repeat follow. Qed.

Lemma steady_fill_date_part (day month year : Z) (inp : element) :
  steady (fill_date_part page day month year inp).
Proof. unfold fill_date_part. repeat follow. Qed.

Hint Resolve emits_fill_date_part steady_fill_date_part : submitter.

Lemma emits_fill_date_parts (day month year : Z) (inputs : list element) :
  emits browser_event (fill_date_parts page day month year inputs).
Proof. induction inputs as [|inp rest IH]; simpl; repeat follow. Qed.

Lemma steady_fill_date_parts (day month year : Z) (inputs : list element) :
  steady (fill_date_parts page day month year inputs).
Proof. induction inputs as [|inp rest IH]; simpl; repeat follow. Qed.

Hint Resolve emits_fill_date_parts steady_fill_date_parts : submitter.

Lemma emits_date_attempt (base : string) (day month year : Z) :
  emits browser_event (date_attempt page base day month year).
Proof. unfold date_attempt. repeat follow. Qed.

Lemma steady_date_attempt (base : string) (day month year : Z) :
  steady (date_attempt page base day month year).
Proof. unfold date_attempt. repeat follow. Qed.

Lemma total_fill_date_field (xpath : string) (value : pyval) (n : nat) :
  total (_fill_date_field page xpath value n).
Proof.
  unfold _fill_date_field.
  destruct (_parse_date_value value) as [[[d|] [m|]] [y|]];
    try apply total_ret.
  destruct (search_index xpath); [apply total_retry|apply total_ret].
Qed.

Lemma emits_fill_date_field (xpath : string) (value : pyval) (n : nat) :
  emits browser_event (_fill_date_field page xpath value n).
Proof.
  unfold _fill_date_field.
  destruct (_parse_date_value value) as [[[d|] [m|]] [y|]];
    try apply emits_ret.
  destruct (search_index xpath); [|apply emits_ret].
  apply emits_retry, emits_date_attempt.
Qed.

Lemma steady_fill_date_field (xpath : string) (value : pyval) (n : nat) :
  steady (_fill_date_field page xpath value n).
Proof.
  unfold _fill_date_field.
  destruct (_parse_date_value value) as [[[d|] [m|]] [y|]];
    try apply steady_ret.
  destruct (search_index xpath); [|apply steady_ret].
  apply steady_retry, steady_date_attempt.
Qed.

(** *** [_fill_field_with_retry] *)

Lemma emits_field_attempt (xpath field_type : string) (value : pyval) :
  emits browser_event (field_attempt page xpath field_type value).
Proof. unfold field_attempt. repeat follow. Qed.

Lemma steady_field_attempt (xpath field_type : string) (value : pyval) :
  steady (field_attempt page xpath field_type value).
Proof. unfold field_attempt. repeat follow. Qed.

(** A fill reports its failure as [False]; no exception leaves it. *)
Lemma total_fill_field (info : field_info) (value : pyval) (n : nat) :
  total (_fill_field_with_retry page info value n).
Proof.
  unfold _fill_field_with_retry.
  destruct (String.eqb (fi_type info) "date");
    [apply total_fill_date_field|apply total_retry].
Qed.

Lemma emits_fill_field (info : field_info) (value : pyval) (n : nat) :
  emits browser_event (_fill_field_with_retry page info value n).
Proof.
  unfold _fill_field_with_retry.
  destruct (String.eqb (fi_type info) "date");
    [apply emits_fill_date_field|apply emits_retry, emits_field_attempt].
Qed.

Lemma steady_fill_field (info : field_info) (value : pyval) (n : nat) :
  steady (_fill_field_with_retry page info value n).
Proof.
  unfold _fill_field_with_retry.
  destruct (String.eqb (fi_type info) "date");
    [apply steady_fill_date_field|apply steady_retry, steady_field_attempt].
Qed.

(** ** One row *)

Lemma browser_not_filled (evs : list event) (col : string) (b : bool) :
  Forall browser_event evs -> ~ In (EvFilled col b) evs.
Proof.
  intros H Hin. rewrite Forall_forall in H. exact (H _ Hin).
Qed.

Lemma browser_is_row_event (ev : event) : browser_event ev -> row_event ev.
Proof. destruct ev; simpl; auto. Qed.

(** The loop over the cells never raises, changes nothing but the trace,
    and the columns it reports as failed are those whose fill failed. *)
Lemma fill_columns_spec (items : row) :
  forall cnt failed w,
  exists cnt' new w' evs,
    fill_columns page items cnt failed w = (Ret (cnt', (failed ++ new)%list), w')
    /\ w_trace w' = (w_trace w ++ evs)%list
    /\ Forall row_event evs
    /\ w_errors w' = w_errors w
    /\ w_form_map w' = w_form_map w
    /\ w_driver w' = w_driver w
    /\ (forall col, In col new <-> In (EvFilled col false) evs).
Proof.
  induction items as [|[col value] rest IH]; intros cnt failed w.
  - exists cnt, [], w, []. simpl. rewrite !app_nil_r.
    repeat split; auto; intros [].
  - cbn [fill_columns]. unfold bind at 1. cbn [get_form_map].
    destruct (dict_get (normalize (VStr col)) (w_form_map w)) as [info|].
    + unfold bind at 1.
      destruct (total_fill_field info value 3 w) as [ok Hok].
      destruct (emits_fill_field info value 3 w) as (evs1 & Ht1 & He1).
      destruct (steady_fill_field info value 3 w) as (S1 & S2 & S3).
      destruct (_fill_field_with_retry page info value 3 w) as [o w1].
      cbn [fst snd] in *. subst o.
      unfold bind at 1. cbn [log].
      set (w2 := mk_world (w_clock w1) (w_trace w1 ++ [EvFilled col ok])
                          (w_errors w1) (w_form_map w1) (w_driver w1)).
      assert (Hfilled : forall c, In (EvFilled c false) evs1 -> False).
      { intros c Hc. exact (browser_not_filled _ _ _ He1 Hc). }
      destruct ok.
      * destruct (IH (cnt + 1) failed w2)
          as (cnt' & new & w' & evs & Hrun & Ht & He & E1 & E2 & E3 & Hiff).
        exists cnt', new, w', (evs1 ++ [EvFilled col true] ++ evs)%list.
        split; [exact Hrun|]. split.
        { rewrite Ht. subst w2. cbn [w_trace]. rewrite Ht1.
          now rewrite <- !app_assoc. }
        split.
        { apply Forall_app. split.
          - eapply Forall_impl; [apply browser_is_row_event|exact He1].
          - constructor; [exact I|exact He]. }
        split; [now rewrite E1|]. split; [now rewrite E2|].
        split; [now rewrite E3|].
        intros c. rewrite Hiff, !in_app_iff. cbn [In]. split.
        { intros H. right. right. exact H. }
        { intros [H|[[H|[]]|H]];
            [destruct (Hfilled c H)|discriminate H|exact H]. }
      * destruct (IH cnt (failed ++ [col])%list w2)
          as (cnt' & new & w' & evs & Hrun & Ht & He & E1 & E2 & E3 & Hiff).
        exists cnt', (col :: new), w', (evs1 ++ [EvFilled col false] ++ evs)%list.
        split.
        { rewrite Hrun. now rewrite <- app_assoc. }
        split.
        { rewrite Ht. subst w2. cbn [w_trace]. rewrite Ht1.
          now rewrite <- !app_assoc. }
        split.
        { apply Forall_app. split.
          - eapply Forall_impl; [apply browser_is_row_event|exact He1].
          - constructor; [exact I|exact He]. }
        split; [now rewrite E1|]. split; [now rewrite E2|].
        split; [now rewrite E3|].
        intros c. rewrite !in_app_iff. cbn [In]. rewrite Hiff. split.
        { intros [H|H]; [subst c; right; left; now left|right; right; exact H]. }
        { intros [H|[[H|[]]|H]].
          - destruct (Hfilled c H).
          - injection H as ->. now left.
          - now right. }
    + apply IH.
Qed.

Lemma run_steady {A : Type} (P : event -> Prop) (m : M A) :
  steady m -> emits P m ->
  forall w, exists o w1 evs, m w = (o, w1) /\ advance P w w1 evs.
Proof.
  intros Hs He w. destruct (Hs w) as (S1 & S2 & S3).
  destruct (He w) as (evs & Ht & Hevs).
  destruct (m w) as [o w1]. exists o, w1, evs. cbn [snd] in *.
  split; [reflexivity|]. repeat split; assumption.
Qed.

Lemma advance_trans (P : event -> Prop) (w w1 w2 : world)
      (evs1 evs2 : list event) :
  advance P w w1 evs1 -> advance P w1 w2 evs2 ->
  advance P w w2 (evs1 ++ evs2)%list.
Proof.
  intros (T1 & F1 & A1 & B1 & C1) (T2 & F2 & A2 & B2 & C2).
  unfold advance. rewrite T2, T1, app_assoc, A2, B2, C2.
  repeat split; auto. apply Forall_app. now split.
Qed.

Lemma no_event_nil (evs : list event) : Forall no_event evs -> evs = [].
Proof. destruct evs as [|ev evs]; [reflexivity|]. intros H. inversion H as [|? ? []]. Qed.

(** Lines 416-448.  Loading and filling the form either raises before any
    field is touched, or goes through; it then leaves one message when a
    fill has failed, and none otherwise. *)
Lemma fill_form_spec (r : row) (row_index : Z) (w : world) :
  exists o w1 evs,
    fill_form page form_url r row_index w = (o, w1)
    /\ w_trace w1 = (w_trace w ++ evs)%list
    /\ Forall row_event evs
    /\ w_form_map w1 = w_form_map w
    /\ w_driver w1 = w_driver w
    /\ match o with
       | Raise _ => w_errors w1 = w_errors w
       | Ret _ =>
           (w_errors w1 = w_errors w
            /\ forall col, ~ In (EvFilled col false) evs)
           \/ (exists cols,
                  cols <> []
                  /\ w_errors w1
                     = (w_errors w
                        ++ [(row_prefix row_index ++ "Failed fields - "
                             ++ join ", " cols)%string])%list
                  /\ exists col, In (EvFilled col false) evs)
       end.
Proof.
  unfold fill_form.
  destruct (run_steady browser_event (driver_get page form_url)
              (steady_driver_get _) (emits_driver_get _ _ I) w)
    as (o1 & w1 & evs1 & H1 & A1).
  destruct o1 as [[]|e].
  2:{ rewrite (bind_raise _ _ _ _ _ H1). exists (Raise e), w1, evs1.
      destruct A1 as (T & F & E1 & E2 & E3). repeat split; auto.
      eapply Forall_impl; [apply browser_is_row_event|exact F]. }
  rewrite (bind_step _ _ _ _ _ H1).
  destruct (run_steady browser_event (wait_until page "//div[@role='listitem']")
              (steady_wait_until _) (emits_wait_until _ _) w1)
    as (o2 & w2 & evs2 & H2 & A2).
  pose proof (advance_trans _ _ _ _ _ _ A1 A2) as A12.
  destruct o2 as [x|e].
  2:{ rewrite (bind_raise _ _ _ _ _ H2). exists (Raise e), w2, (evs1 ++ evs2)%list.
      destruct A12 as (T & F & E1 & E2 & E3). repeat split; auto.
      eapply Forall_impl; [apply browser_is_row_event|exact F]. }
  rewrite (bind_step _ _ _ _ _ H2).
  destruct (fill_columns_spec r 0 [] w2)
    as (cnt & new & w3 & evs3 & H3 & T3 & F3 & E3 & M3 & D3 & Hiff).
  rewrite (bind_step _ _ _ _ _ H3). cbn [app].
  destruct A12 as (T12 & F12 & E12 & M12 & D12).
  assert (Hpre : forall c, ~ In (EvFilled c false) (evs1 ++ evs2)%list).
  { intros c. apply browser_not_filled. exact F12. }
  assert (Hrow : Forall row_event ((evs1 ++ evs2) ++ evs3)%list).
  { apply Forall_app. split; [|exact F3].
    eapply Forall_impl; [apply browser_is_row_event|exact F12]. }
  destruct new as [|c new].
  - exists (Ret tt), w3, ((evs1 ++ evs2) ++ evs3)%list.
    split; [reflexivity|]. split; [rewrite T3, T12; now rewrite <- !app_assoc|].
    split; [exact Hrow|]. split; [now rewrite M3|]. split; [now rewrite D3|].
    left. split; [now rewrite E3|].
    intros col Hin. apply in_app_or in Hin as [Hin|Hin].
    + exact (Hpre col Hin).
    + apply Hiff in Hin. destruct Hin.
  - eexists (Ret tt), _, ((evs1 ++ evs2) ++ evs3)%list.
    split; [reflexivity|]. cbn [append_error snd w_trace w_errors w_form_map w_driver].
    split; [rewrite T3, T12; now rewrite <- !app_assoc|].
    split; [exact Hrow|]. split; [now rewrite M3|]. split; [now rewrite D3|].
    right. exists (c :: new). split; [discriminate|].
    split; [now rewrite E3, E12|].
    exists c. apply in_or_app. right. apply Hiff. now left.
Qed.

Ltac unfold_calls :=
  unfold try_except_timeout, try_except, bind, wait_until, find_element,
    find_elements, scroll_into_view, click, clear, get_attribute,
    call_unit, call_text, call, raise, ret, append_error, log;
  cbn [w_clock w_trace w_errors w_form_map w_driver fst snd].

Ltac case_replies :=
  repeat (cbn; match goal with
         | |- context [match r_exn ?r with _ => _ end] =>
             destruct (r_exn r) eqn:?
         | |- context [match r_elems ?r with _ => _ end] =>
             destruct (r_elems r) eqn:?
         | |- context [if is_timeout ?e then _ else _] =>
             destruct (is_timeout e) eqn:?
         end).

(** Lines 451-481.  Pressing the submit button leaves a message exactly
    when it answers [False]. *)
Lemma press_submit_spec (row_index : Z) (w1 : world) :
  let p := press_submit page row_index w1 in
  w_trace (snd p) = w_trace w1
  /\ w_form_map (snd p) = w_form_map w1
  /\ w_driver (snd p) = w_driver w1
  /\ match fst p with
     | Ret true => w_errors (snd p) = w_errors w1
     | Ret false => exists msg, w_errors (snd p) = (w_errors w1 ++ [msg])%list
     | Raise _ => w_errors (snd p) = w_errors w1
     end.
Proof.
  unfold press_submit, _wait_for_submission_confirmation. unfold_calls.
  case_replies; cbn; repeat split; try reflexivity; eexists; reflexivity.
Qed.

(** The wait for the submit button timing out (lines 477-481). *)
Lemma press_submit_timeout (row_index : Z) (w1 : world) :
  times_out (page (w_clock w1)) ->
  exists w2,
    press_submit page row_index w1 = (Ret false, w2)
    /\ w_trace w2 = w_trace w1
    /\ w_errors w2
       = (w_errors w1
          ++ [(row_prefix row_index ++ "Submit button not found")%string])%list.
Proof.
  unfold times_out, press_submit, _wait_for_submission_confirmation.
  unfold_calls. intros H. cbn -[is_timeout].
  destruct (r_exn (page (w_clock w1))) as [e|].
  - cbn -[is_timeout]. rewrite H. eexists. cbn. repeat split.
  - rewrite H. eexists. cbn. repeat split.
Qed.

Lemma app_singleton_not_nil {A : Type} (l : list A) (x : A) :
  (l ++ [x])%list <> [].
Proof. destruct l; discriminate. Qed.

(** What [_submit_row] does, whatever the page does. *)
Lemma submit_row_spec (r : row) (row_index : Z) (w : world) :
  exists b w' evs msgs,
    _submit_row page form_url r row_index w = (Ret b, w')
    /\ w_trace w' = (w_trace w ++ evs)%list
    /\ Forall row_event evs
    /\ w_errors w' = (w_errors w ++ msgs)%list
    /\ w_form_map w' = w_form_map w
    /\ w_driver w' = w_driver w
    /\ (b = false -> msgs <> [])
    /\ ((exists col, In (EvFilled col false) evs) -> msgs <> [])
    /\ (b = true ->
        Forall failed_fields_message msgs
        /\ ((forall col, ~ In (EvFilled col false) evs) -> msgs = [])).
Proof.
  unfold _submit_row, try_except.
  destruct (fill_form_spec r row_index w)
    as (o & w1 & evs & Hfill & T1 & F1 & M1 & D1 & Herr).
  destruct o as [[]|e].
  - rewrite (bind_step _ _ _ _ _ Hfill).
    destruct (press_submit_spec row_index w1) as (T2 & M2 & D2 & E2).
    destruct (press_submit page row_index w1) as [o2 w2].
    cbn [fst snd] in *.
    assert (Hmsgs : exists msgs1,
               w_errors w1 = (w_errors w ++ msgs1)%list
               /\ Forall failed_fields_message msgs1
               /\ ((exists col, In (EvFilled col false) evs) -> msgs1 <> [])
               /\ ((forall col, ~ In (EvFilled col false) evs) -> msgs1 = [])).
    { destruct Herr as [[E Hno]|(cols & Hcols & E & col & Hcol)].
      - exists []. rewrite app_nil_r. repeat split; auto.
        intros [col Hcol]. destruct (Hno col Hcol).
      - eexists. split; [exact E|]. split.
        + constructor; [|constructor]. now exists row_index, cols.
        + split; [discriminate|]. intros Hno. destruct (Hno col Hcol). }
    destruct Hmsgs as (msgs1 & E1 & Hff & Hsome & Hnone).
    destruct o2 as [[|]|e].
    + exists true, w2, evs, msgs1.
      rewrite T2, M2, D2, E2. repeat split; auto. discriminate.
    + destruct E2 as [msg E2].
      exists false, w2, evs, (msgs1 ++ [msg])%list.
      rewrite T2, M2, D2, E2, E1, <- app_assoc.
      repeat split; auto; try discriminate;
        intros; apply app_singleton_not_nil.
    + cbn [bind append_error ret fst snd].
      eexists false, _, evs, (msgs1 ++ [_])%list.
      split; [reflexivity|].
      cbn [w_trace w_errors w_form_map w_driver].
      rewrite T2, M2, D2, E2, E1, <- app_assoc.
      repeat split; auto; try discriminate;
        intros; apply app_singleton_not_nil.
  - rewrite (bind_raise _ _ _ _ _ Hfill).
    cbn [bind append_error ret fst snd].
    eexists false, _, evs, [_].
    split; [reflexivity|].
    cbn [w_trace w_errors w_form_map w_driver]. rewrite Herr.
    repeat split; auto; discriminate.
Qed.

(** *** What decides the answer of a row *)






(** ** Substrings *)

Lemma prefix_app (n s : string) : String.prefix n (n ++ s) = true.
Proof.
  induction n as [|c n IH]; simpl; [now destruct s|].
  destruct (ascii_dec c c) as [_|Hc]; [exact IH|now destruct Hc].
Qed.

Lemma py_in_prefix (n h : string) : String.prefix n h = true -> py_in n h = true.
Proof. intros H. destruct h; cbn [py_in]; now rewrite H. Qed.

Lemma py_in_here (n s : string) : py_in n (n ++ s) = true.
Proof. apply py_in_prefix, prefix_app. Qed.

Lemma py_in_app (n a s : string) : py_in n s = true -> py_in n (a ++ s) = true.
Proof.
  intros H. induction a as [|c a IH]; simpl; [exact H|].
  rewrite IH. apply orb_true_r.
Qed.

Lemma py_in_middle (n a b : string) : py_in n (a ++ n ++ b) = true.
Proof. apply py_in_app, py_in_here. Qed.

Lemma lower_app (a b : string) : lower (a ++ b) = (lower a ++ lower b)%string.
Proof. induction a as [|c a IH]; simpl; [reflexivity|now rewrite IH]. Qed.

(** C7, as amended.  When the wait for the submit button times out,
    [_submit_row] answers [False] and appends
    ["Row <row_index + 1>: Submit button not found"]: the message holds
    "Submit" with a capital S (so "submit" once lowered) and the 1-based
    number of the row. *)
Theorem submit_button_not_found (r : row) (row_index : Z) (w w1 : world) :
  fill_form page form_url r row_index w = (Ret tt, w1) ->
  times_out (page (w_clock w1)) ->
  exists w' msg,
    _submit_row page form_url r row_index w = (Ret false, w')
    /\ w_errors w' = (w_errors w1 ++ [msg])%list
    /\ msg = ("Row " ++ str_of_Z (row_index + 1)
              ++ ": Submit button not found")%string
    /\ py_in "Submit" msg = true
    /\ py_in "submit" (lower msg) = true
    /\ py_in (str_of_Z (row_index + 1)) msg = true.
Proof.
  intros Hfill Hto.
  destruct (press_submit_timeout row_index w1 Hto) as (w2 & Hp & _ & He).
  exists w2. eexists. split.
  - unfold _submit_row, try_except.
    rewrite (bind_step _ _ _ _ _ Hfill), Hp. reflexivity.
  - split; [exact He|]. unfold row_prefix.
    split; [now rewrite !string_app_assoc|].
    rewrite !string_app_assoc. split; [|split].
    + apply py_in_app, py_in_app. apply (py_in_middle "Submit" ": " " button not found").
    + rewrite !lower_app. apply py_in_app, py_in_app. reflexivity.
    + apply (py_in_middle _ "Row " _).
Qed.

(** ** The mapping step *)

Section MappingEvents.

Variable P : event -> Prop.
Hypothesis P_mapped : forall info, P (EvMapped info).

Lemma emits_find_questions (sels : list string) :
  emits P (find_questions page sels).
Proof. induction sels as [|sel rest IH]; simpl; repeat follow. Qed.

Lemma emits_read_roles (divs : list element) : emits P (read_roles page divs).
Proof. induction divs as [|d rest IH]; simpl; repeat follow. Qed.

Lemma emits_inspect_page : emits P (inspect_page page).
Proof.
  unfold inspect_page. repeat follow. apply emits_read_roles.
Qed.

Lemma emits_map_questions (questions : list element) :
  forall idx mapping, emits P (map_questions page idx questions mapping).
Proof.
  induction questions as [|q rest IH]; intros idx mapping; simpl.
  - apply emits_ret.
  - apply emits_bind; [|intros ?; apply IH]. unfold map_question.
    repeat first [ apply emits_log; apply P_mapped | follow ].
Qed.

Lemma emits_extract_form_mapping : emits P (_extract_form_mapping page).
Proof.
  unfold _extract_form_mapping.
  repeat first [ apply emits_find_questions | apply emits_inspect_page
               | apply emits_map_questions | follow ].
Qed.

End MappingEvents.

Lemma steady_find_questions (sels : list string) :
  steady (find_questions page sels).
Proof. induction sels as [|sel rest IH]; simpl; repeat follow. Qed.

Lemma steady_read_roles (divs : list element) : steady (read_roles page divs).
Proof. induction divs as [|d rest IH]; simpl; repeat follow. Qed.

Lemma steady_inspect_page : steady (inspect_page page).
Proof. unfold inspect_page. repeat follow. apply steady_read_roles. Qed.

Lemma steady_map_questions (questions : list element) :
  forall idx mapping, steady (map_questions page idx questions mapping).
Proof.
  induction questions as [|q rest IH]; intros idx mapping; simpl.
  - apply steady_ret.
  - apply steady_bind; [|intros ?; apply IH]. unfold map_question.
    repeat follow.
Qed.

Lemma steady_extract_form_mapping : steady (_extract_form_mapping page).
Proof.
  unfold _extract_form_mapping.
  repeat first [ apply steady_find_questions | apply steady_inspect_page
               | apply steady_map_questions | follow ].
Qed.

(** *** Dictionaries *)

Lemma dict_get_set {V : Type} (k k' : string) (v : V) (d : dict V) :
  dict_get k (dict_set k' v d)
  = if String.eqb k' k then Some v else dict_get k d.
Proof.
  induction d as [|[k0 v0] d IH]; simpl.
  - reflexivity.
  - destruct (String.eqb k0 k') eqn:E0; simpl.
    + apply String.eqb_eq in E0. subst k0.
      destruct (String.eqb k' k); reflexivity.
    + rewrite IH. destruct (String.eqb k0 k) eqn:E1; [|reflexivity].
      apply String.eqb_eq in E1. subst k0. now rewrite String.eqb_sym, E0.
Qed.

Lemma dict_keys_set {V : Type} (k : string) (v : V) (d : dict V) :
  forall x, In x (dict_keys (dict_set k v d)) <-> x = k \/ In x (dict_keys d).
Proof.
  induction d as [|[k0 v0] d IH]; intros x; simpl.
  - split; [intros [H|[]]; now left|intros [H|[]]; now left].
  - destruct (String.eqb k0 k) eqn:E0; simpl.
    + apply String.eqb_eq in E0. subst k0. split; [tauto|].
      intros [H|H]; [now left|exact H].
    + rewrite IH. split; [tauto|tauto].
Qed.

Lemma dict_set_nodup {V : Type} (k : string) (v : V) (d : dict V) :
  NoDup (dict_keys d) -> NoDup (dict_keys (dict_set k v d)).
Proof.
  induction d as [|[k0 v0] d IH]; simpl; intros H.
  - constructor; [intros []|constructor].
  - inversion H as [|? ? Hnin Hd]; subst.
    destruct (String.eqb k0 k) eqn:E0; simpl.
    + constructor; assumption.
    + constructor; [|now apply IH].
      intros Hin. apply dict_keys_set in Hin as [Hin|Hin].
      * subst k0. now rewrite String.eqb_refl in E0.
      * exact (Hnin Hin).
Qed.

(** *** The last question announced for a key is the one that stays *)

Lemma last_mapped_key (k : string) (evs : list event) (info : field_info) :
  last_mapped k evs = Some info ->
  In (EvMapped info) evs /\ k = normalize (VStr (fi_label info)).
Proof.
  induction evs as [|ev evs IH]; simpl; [discriminate|].
  destruct (last_mapped k evs) as [i|].
  - intros H. injection H as ->. destruct (IH eq_refl) as [H1 H2]. auto.
  - destruct ev; try discriminate.
    destruct (String.eqb (normalize (VStr (fi_label info0))) k) eqn:E;
      [|discriminate].
    intros H. injection H as ->. apply String.eqb_eq in E. auto.
Qed.

(** What one turn of the loop at lines 167-192 does: nothing, or one
    assignment to [mapping] and its announcement. *)
Lemma map_question_step (idx : Z) (q : element) (mapping : dict field_info)
      (w : world) :
  exists w1,
    (map_question page idx q mapping w = (Ret mapping, w1)
     /\ w_trace w1 = w_trace w)
    \/ (exists info,
           map_question page idx q mapping w
           = (Ret (dict_set (normalize (VStr (fi_label info))) info mapping), w1)
           /\ w_trace w1 = (w_trace w ++ [EvMapped info])%list).
Proof.
  unfold map_question. unfold_calls.
  case_replies;
    try (eexists; left; split; reflexivity);
    try (destruct (truthy (r_text _)); case_replies);
    try (eexists; left; split; reflexivity);
    eexists; right; eexists (mk_field_info _ _ _ _); split; reflexivity.
Qed.

Lemma map_questions_spec (questions : list element) :
  forall idx mapping w,
  exists fm w' evs,
    map_questions page idx questions mapping w = (Ret fm, w')
    /\ w_trace w' = (w_trace w ++ evs)%list
    /\ (NoDup (dict_keys mapping) -> NoDup (dict_keys fm))
    /\ (forall k, dict_get k fm
                  = match last_mapped k evs with
                    | Some info => Some info
                    | None => dict_get k mapping
                    end).
Proof.
  induction questions as [|q rest IH]; intros idx mapping w.
  - exists mapping, w, []. cbn. rewrite app_nil_r. auto.
  - cbn [map_questions].
    destruct (map_question_step idx q mapping w) as [w1 [[H T]|(info & H & T)]];
      rewrite (bind_step _ _ _ _ _ H).
    + destruct (IH (idx + 1) mapping w1) as (fm & w' & evs & Hrun & T' & Hnd & Hget).
      exists fm, w', evs. rewrite Hrun, T', T. auto.
    + set (key := normalize (VStr (fi_label info))) in *.
      destruct (IH (idx + 1) (dict_set key info mapping) w1)
        as (fm & w' & evs & Hrun & T' & Hnd & Hget).
      exists fm, w', (EvMapped info :: evs).
      split; [exact Hrun|]. split; [rewrite T', T; now rewrite <- app_assoc|].
      split; [intros Hm; now apply Hnd, dict_set_nodup|].
      intros k. rewrite Hget. cbn [last_mapped]. fold key.
      destruct (last_mapped k evs); [reflexivity|].
      rewrite dict_get_set. destruct (String.eqb key k); reflexivity.
Qed.

(** What comes before the loop (lines 103-165) leaves no trace. *)
Lemma extract_inv (w w' : world) (fm : dict field_info) :
  _extract_form_mapping page w = (Ret fm, w') ->
  exists w0 questions,
    w_trace w0 = w_trace w
    /\ map_questions page 0 questions [] w0 = (Ret fm, w').
Proof.
  unfold _extract_form_mapping. intros H.
  apply bind_ret_inv in H as (u0 & w1 & H1 & H).
  apply bind_ret_inv in H as (u1 & w2 & H2 & H).
  apply bind_ret_inv in H as (u2 & w3 & H3 & H).
  apply bind_ret_inv in H as (u3 & w4 & H4 & H).
  apply bind_ret_inv in H as (source & w5 & H5 & H).
  destruct (py_in "sorry" (lower (or_empty source))
            && py_in "access" (lower (or_empty source))); [discriminate H|].
  apply bind_ret_inv in H as (questions & w6 & H6 & H).
  assert (T : w_trace w6 = w_trace w).
  { pose proof (emits_try_except_timeout no_event
                  (bind (wait_until page "body") (fun _ => ret tt))
                  (raise (py_exception "Page failed to load"))) as E1.
    destruct (E1 ltac:(repeat follow) ltac:(repeat follow) w) as (e1 & T1 & F1).
    destruct (emits_call_unit no_event w1) as (e2 & T2 & F2).
    destruct (emits_call_unit no_event w2) as (e3 & T3 & F3).
    destruct (emits_call_unit no_event w3) as (e4 & T4 & F4).
    destruct (emits_call_text no_event w4) as (e5 & T5 & F5).
    destruct (emits_find_questions no_event selectors w5) as (e6 & T6 & F6).
    rewrite H1 in T1. rewrite H2 in T2. rewrite H3 in T3. rewrite H4 in T4.
    rewrite H5 in T5. rewrite H6 in T6. cbn [snd] in *.
    rewrite (no_event_nil _ F1) in T1. rewrite (no_event_nil _ F2) in T2.
    rewrite (no_event_nil _ F3) in T3. rewrite (no_event_nil _ F4) in T4.
    rewrite (no_event_nil _ F5) in T5. rewrite (no_event_nil _ F6) in T6.
    rewrite app_nil_r in *. congruence. }
  destruct questions as [|q qs].
  - apply bind_ret_inv in H as (u & w7 & _ & H). discriminate H.
  - now exists w6, (q :: qs).
Qed.

(** C8.  The form map [_extract_form_mapping] returns has no key twice;
    every key is the normalized label of the descriptor stored under it;
    and the descriptor stored under a key is that of the last question
    announced with this normalized label. *)
Theorem form_map_last_wins (w w' : world) (fm : dict field_info) :
  _extract_form_mapping page w = (Ret fm, w') ->
  exists evs,
    w_trace w' = (w_trace w ++ evs)%list
    /\ NoDup (dict_keys fm)
    /\ (forall k info, dict_get k fm = Some info ->
                       k = normalize (VStr (fi_label info))
                       /\ normalize (VStr k) = k)
    /\ (forall k, dict_get k fm = last_mapped k evs).
Proof.
  intros H. apply extract_inv in H as (w0 & questions & T0 & H).
  destruct (map_questions_spec questions 0 [] w0)
    as (fm' & w'' & evs & Hrun & T & Hnd & Hget).
  rewrite H in Hrun. injection Hrun as <- <-.
  assert (Hlast : forall k, dict_get k fm = last_mapped k evs).
  { intros k. rewrite Hget. now destruct (last_mapped k evs). }
  exists evs. split; [now rewrite T, T0|]. split; [apply Hnd; constructor|].
  split; [|exact Hlast].
  intros k info Hk. rewrite Hlast in Hk.
  apply last_mapped_key in Hk as [_ ->]. split; [reflexivity|].
  apply normalize_str_fix, normalize_str_normal.
Qed.

(** ** The run *)

Lemma emits_click_each (P : event -> Prop) (buttons : list element) :
  emits P (click_each page buttons).
Proof.
  induction buttons as [|b rest IH]; simpl; repeat follow.
Qed.

Lemma steady_click_each (buttons : list element) :
  steady (click_each page buttons).
Proof. induction buttons as [|b rest IH]; simpl; repeat follow. Qed.

Lemma emits_open_form (P : event -> Prop) :
  P (EvGet form_url) -> emits P (open_form page form_url).
Proof.
  intros H. unfold open_form, dismiss_consent.
  apply emits_bind; [now apply emits_driver_get|]. intros _.
  repeat first [ apply emits_click_each | follow ].
Qed.

Lemma steady_open_form : steady (open_form page form_url).
Proof.
  unfold open_form, dismiss_consent.
  repeat first [ apply steady_click_each | follow ].
Qed.

Lemma emits_release (P : event -> Prop) :
  P EvQuit -> emits P (release page).
Proof.
  intros H. unfold release. apply emits_bind; [apply emits_has_driver|].
  intros [|]; [now apply emits_driver_quit|apply emits_ret].
Qed.

Lemma row_event_progress_ok (total : Z) (ev : event) :
  row_event ev -> progress_ok total ev.
Proof. destruct ev; simpl; tauto. Qed.

Lemma emits_submit_row (P : event -> Prop) (r : row) (row_index : Z) :
  (forall ev, row_event ev -> P ev) ->
  emits P (_submit_row page form_url r row_index).
Proof.
  intros HP w.
  destruct (submit_row_spec r row_index w)
    as (b & w' & evs & msgs & H & T & F & _).
  exists evs. rewrite H. split; [exact T|].
  eapply Forall_impl; eassumption.
Qed.

Lemma emits_call_progress (P : event -> Prop) (cb : option callback)
      (current total success fail : Z) (message : string) :
  P (EvProgress current total success fail message) ->
  emits P (call_progress cb current total success fail message).
Proof.
  intros H. unfold call_progress. destruct cb as [f|]; [|apply emits_ret].
  apply emits_bind; [now apply emits_log|]. intros _.
  destruct (f current total success fail message);
    [apply emits_raise|apply emits_ret].
Qed.

(** The loop over the rows tells the callback, after each row, how many
    rows are done: as many as succeeded and failed together. *)
Lemma emits_submit_rows (cb : option callback) (total : Z) (rows : list row) :
  forall index success fail,
    success + fail = index -> 0 <= index ->
    index + Z.of_nat (length rows) = total ->
    emits (progress_ok total)
          (submit_rows page form_url cb total rows index success fail).
Proof.
  induction rows as [|r rest IH]; intros index success fail Hsum Hidx Hlen.
  - apply emits_ret.
  - cbn [submit_rows]. cbn [length] in Hlen.
    apply emits_bind.
    { apply emits_submit_row. apply row_event_progress_ok. }
    intros ok. apply emits_bind.
    + apply emits_call_progress. cbn. destruct ok; lia.
    + intros _. apply IH; destruct ok; lia.
Qed.

(** C10.  Every call of the progress callback in a run over the rows [df]
    is given a number of successes and a number of failures that add up to
    the number of the row just processed, and the same total: the number of
    rows of [df]. *)
Theorem progress_counts (df : list row) (cb : option callback) (w : world) :
  exists evs,
    w_trace (snd (run page form_url (inr df) cb w)) = (w_trace w ++ evs)%list
    /\ forall current_row total success fail message,
         In (EvProgress current_row total success fail message) evs ->
         success + fail = current_row
         /\ total = Z.of_nat (length df)
         /\ 1 <= current_row <= Z.of_nat (length df).
Proof.
  assert (H : emits (progress_ok (Z.of_nat (length df)))
                    (run page form_url (inr df) cb)).
  { unfold run. rewrite bind_ret_l. unfold _create_driver, map_and_submit.
    repeat match goal with
           | |- emits _ (try_finally _ _) => apply emits_try_finally
           | |- emits _ (open_form _ _) => apply emits_open_form; exact I
           | |- emits _ (release _) => apply emits_release; exact I
           | |- emits _ (_extract_form_mapping _) =>
               apply emits_extract_form_mapping; intros ?; exact I
           | |- emits _ (submit_rows _ _ _ _ _ _ _ _) =>
               apply emits_submit_rows; lia
           | |- _ => follow
           end. }
  destruct (H w) as (evs & T & F). exists evs. split; [exact T|].
  intros c t s f m Hin. rewrite Forall_forall in F. exact (F _ Hin).
Qed.

Lemma try_finally_ret_inv {A : Type} (body : M A) (final : M unit)
      (w w' : world) (a : A) :
  try_finally body final w = (Ret a, w') ->
  exists w1, body w = (Ret a, w1) /\ final w1 = (Ret tt, w').
Proof.
  unfold try_finally. destruct (body w) as [o w1].
  destruct (final w1) as [[[]|e] w2] eqn:E; intros H; [|discriminate H].
  injection H as -> <-. now exists w1.
Qed.

Lemma call_progress_ret (cb : option callback)
      (current total success fail : Z) (message : string) (w w' : world) :
  call_progress cb current total success fail message w = (Ret tt, w') ->
  w_errors w' = w_errors w
  /\ exists evs, w_trace w' = (w_trace w ++ evs)%list
                 /\ forall col b, ~ In (EvFilled col b) evs.
Proof.
  unfold call_progress. destruct cb as [f|].
  - unfold bind, log.
    destruct (f current total success fail message); [discriminate|].
    intros H. injection H as <-. cbn. split; [reflexivity|].
    eexists. split; [reflexivity|]. intros col b [H|[]]. discriminate H.
  - intros H. injection H as <-. split; [reflexivity|].
    exists []. rewrite app_nil_r. split; [reflexivity|]. intros col b [].
Qed.

(** The loop over the rows, when it comes to its end: each row has added
    one to one of the two counts; and when no row has been counted as
    failed, the messages left are those of fields that could not be
    filled. *)
Lemma submit_rows_spec (cb : option callback) (total : Z) (rows : list row) :
  forall index success fail w success' fail' w',
    submit_rows page form_url cb total rows index success fail w
    = (Ret (success', fail'), w') ->
    success' + fail' = success + fail + Z.of_nat (length rows)
    /\ success <= success' /\ fail <= fail'
    /\ exists evs msgs,
        w_trace w' = (w_trace w ++ evs)%list
        /\ w_errors w' = (w_errors w ++ msgs)%list
        /\ (fail' = fail ->
            Forall failed_fields_message msgs
            /\ ((forall col, ~ In (EvFilled col false) evs) -> msgs = [])).
Proof.
  induction rows as [|r rest IH];
    intros index success fail w success' fail' w' H.
  - cbn in H. injection H as <- <- <-. cbn [length].
    repeat split; try lia. exists [], []. rewrite !app_nil_r. auto.
  - cbn [submit_rows] in H.
    destruct (submit_row_spec r index w)
      as (b & w1 & evs1 & msgs1 & Hrow & T1 & _ & E1 & _ & _ & _ & _ & Htrue).
    rewrite (bind_step _ _ _ _ _ Hrow) in H.
    apply bind_ret_inv in H as ([] & w2 & Hcb & H).
    apply call_progress_ret in Hcb as (E2 & evp & T2 & Hevp).
    apply IH in H as (Hsum & Hs & Hf & evs3 & msgs3 & T3 & E3 & Hzero).
    cbn [length]. split; [destruct b; lia|].
    split; [destruct b; lia|]. split; [destruct b; lia|].
    exists (evs1 ++ evp ++ evs3)%list, (msgs1 ++ msgs3)%list.
    split; [rewrite T3, T2, T1; now rewrite <- !app_assoc|].
    split; [rewrite E3, E2, E1; now rewrite <- !app_assoc|].
    intros Hsame. destruct b; [|lia].
    destruct (Htrue eq_refl) as [Hff1 Hnone1].
    destruct (Hzero Hsame) as [Hff3 Hnone3].
    split; [apply Forall_app; now split|].
    intros Hno. rewrite Hnone1, Hnone3; [reflexivity| |].
    + intros col Hin. apply (Hno col). rewrite !in_app_iff. auto.
    + intros col Hin. apply (Hno col). rewrite !in_app_iff. auto.
Qed.

Lemma create_driver_inv (w w1 : world) :
  _create_driver page w = (Ret tt, w1) ->
  w_driver w1 = true /\ w_trace w1 = w_trace w /\ w_errors w1 = w_errors w.
Proof.
  unfold _create_driver. intros H.
  apply bind_ret_inv in H as ([] & w0 & H0 & H).
  destruct (steady_call_unit w) as (E & _ & _).
  destruct (emits_call_unit no_event w) as (evs & T & F).
  rewrite H0 in E, T. rewrite (no_event_nil _ F), app_nil_r in T.
  cbn [snd] in *. unfold set_driver in H. injection H as <-. cbn. auto.
Qed.

(** *** The counts are those of the answers of the rows *)

Lemma how_many_cons (b ok : bool) (oks : list bool) :
  how_many b (ok :: oks)
  = (if Bool.eqb b ok then 1 else 0) + how_many b oks.
Proof.
  unfold how_many. cbn [filter]. destruct (Bool.eqb b ok); cbn [length]; lia.
Qed.

Lemma how_many_all (oks : list bool) :
  Forall (fun ok => ok = true) oks ->
  how_many true oks = Z.of_nat (length oks) /\ how_many false oks = 0.
Proof.
  induction 1 as [|ok oks Hok _ [IH1 IH2]]; [split; reflexivity|].
  subst ok. rewrite !how_many_cons, IH1, IH2. cbn [Bool.eqb length]. lia.
Qed.

(** The loop counts one success for each row that answers [True] and one
    failure for each row that answers [False]. *)
Lemma submit_rows_answers (cb : option callback) (total : Z)
      (rows : list row) :
  forall index success fail w success' fail' w',
    submit_rows page form_url cb total rows index success fail w
    = (Ret (success', fail'), w') ->
    exists oks,
      row_answers page form_url cb total rows index success fail w
      = (Ret oks, w')
      /\ length oks = length rows
      /\ success' = success + how_many true oks
      /\ fail' = fail + how_many false oks.
Proof.
  induction rows as [|r rest IH];
    intros index success fail w success' fail' w' H.
  - cbn in H. injection H as <- <- <-. exists []. cbn.
    repeat split; lia.
  - cbn [submit_rows] in H. cbn [row_answers].
    apply bind_ret_inv in H as (ok & w1 & Hrow & H).
    apply bind_ret_inv in H as ([] & w2 & Hcb & H).
    apply IH in H as (oks & Hoks & Hlen & Hs & Hf).
    exists (ok :: oks).
    rewrite (bind_step _ _ _ _ _ Hrow), (bind_step _ _ _ _ _ Hcb),
      (bind_step _ _ _ _ _ Hoks).
    split; [reflexivity|]. split; [cbn [length]; now rewrite Hlen|].
    rewrite !how_many_cons. destruct ok; cbn [Bool.eqb]; lia.
Qed.

(** A run that returns a result has come to the loop over the rows in the
    state [before_rows], with no error recorded. *)
Lemma run_ret_loop (df : list row) (cb : option callback) (w w' : world)
      (res : run_result) :
  run page form_url (inr df) cb w = (Ret res, w') ->
  exists w1 success fail,
    w_errors (before_rows page form_url w) = []
    /\ submit_rows page form_url cb (Z.of_nat (length df)) df 0 0 0
                   (before_rows page form_url w)
       = (Ret (success, fail), w1)
    /\ res = mk_run_result (Z.of_nat (length df)) success fail (w_errors w1)
    /\ exists evs, w_trace w' = (w_trace w1 ++ evs)%list.
Proof.
  unfold run. rewrite bind_ret_l. intros H.
  apply bind_ret_inv in H as ([] & wa & Ha & H).
  apply bind_ret_inv in H as ([] & wb & Hb & H).
  apply try_finally_ret_inv in H as (wc & H & Hrel).
  apply bind_ret_inv in H as ([] & wd & Hd & H).
  unfold map_and_submit in H.
  apply bind_ret_inv in H as (fm & we & He & H).
  apply bind_ret_inv in H as ([] & wf & Hf & H).
  destruct fm as [|entry fm]; [discriminate H|].
  apply bind_ret_inv in H as ([success fail] & wg & Hg & H).
  apply bind_ret_inv in H as (errs & wh & Hh & H).
  unfold get_errors in Hh. injection Hh as <- <-.
  unfold ret in H. injection H as <- <-.
  assert (Hstart : before_rows page form_url w = wf).
  { unfold before_rows.
    rewrite (bind_step _ _ _ _ _ Ha), (bind_step _ _ _ _ _ Hb),
      (bind_step _ _ _ _ _ Hd), (bind_step _ _ _ _ _ He), Hf.
    reflexivity. }
  rewrite Hstart. exists wg, success, fail.
  split.
  { unfold set_form_map in Hf. injection Hf as <-. cbn [w_errors].
    destruct (steady_extract_form_mapping wd) as (E1 & _ & _).
    destruct (steady_open_form wb) as (E2 & _ & _).
    rewrite He in E1. rewrite Hd in E2. cbn [snd] in *.
    unfold reset_errors in Hb. injection Hb as <-. cbn in E2. congruence. }
  split; [exact Hg|]. split; [reflexivity|].
  destruct (emits_release (fun _ => True) I wg) as (evs & T & _).
  rewrite Hrel in T. now exists evs.
Qed.

(** C1, as amended.  The result of a run over the rows [df] counts the
    answers of [_submit_row]: [success_count] is the number of rows that
    answered [True] and [fail_count] the number of rows that answered
    [False], one answer for each row.  So a run in which every row is
    confirmed returns [total_rows] and [success_count] equal to the number
    of rows and [fail_count] 0.  Its [errors] then hold nothing but
    messages ["Row <n>: Failed fields - <columns>"], left by rows that
    were submitted and confirmed although some field could not be filled;
    the list is empty when every fill succeeded. *)
Theorem run_all_confirmed (df : list row) (cb : option callback)
        (w w' : world) (res : run_result) :
  run page form_url (inr df) cb w = (Ret res, w') ->
  exists oks,
    fst (row_answers page form_url cb (Z.of_nat (length df)) df 0 0 0
                     (before_rows page form_url w))
    = Ret oks
    /\ length oks = length df
    /\ total_rows res = Z.of_nat (length df)
    /\ success_count res = how_many true oks
    /\ fail_count res = how_many false oks
    /\ (Forall (fun ok => ok = true) oks ->
        success_count res = Z.of_nat (length df)
        /\ fail_count res = 0
        /\ Forall failed_fields_message (errors res)
        /\ ((forall col, ~ In (EvFilled col false) (w_trace w')) ->
            errors res = [])).
Proof.
  intros Hrun.
  apply run_ret_loop in Hrun
    as (w1 & success & fail & E0 & Hrows & -> & evs' & T').
  cbn [success_count total_rows fail_count errors].
  destruct (submit_rows_answers _ _ _ _ _ _ _ _ _ _ Hrows)
    as (oks & Hoks & Hlen & Hs & Hf).
  exists oks. rewrite Hoks. split; [reflexivity|].
  split; [exact Hlen|]. split; [reflexivity|].
  split; [lia|]. split; [lia|].
  intros Hall. destruct (how_many_all oks Hall) as [Ht Hz].
  apply submit_rows_spec in Hrows
    as (_ & _ & _ & evs & msgs & T & E & Hzero).
  assert (Hfail : fail = 0) by lia.
  destruct (Hzero Hfail) as [Hff Hnone].
  rewrite E, E0. cbn [app].
  split; [lia|]. split; [exact Hfail|]. split; [exact Hff|].
  intros Hno. apply Hnone. intros col Hin. apply (Hno col).
  rewrite T', T, !in_app_iff. auto.
Qed.

(** C2.  When the mapping step gives an empty form map, [run] raises:
    nothing happens between the mapping and the [quit] of the browser (no
    row is loaded, no callback is called), [self.errors] is empty, and the
    exception is the "No form fields detected" one unless [quit] itself
    raises. *)
Theorem run_no_fields (df : list row) (cb : option callback)
        (w w1 w2 w3 : world) :
  _create_driver page w = (Ret tt, w1) ->
  open_form page form_url (snd (reset_errors w1)) = (Ret tt, w2) ->
  _extract_form_mapping page w2 = (Ret [], w3) ->
  exists e w',
    run page form_url (inr df) cb w = (Raise e, w')
    /\ w_trace w' = (w_trace w3 ++ [EvQuit])%list
    /\ w_errors w' = []
    /\ (r_exn (page (w_clock w3)) = None -> e = no_fields_exception).
Proof.
  intros Hcreate Hopen Hmap.
  destruct (create_driver_inv _ _ Hcreate) as (Hdrv & _ & _).
  destruct (steady_open_form (snd (reset_errors w1))) as (E2 & _ & D2).
  destruct (steady_extract_form_mapping w2) as (E3 & _ & D3).
  rewrite Hopen in E2, D2. rewrite Hmap in E3, D3. cbn [snd reset_errors] in *.
  cbn [w_errors w_driver] in E2, D2.
  assert (Hlive : w_driver w3 = true) by congruence.
  assert (Herr : w_errors w3 = []) by congruence.
  unfold run. rewrite bind_ret_l.
  rewrite (bind_step _ _ _ _ _ Hcreate).
  unfold bind at 1. cbn [reset_errors].
  unfold try_finally.
  rewrite (bind_step _ _ _ _ _ Hopen).
  unfold map_and_submit. rewrite (bind_step _ _ _ _ _ Hmap).
  unfold bind at 1. cbn [set_form_map raise].
  unfold release, has_driver, driver_quit, call_unit, call, log, bind.
  cbn [w_driver w_clock w_trace w_errors w_form_map fst snd].
  rewrite Hlive. cbn.
  destruct (r_exn (page (w_clock w3))) as [e|].
  - exists e. eexists. cbn. split; [reflexivity|]. cbn.
    repeat split; auto. discriminate.
  - exists no_fields_exception. eexists. cbn. split; [reflexivity|]. cbn.
    repeat split; auto.
Qed.

(** ** Further properties of the fill functions *)

(** *** The events of a fill, for any property of keys and values *)

Section TypingEvents.

Variable P : event -> Prop.
Hypothesis P_keys : forall target keys, P (EvSendKeys target keys).
Hypothesis P_value : forall target value, P (EvSetValue target value).

Lemma emits_send_keys_any (target : element) (keys : string) :
  emits P (send_keys page target keys).
Proof. apply emits_send_keys, P_keys. Qed.

Lemma emits_fill_date_part_any (day month year : Z) (inp : element) :
  emits P (fill_date_part page day month year inp).
Proof.
  unfold fill_date_part.
  repeat first [ apply emits_send_keys_any | apply emits_call_unit
               | apply emits_call_text | follow ].
Qed.

Lemma emits_fill_date_parts_any (day month year : Z) (inputs : list element) :
  emits P (fill_date_parts page day month year inputs).
Proof.
  induction inputs as [|inp rest IH]; simpl; [apply emits_ret|].
  apply emits_bind; [apply emits_fill_date_part_any|intros _; exact IH].
Qed.

Lemma emits_date_attempt_any (base : string) (day month year : Z) :
  emits P (date_attempt page base day month year).
Proof.
  unfold date_attempt.
  repeat first [ apply emits_send_keys_any | apply emits_call_unit
               | apply emits_fill_date_parts_any
               | apply emits_find_elements
               | apply emits_log; apply P_value | follow ].
Qed.

Lemma emits_retry_any (n : nat) (attempt : M bool) :
  emits P attempt -> emits P (retry n attempt).
Proof.
  intros H. induction n as [|n IH]; simpl; [apply emits_ret|].
  apply emits_bind.
  - apply emits_try_except; [exact H|intros e; apply emits_ret].
  - intros [|]; [apply emits_ret|exact IH].
Qed.

Lemma emits_field_attempt_any (xpath field_type : string) (value : pyval) :
  emits P (field_attempt page xpath field_type value).
Proof.
  unfold field_attempt.
  repeat first [ apply emits_send_keys_any | apply emits_call_unit
               | apply emits_call_text | apply emits_wait_until | follow ].
Qed.

Lemma emits_fill_field_any (info : field_info) (value : pyval) (n : nat) :
  emits P (_fill_field_with_retry page info value n).
Proof.
  unfold _fill_field_with_retry, _fill_date_field.
  destruct (String.eqb (fi_type info) "date").
  - destruct (_parse_date_value value) as [[[d|] [m|]] [y|]];
      try apply emits_ret.
    destruct (search_index (fi_xpath info)); [|apply emits_ret].
    apply emits_retry_any, emits_date_attempt_any.
  - apply emits_retry_any, emits_field_attempt_any.
Qed.

End TypingEvents.

(** X6.  Filling a field never raises and never records an error: what
    goes wrong in an attempt is caught, the attempts are made again, and
    the outcome is a boolean.  All it leaves in the trace is keys sent and
    values set; [self.errors], [self.form_map] and the browser session are
    as before. *)
Theorem fill_field_is_contained (info : field_info) (value : pyval)
        (max_retries : nat) (w : world) :
  exists filled w' evs,
    _fill_field_with_retry page info value max_retries w = (Ret filled, w')
    /\ w_trace w' = (w_trace w ++ evs)%list
    /\ Forall typing_event evs
    /\ w_errors w' = w_errors w
    /\ w_form_map w' = w_form_map w
    /\ w_driver w' = w_driver w.
Proof.
  destruct (total_fill_field info value max_retries w) as [filled Hf].
  destruct (emits_fill_field_any typing_event (fun _ _ => I) (fun _ _ => I)
              info value max_retries w) as (evs & T & F).
  destruct (steady_fill_field info value max_retries w) as (E & M & D).
  destruct (_fill_field_with_retry page info value max_retries w) as [o w'].
  cbn [fst snd] in *. subst o. exists filled, w', evs.
  repeat split; assumption.
Qed.

(** *** How many calls a fill makes *)

Lemma costs_ret {A : Type} (a : A) : costs 0 (ret a).
Proof. intros w. simpl. lia. Qed.

Lemma costs_raise {A : Type} (e : exn) : costs 0 (@raise A e).
Proof. intros w. simpl. lia. Qed.

Lemma costs_more (j k : nat) {A : Type} (m : M A) :
  (j <= k)%nat -> costs j m -> costs k m.
Proof. intros H Hm w. specialize (Hm w). lia. Qed.

Lemma costs_bind (j k : nat) {A B : Type} (m : M A) (f : A -> M B) :
  costs j m -> (forall a, costs k (f a)) -> costs (j + k) (bind m f).
Proof.
  intros Hm Hf w. unfold bind. specialize (Hm w).
  destruct (m w) as [[a|e] w1]; cbn [snd] in *.
  - specialize (Hf a w1). lia.
  - lia.
Qed.

Lemma costs_try_except (j k : nat) {A : Type} (body : M A)
      (handler : exn -> M A) :
  costs j body -> (forall e, costs k (handler e)) ->
  costs (j + k) (try_except body handler).
Proof.
  intros Hm Hf w. unfold try_except. specialize (Hm w).
  destruct (body w) as [[a|e] w1]; cbn [snd] in *.
  - lia.
  - specialize (Hf e w1). lia.
Qed.

Lemma costs_log (ev : event) : costs 0 (log ev).
Proof. intros w. simpl. lia. Qed.

Lemma costs_call_unit : costs 1 (call_unit page).
Proof.
  intros w. unfold call_unit, bind, call. cbn.
  destruct (r_exn (page (w_clock w))); cbn; lia.
Qed.

Lemma costs_call_text : costs 1 (call_text page).
Proof.
  intros w. unfold call_text, bind, call. cbn.
  destruct (r_exn (page (w_clock w))); cbn; lia.
Qed.

Lemma costs_wait_until (xpath : string) : costs 1 (wait_until page xpath).
Proof.
  intros w. unfold wait_until, bind, call. cbn.
  destruct (r_exn (page (w_clock w))); cbn; [lia|].
  destruct (r_elems (page (w_clock w))); cbn; lia.
Qed.

Lemma costs_send_keys (target : element) (keys : string) :
  costs 1 (send_keys page target keys).
Proof.
  unfold send_keys. apply (costs_bind 0 1); [apply costs_log|].
  intros _. apply costs_call_unit.
Qed.

Lemma costs_field_attempt (xpath field_type : string) (value : pyval) :
  costs 7 (field_attempt page xpath field_type value).
Proof.
  unfold field_attempt.
  apply (costs_bind 1 6); [apply costs_wait_until|intros field].
  apply (costs_bind 1 5); [apply costs_call_unit|intros _].
  apply (costs_bind 1 4); [apply costs_call_unit|intros _].
  apply (costs_bind 1 3); [apply costs_call_unit|intros _].
  apply (costs_bind 1 2); [apply costs_send_keys|intros _].
  apply (costs_bind 1 1).
  - destruct (String.eqb field_type "email");
      [apply costs_send_keys|apply (costs_more 0 1); [lia|apply costs_ret]].
  - intros _. apply (costs_bind 1 0); [apply costs_call_text|].
    intros v. apply costs_ret.
Qed.

Lemma costs_retry (k n : nat) (attempt : M bool) :
  costs k attempt -> costs (n * k) (retry n attempt).
Proof.
  intros H. induction n as [|n IH]; simpl; [apply costs_ret|].
  apply (costs_bind k (n * k)).
  - apply (costs_more (k + 0) k); [lia|].
    apply costs_try_except; [exact H|intros e; apply costs_ret].
  - intros [|]; [|exact IH].
    apply (costs_more 0); [lia|apply costs_ret].
Qed.

(** X7.  The retries are bounded: a field that is not a date is given up
    after [max_retries] attempts of at most seven calls into the browser
    each (six when the field is not an e-mail address); with no attempt
    allowed the answer is [False] and the browser is not touched. *)
Theorem fill_field_is_bounded (info : field_info) (value : pyval)
        (max_retries : nat) (w : world) :
  String.eqb (fi_type info) "date" = false ->
  (w_clock (snd (_fill_field_with_retry page info value max_retries w))
   <= w_clock w + max_retries * 7)%nat
  /\ (max_retries = 0%nat ->
      _fill_field_with_retry page info value max_retries w = (Ret false, w)).
Proof.
  intros Hdate. unfold _fill_field_with_retry. rewrite Hdate. split.
  - apply costs_retry, costs_field_attempt.
  - intros ->. reflexivity.
Qed.

(** *** A fill that succeeds has sent the value *)

Lemma retry_true_inv (n : nat) (attempt : M bool) :
  forall w w',
    retry n attempt w = (Ret true, w') ->
    (forall w0, exists evs,
          w_trace (snd (attempt w0)) = (w_trace w0 ++ evs)%list) ->
    exists w0 evs0,
      attempt w0 = (Ret true, w')
      /\ w_trace w0 = (w_trace w ++ evs0)%list.
Proof.
  induction n as [|n IH]; intros w w' H Hext; simpl in H; [discriminate|].
  unfold bind, try_except in H.
  destruct (attempt w) as [[[|]|e] w1] eqn:Ha.
  - injection H as <-. exists w, []. rewrite app_nil_r. auto.
  - cbn in H. destruct (IH w1 w' H Hext) as (w0 & evs0 & H0 & T0).
    destruct (Hext w) as (evs1 & T1). rewrite Ha in T1. cbn [snd] in T1.
    exists w0, (evs1 ++ evs0)%list. split; [exact H0|].
    now rewrite T0, T1, app_assoc.
  - cbn in H. destruct (IH w1 w' H Hext) as (w0 & evs0 & H0 & T0).
    destruct (Hext w) as (evs1 & T1). rewrite Ha in T1. cbn [snd] in T1.
    exists w0, (evs1 ++ evs0)%list. split; [exact H0|].
    now rewrite T0, T1, app_assoc.
Qed.

Lemma call_unit_trace (w w' : world) (o : outcome unit) :
  call_unit page w = (o, w') -> w_trace w' = w_trace w.
Proof.
  intros H. destruct (emits_call_unit no_event w) as (evs & T & F).
  rewrite H in T. cbn [snd] in T.
  now rewrite (no_event_nil _ F), app_nil_r in T.
Qed.

Lemma call_text_trace (w w' : world) (o : outcome (option string)) :
  call_text page w = (o, w') -> w_trace w' = w_trace w.
Proof.
  intros H. destruct (emits_call_text no_event w) as (evs & T & F).
  rewrite H in T. cbn [snd] in T.
  now rewrite (no_event_nil _ F), app_nil_r in T.
Qed.

Lemma wait_until_trace (xpath : string) (w w' : world) (o : outcome element) :
  wait_until page xpath w = (o, w') -> w_trace w' = w_trace w.
Proof.
  intros H. destruct (emits_wait_until no_event xpath w) as (evs & T & F).
  rewrite H in T. cbn [snd] in T.
  now rewrite (no_event_nil _ F), app_nil_r in T.
Qed.

Lemma send_keys_ret_trace (target : element) (keys : string) (w w' : world) :
  send_keys page target keys w = (Ret tt, w') ->
  w_trace w' = (w_trace w ++ [EvSendKeys target keys])%list.
Proof.
  unfold send_keys. intros H.
  apply bind_ret_inv in H as ([] & w1 & H1 & H).
  unfold log in H1. injection H1 as <-.
  apply call_unit_trace in H. exact H.
Qed.

Lemma field_attempt_true (xpath field_type : string) (value : pyval)
      (w w' : world) :
  field_attempt page xpath field_type value w = (Ret true, w') ->
  exists field evs,
    w_trace w' = (w_trace w ++ EvSendKeys field (py_str value) :: evs)%list
    /\ truthy (r_text (page (pred (w_clock w')))) = true.
Proof.
  unfold field_attempt. intros H.
  apply bind_ret_inv in H as (field & w1 & H1 & H).
  apply bind_ret_inv in H as ([] & w2 & H2 & H).
  apply bind_ret_inv in H as ([] & w3 & H3 & H).
  apply bind_ret_inv in H as ([] & w4 & H4 & H).
  apply bind_ret_inv in H as ([] & w5 & H5 & H).
  apply bind_ret_inv in H as ([] & w6 & H6 & H).
  apply bind_ret_inv in H as (entered & w7 & H7 & H).
  unfold ret in H. injection H as Htrue <-.
  apply wait_until_trace in H1. apply call_unit_trace in H2.
  apply call_unit_trace in H3. apply call_unit_trace in H4.
  apply send_keys_ret_trace in H5.
  assert (T6 : exists evs, w_trace w6 = (w_trace w5 ++ evs)%list).
  { destruct (String.eqb field_type "email").
    - apply send_keys_ret_trace in H6. eexists. exact H6.
    - unfold ret in H6. injection H6 as <-. exists []. now rewrite app_nil_r. }
  destruct T6 as (evs & T6).
  exists field, evs. split.
  - rewrite (call_text_trace _ _ _ H7), T6, H5, H4, H3, H2, H1.
    now rewrite <- app_assoc.
  - unfold get_attribute, call_text, bind, call in H7. cbn in H7.
    destruct (r_exn (page (w_clock w6))); [discriminate H7|].
    cbn in H7. injection H7 as <- <-. cbn. exact Htrue.
Qed.

(** X8.  A field that is not a date is reported as filled only after the
    value, in its [str()] form, has been sent to it and a value that is
    not empty has been read back. *)
Theorem fill_field_true_has_typed (info : field_info) (value : pyval)
        (max_retries : nat) (w w' : world) :
  String.eqb (fi_type info) "date" = false ->
  _fill_field_with_retry page info value max_retries w = (Ret true, w') ->
  exists field before after,
    w_trace w'
    = (w_trace w ++ before ++ EvSendKeys field (py_str value) :: after)%list
    /\ truthy (r_text (page (pred (w_clock w')))) = true.
Proof.
  intros Hdate. unfold _fill_field_with_retry. rewrite Hdate. intros H.
  apply retry_true_inv in H as (w0 & evs0 & H0 & T0).
  - apply field_attempt_true in H0 as (field & evs & T & Hread).
    exists field, evs0, evs. split; [|exact Hread].
    now rewrite T, T0, <- app_assoc.
  - intros w0.
    destruct (emits_field_attempt_any (fun _ => True) (fun _ _ => I)
                (fi_xpath info) (fi_type info) value w0)
      as (evs & T & _).
    now exists evs.
Qed.

(** ** Further properties of the mapping step *)

(** *** The index kept in the locator of a question *)

Lemma uint_digits (d : Decimal.uint) :
  string_forallb isdigit (NilEmpty.string_of_uint d) = true.
Proof. induction d; simpl; auto. Qed.

Lemma str_of_Z_digits (i : Z) :
  0 <= i ->
  exists c r, str_of_Z i = String c r
              /\ string_forallb isdigit (String c r) = true.
Proof.
  intros Hi. unfold str_of_Z. destruct i as [|p|p]; [| |lia].
  - exists "0"%char, "". split; reflexivity.
  - cbn [Z.to_int NilZero.string_of_int NilZero.string_of_uint].
    pose proof (uint_digits (Pos.to_uint p)) as Hd.
    destruct (Pos.to_uint p) eqn:E;
      try (cbn [NilEmpty.string_of_uint] in *; eexists; eexists;
           split; [reflexivity|exact Hd]).
Qed.

Lemma span_digits_app (ds : string) (c : ascii) (r : string) :
  string_forallb isdigit ds = true -> isdigit c = false ->
  span_digits (ds ++ String c r) = (ds, String c r).
Proof.
  intros Hd Hc. induction ds as [|d ds IH]; simpl.
  - now rewrite Hc.
  - simpl in Hd. apply andb_prop in Hd as [H1 H2].
    now rewrite H1, (IH H2).
Qed.

Lemma search_index_open (ds rest : string) :
  ds <> "" -> string_forallb isdigit ds = true ->
  search_index (String "[" (ds ++ String "]" rest)) = Some ds.
Proof.
  intros Hne Hd. cbn [search_index]. rewrite Ascii.eqb_refl.
  rewrite span_digits_app by (exact Hd || reflexivity).
  destruct ds; [now destruct Hne|reflexivity].
Qed.

(** The regular expression of line 252 finds, in the locator built at
    line 179, the number of the question. *)
Lemma search_index_question (i : Z) :
  0 <= i -> search_index (question_xpath i) = Some (str_of_Z i).
Proof.
  intros Hi. destruct (str_of_Z_digits i Hi) as (c & r & E & Hd).
  unfold question_xpath. rewrite E.
  set (ds := String c r) in *.
  match goal with
  | |- search_index (_ ++ ds ++ ?lit ++ ?tail)%string = _ =>
      change (search_index
                ("(//div[@role='listitem'])"
                 ++ String "[" (ds ++ String "]"
                      ("//input | (//div[@role='listitem'])[" ++ tail)))
              = Some ds)
  end.
  cbn [append search_index span_digits isdigit code N_of_ascii Ascii.eqb
       Bool.eqb N.leb N.compare Pos.compare Pos.compare_cont andb N_of_digits
       N.add N.mul Pos.add Pos.mul Pos.succ].
  apply search_index_open; [discriminate|exact Hd].
Qed.

(** X9.  The locator stored for a question leads the date filler back to
    that question: for a value that parses, [_fill_date_field] on the
    locator of question number [idx] never takes the "could not extract
    question index" exit and makes its attempts on the container of
    question [idx]. *)
Theorem date_field_finds_its_question (idx : Z) (value : pyval)
        (max_retries : nat) (d m y : Z) :
  0 <= idx ->
  _parse_date_value value = (Some d, Some m, Some y) ->
  _fill_date_field page (question_xpath idx) value max_retries
  = retry max_retries
          (date_attempt page (base_xpath (str_of_Z idx)) d m y).
Proof.
  intros Hidx Hparse. unfold _fill_date_field.
  rewrite Hparse, (search_index_question idx Hidx). reflexivity.
Qed.

(** *** The descriptors of a form map *)

Lemma map_question_step_index (idx : Z) (q : element)
      (mapping : dict field_info) (w : world) :
  exists w1,
    map_question page idx q mapping w = (Ret mapping, w1)
    \/ (exists field_type label,
           map_question page idx q mapping w
           = (Ret (dict_set (normalize (VStr label))
                            (mk_field_info (question_xpath (idx + 1))
                                           field_type label (idx + 1))
                            mapping), w1)).
Proof.
  unfold map_question. unfold_calls.
  case_replies;
    try (eexists; left; reflexivity);
    try (destruct (truthy (r_text _)); case_replies);
    try (eexists; left; reflexivity);
    eexists; right; eexists; eexists; reflexivity.
Qed.

Lemma dict_set_in {V : Type} (k : string) (v : V) (d : dict V) (kv : string * V) :
  In kv (dict_set k v d) -> snd kv = v \/ In kv d.
Proof.
  induction d as [|[k0 v0] d IH]; simpl.
  - intros [<-|[]]. now left.
  - destruct (String.eqb k0 k); simpl.
    + intros [<-|H]; [now left|right; now right].
    + intros [<-|H]; [right; now left|].
      destruct (IH H) as [E|E]; [now left|right; now right].
Qed.

Lemma dict_set_indices (k : string) (info : field_info)
      (d : dict field_info) :
  NoDup (indices d) -> ~ In (fi_index info) (indices d) ->
  NoDup (indices (dict_set k info d))
  /\ forall i, In i (indices (dict_set k info d)) ->
               i = fi_index info \/ In i (indices d).
Proof.
  unfold indices. induction d as [|[k0 v0] d IH]; simpl; intros Hnd Hnin.
  - split; [constructor; [intros []|constructor]|].
    intros i [<-|[]]. now left.
  - inversion Hnd as [|? ? Hh Ht]; subst.
    destruct (String.eqb k0 k); simpl.
    + split.
      * constructor; [|exact Ht]. intros Hin. apply Hnin. now right.
      * intros i [<-|H]; [now left|right; now right].
    + destruct IH as [IH1 IH2]; [exact Ht|intros Hin; apply Hnin; now right|].
      split.
      * constructor; [|exact IH1]. intros Hin.
        destruct (IH2 _ Hin) as [E|E]; [|exact (Hh E)].
        apply Hnin. left. exact E.
      * intros i [<-|H]; [right; now left|].
        destruct (IH2 _ H) as [E|E]; [now left|right; now right].
Qed.

Lemma map_questions_indices (questions : list element) :
  forall idx mapping w fm w',
    map_questions page idx questions mapping w = (Ret fm, w') ->
    NoDup (indices mapping) ->
    (forall kv, In kv mapping ->
                1 <= fi_index (snd kv) <= idx
                /\ fi_xpath (snd kv) = question_xpath (fi_index (snd kv))) ->
    0 <= idx ->
    NoDup (indices fm)
    /\ forall kv, In kv fm ->
                  1 <= fi_index (snd kv)
                       <= idx + Z.of_nat (length questions)
                  /\ fi_xpath (snd kv) = question_xpath (fi_index (snd kv)).
Proof.
  induction questions as [|q rest IH];
    intros idx mapping w fm w' H Hnd Hall Hidx.
  - cbn in H. injection H as <- <-. split; [exact Hnd|].
    intros kv Hin. destruct (Hall kv Hin). cbn [length]. split; [lia|auto].
  - cbn [map_questions] in H.
    destruct (map_question_step_index idx q mapping w)
      as [w1 [Hstep|(ty & label & Hstep)]];
      rewrite (bind_step _ _ _ _ _ Hstep) in H.
    + destruct (IH (idx + 1) mapping w1 fm w' H Hnd) as [N A]; [|lia|].
      * intros kv Hin. destruct (Hall kv Hin). split; [lia|auto].
      * split; [exact N|]. intros kv Hin. destruct (A kv Hin).
        cbn [length]. split; [lia|auto].
    + set (info := mk_field_info (question_xpath (idx + 1)) ty label (idx + 1))
        in *.
      assert (Hnew : ~ In (fi_index info) (indices mapping)).
      { unfold indices. rewrite in_map_iff. intros ([k v] & E & Hin).
        destruct (Hall _ Hin) as [Hb _]. cbn in E, Hb. subst info.
        cbn in E. lia. }
      destruct (dict_set_indices (normalize (VStr label)) info mapping Hnd Hnew)
        as [Hnd' _].
      destruct (IH (idx + 1) _ w1 fm w' H Hnd') as [N A]; [|lia|].
      * intros kv Hin. apply dict_set_in in Hin as [E|Hin].
        -- rewrite E. subst info. cbn. split; [lia|reflexivity].
        -- destruct (Hall kv Hin). split; [lia|auto].
      * split; [exact N|]. intros kv Hin. destruct (A kv Hin).
        cbn [length]. split; [lia|auto].
Qed.

(** X10.  In the form map the mapping step returns, no two keys point to
    the same question, every index counts from 1, and the locator stored
    with an index is the one built from that index. *)
Theorem form_map_indices (w w' : world) (fm : dict field_info) :
  _extract_form_mapping page w = (Ret fm, w') ->
  NoDup (indices fm)
  /\ forall key info,
       dict_get key fm = Some info ->
       1 <= fi_index info
       /\ fi_xpath info = question_xpath (fi_index info)
       /\ search_index (fi_xpath info) = Some (str_of_Z (fi_index info)).
Proof.
  intros H. apply extract_inv in H as (w0 & questions & _ & H).
  destruct (map_questions_indices questions 0 [] w0 fm w' H)
    as [N A]; [constructor|intros kv []|lia|].
  split; [exact N|]. intros key info Hget.
  assert (Hin : In (key, info) fm \/ False).
  { left. clear - Hget. induction fm as [|[k0 v0] d IH]; [discriminate|].
    cbn in Hget. destruct (String.eqb k0 key) eqn:E.
    - injection Hget as ->. apply String.eqb_eq in E. subst k0. now left.
    - right. now apply IH. }
  destruct Hin as [Hin|[]]. destruct (A _ Hin) as [Hb Hx]. cbn in Hb, Hx.
  split; [lia|]. split; [exact Hx|].
  rewrite Hx. apply search_index_question. lia.
Qed.

(** *** The fatal errors of the mapping step *)

(** X11.  When the page body does not show up in time, the mapping step
    raises a plain [Exception("Page failed to load")] in place of the
    [TimeoutException], after this one call and nothing else. *)
Theorem page_failed_to_load (w : world) :
  times_out (page (w_clock w)) ->
  exists w',
    _extract_form_mapping page w
    = (Raise (py_exception "Page failed to load"), w')
    /\ w_clock w' = S (w_clock w)
    /\ w_trace w' = w_trace w.
Proof.
  unfold times_out, _extract_form_mapping. unfold_calls. intros H.
  cbn -[is_timeout].
  destruct (r_exn (page (w_clock w))) as [e|].
  - cbn -[is_timeout]. rewrite H. eexists. cbn. repeat split.
  - rewrite H. eexists. cbn. repeat split.
Qed.

(** X12.  A page whose source holds both "sorry" and "access", in any
    case, is taken for a restricted form: the mapping step raises "Form
    access denied" once it has read the source, before it looks for any
    question. *)
Theorem form_access_denied (w : world) (source : option string) :
  let c := w_clock w in
  r_exn (page c) = None -> r_elems (page c) <> [] ->
  r_exn (page (1 + c)%nat) = None ->
  r_exn (page (2 + c)%nat) = None ->
  r_exn (page (3 + c)%nat) = None ->
  r_exn (page (4 + c)%nat) = None ->
  r_text (page (4 + c)%nat) = source ->
  py_in "sorry" (lower (or_empty source)) = true ->
  py_in "access" (lower (or_empty source)) = true ->
  exists w',
    _extract_form_mapping page w
    = (Raise (py_exception "Form access denied - the form may be restricted"),
       w')
    /\ w_clock w' = (5 + c)%nat
    /\ w_trace w' = w_trace w.
Proof.
  cbv zeta. intros H0 E0 H1 H2 H3 H4 Hs Hsorry Haccess.
  unfold _extract_form_mapping. unfold_calls. cbn -[is_timeout py_in lower].
  rewrite H0. destruct (r_elems (page (w_clock w))) as [|x l];
    [now destruct E0|].
  cbn -[is_timeout py_in lower] in *. rewrite H1.
  cbn -[is_timeout py_in lower]. rewrite H2.
  cbn -[is_timeout py_in lower]. rewrite H3.
  cbn -[is_timeout py_in lower]. rewrite H4.
  cbn -[is_timeout py_in lower]. rewrite Hs, Hsorry, Haccess.
  eexists. cbn. repeat split.
Qed.

Lemma inspect_page_ret (w : world) :
  exists w', inspect_page page w = (Ret tt, w') /\ w_trace w' = w_trace w.
Proof.
  destruct (emits_inspect_page no_event w) as (evs & T & F).
  rewrite (no_event_nil _ F), app_nil_r in T.
  unfold inspect_page, try_except in *.
  match goal with
  | |- context [let (_, _) := ?m in _] => destruct m as [[[]|e] w1]
  end; eexists; (split; [reflexivity|exact T]).
Qed.

Lemma find_questions_timeout (selector : string) (rest : list string)
      (w : world) :
  times_out (page (w_clock w)) ->
  find_questions page (selector :: rest) w
  = find_questions page rest
      (mk_world (S (w_clock w)) (w_trace w) (w_errors w) (w_form_map w)
                (w_driver w)).
Proof.
  unfold times_out. intros H. cbn [find_questions]. unfold_calls.
  cbn -[is_timeout find_questions].
  destruct (r_exn (page (w_clock w))) as [e|].
  - cbn -[is_timeout find_questions]. now rewrite H.
  - now rewrite H.
Qed.

(** X16.  When none of the four selectors shows a question in time, the
    mapping step raises "No form questions found", whatever the look at
    the page that comes before does or raises; nothing is mapped. *)
Theorem no_questions_found (w : world) (source : option string) :
  let c := w_clock w in
  r_exn (page c) = None -> r_elems (page c) <> [] ->
  r_exn (page (1 + c)%nat) = None ->
  r_exn (page (2 + c)%nat) = None ->
  r_exn (page (3 + c)%nat) = None ->
  r_exn (page (4 + c)%nat) = None ->
  r_text (page (4 + c)%nat) = source ->
  py_in "sorry" (lower (or_empty source))
  && py_in "access" (lower (or_empty source)) = false ->
  times_out (page (5 + c)%nat) -> times_out (page (6 + c)%nat) ->
  times_out (page (7 + c)%nat) -> times_out (page (8 + c)%nat) ->
  exists w',
    _extract_form_mapping page w
    = (Raise (py_exception
                "No form questions found. The form may not have loaded correctly."),
       w')
    /\ w_trace w' = w_trace w.
Proof.
  cbv zeta. intros H0 E0 H1 H2 H3 H4 Hs Hok T5 T6 T7 T8.
  unfold _extract_form_mapping.
  unfold try_except_timeout, try_except, bind, wait_until, call_unit,
    call_text, call, raise, ret.
  cbn -[is_timeout py_in lower find_questions inspect_page selectors].
  rewrite H0. destruct (r_elems (page (w_clock w))) as [|x l];
    [now destruct E0|].
  cbn -[is_timeout py_in lower find_questions inspect_page selectors] in *.
  rewrite H1.
  cbn -[is_timeout py_in lower find_questions inspect_page selectors].
  rewrite H2.
  cbn -[is_timeout py_in lower find_questions inspect_page selectors].
  rewrite H3.
  cbn -[is_timeout py_in lower find_questions inspect_page selectors].
  rewrite H4.
  cbn -[is_timeout py_in lower find_questions inspect_page selectors].
  rewrite Hs, Hok. unfold selectors.
  rewrite find_questions_timeout by exact T5.
  rewrite find_questions_timeout by exact T6.
  rewrite find_questions_timeout by exact T7.
  rewrite find_questions_timeout by exact T8.
  cbn [find_questions ret].
  match goal with
  | |- context [inspect_page page ?w5] =>
      destruct (inspect_page_ret w5) as (w6 & -> & T)
  end.
  exists w6. split; [reflexivity|exact T].
Qed.

(** ** What the date filler sends *)

Ltac date_events :=
  repeat first [ apply emits_send_keys; cbn [date_event]; auto 8
               | apply emits_log; reflexivity
               | apply emits_call_unit | apply emits_call_text
               | apply emits_find_elements | follow ].

Lemma emits_fill_date_part_date (day month year : Z) (inp : element) :
  emits (date_event day month year) (fill_date_part page day month year inp).
Proof. unfold fill_date_part. date_events. Qed.

Lemma emits_fill_date_parts_date (day month year : Z)
      (inputs : list element) :
  emits (date_event day month year)
        (fill_date_parts page day month year inputs).
Proof.
  induction inputs as [|inp rest IH]; simpl; [apply emits_ret|].
  apply emits_bind; [apply emits_fill_date_part_date|intros _; exact IH].
Qed.

Lemma emits_date_attempt_date (base : string) (day month year : Z) :
  emits (date_event day month year)
        (date_attempt page base day month year).
Proof.
  unfold date_attempt.
  repeat first [ apply emits_fill_date_parts_date
               | apply emits_send_keys; cbn [date_event]; auto 8
               | apply emits_log; reflexivity
               | apply emits_call_unit | apply emits_call_text
               | apply emits_find_elements | follow ].
Qed.

(** X23.  The date filler sends nothing but the date: for a value read as
    day, month and year, every text it types is the day or the month on
    two digits, the year, the whole date DD-MM-YYYY or the TAB after it,
    and every value it sets is the date YYYY-MM-DD; for a value in which
    no date is read it does not touch the browser. *)
Theorem date_field_sends_the_date (xpath : string) (value : pyval)
        (max_retries : nat) (w : world) :
  exists evs,
    w_trace (snd (_fill_date_field page xpath value max_retries w))
    = (w_trace w ++ evs)%list
    /\ match _parse_date_value value with
       | (Some d, Some m, Some y) => Forall (date_event d m y) evs
       | _ => evs = [] /\ _fill_date_field page xpath value max_retries w
                          = (Ret false, w)
       end.
Proof.
  unfold _fill_date_field.
  destruct (_parse_date_value value) as [[[d|] [m|]] [y|]];
    try solve [exists []; cbn; rewrite app_nil_r; auto].
  destruct (search_index xpath) as [q_index|].
  - apply (emits_retry (date_event d m y)), emits_date_attempt_date.
  - exists []. cbn. rewrite app_nil_r. auto.
Qed.

(** *** Inputs without a label *)

Lemma fill_date_parts_unlabelled (day month year : Z)
      (inputs : list element) :
  forall w,
    (forall n, (w_clock w <= n)%nat ->
               r_exn (page n) = None /\ r_text (page n) = None) ->
    fill_date_parts page day month year inputs w
    = (Ret tt,
       mk_world (w_clock w + 5 * length inputs) (w_trace w) (w_errors w)
                (w_form_map w) (w_driver w)).
Proof.
  induction inputs as [|inp rest IH]; intros w H.
  - cbn [fill_date_parts ret length]. rewrite Nat.mul_0_r, Nat.add_0_r.
    now destruct w.
  - cbn [fill_date_parts]. unfold fill_date_part.
    destruct (H (w_clock w)) as [E0 T0]; [lia|].
    destruct (H (S (w_clock w))) as [E1 T1]; [lia|].
    destruct (H (S (S (w_clock w)))) as [E2 _]; [lia|].
    destruct (H (S (S (S (w_clock w))))) as [E3 _]; [lia|].
    destruct (H (S (S (S (S (w_clock w)))))) as [E4 _]; [lia|].
    unfold bind, get_attribute, scroll_into_view, click, clear, call_text,
      call_unit, call, ret.
    cbn -[py_in lower fill_date_parts Nat.mul Nat.add].
    rewrite E0. cbn -[py_in lower fill_date_parts Nat.mul Nat.add].
    rewrite E1. cbn -[py_in lower fill_date_parts Nat.mul Nat.add].
    rewrite E2. cbn -[py_in lower fill_date_parts Nat.mul Nat.add].
    rewrite E3. cbn -[py_in lower fill_date_parts Nat.mul Nat.add].
    rewrite E4. cbn -[py_in lower fill_date_parts Nat.mul Nat.add].
    rewrite T0, T1. cbn -[fill_date_parts Nat.mul Nat.add].
    rewrite IH.
    + cbn [w_clock w_trace w_errors w_form_map w_driver length].
      do 2 f_equal. lia.
    + cbn [w_clock]. intros n Hn. apply H. lia.
Qed.

(** X24.  A date question with three or more text inputs is reported as
    filled whatever was typed: when the inputs carry neither an
    [aria-label] nor a [placeholder], the attempt answers [True] although
    nothing has been sent to the browser. *)
Theorem date_attempt_unlabelled (base : string) (day month year : Z)
        (w : world) :
  r_exn (page (w_clock w)) = None ->
  (3 <= length (r_elems (page (w_clock w))))%nat ->
  (forall n, (w_clock w < n)%nat ->
             r_exn (page n) = None /\ r_text (page n) = None) ->
  exists w',
    date_attempt page base day month year w = (Ret true, w')
    /\ w_trace w' = w_trace w
    /\ w_clock w'
       = (w_clock w + 1 + 5 * length (r_elems (page (w_clock w))))%nat.
Proof.
  intros E0 Hlen H. unfold date_attempt.
  unfold bind at 1. unfold find_elements, bind, call.
  cbn [fst snd w_clock]. rewrite E0. cbn [ret].
  apply Nat.leb_le in Hlen. rewrite Hlen.
  rewrite fill_date_parts_unlabelled.
  - eexists. split; [reflexivity|]. cbn. split; [reflexivity|lia].
  - cbn [w_clock]. intros n Hn. apply H. lia.
Qed.

(** ** Further properties of a row *)

Lemma fill_columns_mapped (col : string) (value : pyval) (rest : row)
      (cnt : Z) (failed : list string) (info : field_info) (w : world) :
  dict_get (normalize (VStr col)) (w_form_map w) = Some info ->
  fill_columns page ((col, value) :: rest) cnt failed w
  = match _fill_field_with_retry page info value 3 w with
    | (Ret ok, w1) =>
        let w2 := snd (log (EvFilled col ok) w1) in
        if ok then fill_columns page rest (cnt + 1) failed w2
        else fill_columns page rest cnt (failed ++ [col])%list w2
    | (Raise e, w1) => (Raise e, w1)
    end.
Proof.
  intros E. cbn [fill_columns]. unfold bind at 1. cbn [get_form_map].
  rewrite E. unfold bind at 1.
  destruct (_fill_field_with_retry page info value 3 w) as [[ok|e] w1];
    [|reflexivity].
  unfold bind at 1. cbn [log snd]. now destruct ok.
Qed.

(** X13.  The columns of the sheet that are no question of the form are
    skipped: filling a row is filling its mapped cells, in the same order,
    with the same calls into the browser, the same events and the same
    fields reported as failed. *)
Theorem unmapped_columns_are_skipped (items : row) :
  forall cnt failed w,
    fill_columns page items cnt failed w
    = fill_columns page (filter (mapped (w_form_map w)) items) cnt failed w.
Proof.
  induction items as [|[col value] rest IH]; intros cnt failed w;
    [reflexivity|].
  cbn [filter]. unfold mapped at 1. cbn [fst].
  destruct (dict_get (normalize (VStr col)) (w_form_map w)) as [info|] eqn:E.
  - rewrite !(fill_columns_mapped _ _ _ _ _ _ _ E).
    destruct (steady_fill_field info value 3 w) as (_ & Hmap & _).
    destruct (_fill_field_with_retry page info value 3 w) as [[ok|e] w1];
      [|reflexivity].
    cbn [snd] in Hmap. cbn [log snd].
    destruct ok; rewrite IH; cbn [w_form_map]; now rewrite Hmap.
  - cbn [fill_columns]. unfold bind at 1. cbn [get_form_map]. rewrite E.
    apply IH.
Qed.

(** X14.  Once the form is filled and the submit button found and clicked,
    the answer of [_submit_row] is that of the wait for the confirmation:
    [True] without a message when the confirmation shows up; [False] with
    "Submission confirmation not received" when the wait times out; and
    [False] with the text of the exception when the wait fails otherwise,
    the [except TimeoutException] clauses letting it through to the
    handler of the row. *)
Theorem row_confirmation (r : row) (row_index : Z) (w w1 : world) :
  fill_form page form_url r row_index w = (Ret tt, w1) ->
  let c := w_clock w1 in
  r_exn (page c) = None -> r_elems (page c) <> [] ->
  r_exn (page (1 + c)%nat) = None ->
  r_exn (page (2 + c)%nat) = None ->
  exists b w',
    _submit_row page form_url r row_index w = (Ret b, w')
    /\ w_trace w' = w_trace w1
    /\ w_clock w' = (4 + c)%nat
    /\ (r_exn (page (3 + c)%nat) = None ->
        r_elems (page (3 + c)%nat) <> [] ->
        b = true /\ w_errors w' = w_errors w1)
    /\ (times_out (page (3 + c)%nat) ->
        b = false
        /\ w_errors w'
           = (w_errors w1
              ++ [(row_prefix row_index
                   ++ "Submission confirmation not received")%string])%list)
    /\ (forall e,
           r_exn (page (3 + c)%nat) = Some e -> is_timeout e = false ->
           b = false
           /\ w_errors w'
              = (w_errors w1 ++ [(row_prefix row_index ++ exn_str e)%string])%list).
Proof.
  cbv zeta. intros Hfill H0 E0 H1 H2.
  unfold _submit_row, try_except. rewrite (bind_step _ _ _ _ _ Hfill).
  unfold press_submit, _wait_for_submission_confirmation, times_out.
  unfold_calls. cbn -[is_timeout row_prefix].
  rewrite H0. destruct (r_elems (page (w_clock w1))) as [|x l];
    [now destruct E0|].
  cbn -[is_timeout row_prefix] in *. rewrite H1.
  cbn -[is_timeout row_prefix]. rewrite H2.
  cbn -[is_timeout row_prefix].
  destruct (r_exn (page (S (S (S (w_clock w1)))))) as [e|] eqn:H3.
  - cbn -[is_timeout row_prefix].
    destruct (is_timeout e) eqn:Ht; cbn -[is_timeout row_prefix];
      rewrite ?Ht; cbn -[is_timeout row_prefix];
      eexists; eexists; (split; [reflexivity|]);
      cbn -[is_timeout row_prefix];
      (split; [reflexivity|]); (split; [reflexivity|]).
    + split; [discriminate|]. split; [auto|].
      intros e' He'. injection He' as <-. congruence.
    + split; [discriminate|]. split; [congruence|].
      intros e' He'. injection He' as <-. auto.
  - destruct (r_elems (page (S (S (S (w_clock w1)))))) as [|y l'] eqn:E3;
      cbn -[is_timeout row_prefix];
      eexists; eexists; (split; [reflexivity|]);
      cbn -[is_timeout row_prefix];
      (split; [reflexivity|]); (split; [reflexivity|]).
    + split; [intros _ H; now destruct H|]. split; [auto|]. discriminate.
    + split; [auto|]. split; [discriminate|]. discriminate.
Qed.

(** X15.  When the load of the form fails, the row is given up at once:
    [_submit_row] answers [False], no field has been touched, and the
    message is the number of the row and the text of the exception. *)
Theorem row_not_loaded (r : row) (row_index : Z) (w : world) (e : exn) :
  r_exn (page (w_clock w)) = Some e ->
  exists w',
    _submit_row page form_url r row_index w = (Ret false, w')
    /\ w_trace w' = (w_trace w ++ [EvGet form_url])%list
    /\ w_clock w' = S (w_clock w)
    /\ w_errors w'
       = (w_errors w ++ [(row_prefix row_index ++ exn_str e)%string])%list.
Proof.
  intros H. unfold _submit_row, fill_form, driver_get. unfold_calls.
  cbn -[row_prefix]. rewrite H. eexists. cbn -[row_prefix]. repeat split.
Qed.

(** ** Further properties of the run *)

Section RunEvents.

Variable P : event -> Prop.
Hypothesis P_keys : forall target keys, P (EvSendKeys target keys).
Hypothesis P_value : forall target value, P (EvSetValue target value).
Hypothesis P_filled : forall col ok, P (EvFilled col ok).
Hypothesis P_get : P (EvGet form_url).
Hypothesis P_mapped : forall info, P (EvMapped info).
Hypothesis P_progress :
  forall current total success fail message,
    P (EvProgress current total success fail message).

Lemma emits_fill_columns_any (items : row) :
  forall cnt failed, emits P (fill_columns page items cnt failed).
Proof.
  induction items as [|[col value] rest IH]; intros cnt failed;
    [apply emits_ret|].
  cbn [fill_columns]. apply emits_bind; [apply emits_get_form_map|].
  intros fm. destruct (dict_get (normalize (VStr col)) fm) as [info|];
    [|apply IH].
  apply emits_bind; [now apply emits_fill_field_any|]. intros ok.
  apply emits_bind; [apply emits_log, P_filled|]. intros _.
  destruct ok; apply IH.
Qed.

Lemma emits_fill_form_any (r : row) (row_index : Z) :
  emits P (fill_form page form_url r row_index).
Proof.
  unfold fill_form.
  apply emits_bind; [now apply emits_driver_get|]. intros _.
  apply emits_bind; [apply emits_wait_until|]. intros _.
  apply emits_bind; [apply emits_fill_columns_any|]. intros [cnt failed].
  destruct failed; [apply emits_ret|apply emits_append_error].
Qed.

Lemma emits_press_submit_any (row_index : Z) :
  emits P (press_submit page row_index).
Proof.
  apply emits_state. intros w.
  now destruct (press_submit_spec row_index w) as (T & _).
Qed.

Lemma emits_submit_row_any (r : row) (row_index : Z) :
  emits P (_submit_row page form_url r row_index).
Proof.
  unfold _submit_row. apply emits_try_except.
  - apply emits_bind; [apply emits_fill_form_any|]. intros _.
    apply emits_press_submit_any.
  - intros e. apply emits_bind; [apply emits_append_error|]. intros _.
    apply emits_ret.
Qed.

Lemma emits_submit_rows_any (cb : option callback) (total : Z)
      (rows : list row) :
  forall index success fail,
    emits P (submit_rows page form_url cb total rows index success fail).
Proof.
  induction rows as [|r rest IH]; intros index success fail;
    [apply emits_ret|].
  cbn [submit_rows]. apply emits_bind; [apply emits_submit_row_any|].
  intros ok. apply emits_bind; [|intros _; apply IH].
  apply emits_call_progress, P_progress.
Qed.

(** The body of the [try] of [run]. *)
Lemma emits_run_body (cb : option callback) (df : list row) :
  emits P (bind (open_form page form_url)
                (fun _ => map_and_submit page form_url cb df)).
Proof.
  apply emits_bind; [now apply emits_open_form|]. intros _.
  unfold map_and_submit.
  apply emits_bind; [now apply emits_extract_form_mapping|]. intros fm.
  apply emits_bind; [apply emits_set_form_map|]. intros _.
  destruct fm as [|entry fm]; [apply emits_raise|].
  apply emits_bind; [apply emits_submit_rows_any|]. intros [success fail].
  apply emits_bind; [apply emits_get_errors|]. intros errs.
  apply emits_ret.
Qed.

End RunEvents.

(** *** The driver *)

Lemma submit_rows_driver (cb : option callback) (total : Z) (rows : list row) :
  forall index success fail w,
    w_driver (snd (submit_rows page form_url cb total rows index success
                               fail w))
    = w_driver w.
Proof.
  induction rows as [|r rest IH]; intros index success fail w;
    [reflexivity|].
  cbn [submit_rows].
  destruct (submit_row_spec r index w)
    as (b & w1 & evs & msgs & Hrow & _ & _ & _ & _ & D & _).
  rewrite (bind_step _ _ _ _ _ Hrow).
  unfold call_progress. destruct cb as [f|].
  - unfold bind at 1. unfold bind at 1. cbn [log].
    match goal with
    | |- context [f ?a ?b ?c ?d ?e] => destruct (f a b c d e)
    end.
    + cbn. exact D.
    + cbn [ret]. rewrite IH. cbn. exact D.
  - rewrite bind_ret_l, IH. exact D.
Qed.

Lemma run_body_driver (cb : option callback) (df : list row) (w : world) :
  w_driver (snd (bind (open_form page form_url)
                      (fun _ => map_and_submit page form_url cb df) w))
  = w_driver w.
Proof.
  destruct (steady_open_form w) as (_ & _ & D1).
  unfold bind at 1.
  destruct (open_form page form_url w) as [[[]|e] w1]; cbn [snd] in D1;
    [|exact D1].
  unfold map_and_submit.
  destruct (steady_extract_form_mapping w1) as (_ & _ & D2).
  unfold bind at 1.
  destruct (_extract_form_mapping page w1) as [[fm|e] w2]; cbn [snd] in D2;
    [|cbn; congruence].
  unfold bind at 1. cbn [set_form_map].
  destruct fm as [|entry fm]; [cbn; congruence|].
  unfold bind at 1.
  match goal with
  | |- context [submit_rows page form_url cb ?t df 0 0 0 ?w3] =>
      pose proof (submit_rows_driver cb t df 0 0 0 w3) as D3;
      destruct (submit_rows page form_url cb t df 0 0 0 w3)
        as [[[success fail]|e] w4]
  end; cbn in D3 |- *; congruence.
Qed.

(** X17.  Once the browser is started, [run] closes it exactly once, and
    last of all, whether it returns a result or raises: the events of the
    run are events that are no [quit], then one [quit]. *)
Theorem run_quits_browser (df : list row) (cb : option callback) (w : world) :
  r_exn (page (w_clock w)) = None ->
  exists evs,
    w_trace (snd (run page form_url (inr df) cb w))
    = (w_trace w ++ evs ++ [EvQuit])%list
    /\ Forall not_quit evs.
Proof.
  intros Hstart. unfold run. rewrite bind_ret_l.
  unfold _create_driver, call_unit, call.
  unfold bind at 1. unfold bind at 1. unfold bind at 1.
  cbn [fst snd w_clock]. rewrite Hstart.
  cbn [ret set_driver w_clock w_trace w_errors w_form_map w_driver].
  unfold bind at 1.
  cbn [reset_errors snd w_clock w_trace w_errors w_form_map w_driver].
  set (w0 := {| w_clock := S (w_clock w); w_trace := w_trace w;
                w_errors := []; w_form_map := w_form_map w;
                w_driver := true |}).
  unfold try_finally.
  pose proof (run_body_driver cb df w0) as D.
  destruct (emits_run_body not_quit
              (fun _ _ => I) (fun _ _ => I) (fun _ _ => I) I (fun _ => I)
              (fun _ _ _ _ _ => I) cb df w0) as (evs & T & F).
  destruct (bind (open_form page form_url)
                 (fun _ => map_and_submit page form_url cb df) w0)
    as [o w1].
  cbn [snd] in D, T. cbn [w_driver w_trace] in D, T.
  exists evs. split; [|exact F].
  assert (Hrel : w_trace (snd (release page w1))
                 = (w_trace w1 ++ [EvQuit])%list).
  { unfold release, has_driver, driver_quit, call_unit, call, log, bind.
    cbn [fst snd]. rewrite D. cbn.
    now destruct (r_exn (page (w_clock w1))). }
  destruct (release page w1) as [[[]|e] w2]; cbn [snd] in Hrel;
    destruct o; cbn [snd]; rewrite Hrel, T; now rewrite <- app_assoc.
Qed.

(** X18.  The browser is never sent anywhere but to the form: every page
    load of a run, whatever its input and its outcome, is a load of
    [form_url]. *)
Theorem run_loads_only_form (excel : exn + list row) (cb : option callback)
        (w : world) :
  exists evs,
    w_trace (snd (run page form_url excel cb w)) = (w_trace w ++ evs)%list
    /\ forall url, In (EvGet url) evs -> url = form_url.
Proof.
  assert (H : emits (loads_only form_url) (run page form_url excel cb)).
  { unfold run, _create_driver.
    apply emits_bind; [destruct excel; [apply emits_raise|apply emits_ret]|].
    intros df.
    repeat match goal with
           | |- emits _ (try_finally _ _) => apply emits_try_finally
           | |- emits _ (bind (open_form _ _) _) =>
               apply emits_run_body; intros; exact I || reflexivity
           | |- emits _ (release _) => apply emits_release; exact I
           | |- _ => follow
           end. }
  destruct (H w) as (evs & T & F). exists evs. split; [exact T|].
  intros url Hin. rewrite Forall_forall in F. exact (F _ Hin).
Qed.

(** *** The counts of the result *)

Lemma submit_rows_failures (cb : option callback) (total : Z)
      (rows : list row) :
  forall index success fail w success' fail' w',
    submit_rows page form_url cb total rows index success fail w
    = (Ret (success', fail'), w') ->
    exists msgs,
      w_errors w' = (w_errors w ++ msgs)%list
      /\ fail' - fail <= Z.of_nat (length msgs).
Proof.
  induction rows as [|r rest IH];
    intros index success fail w success' fail' w' H.
  - cbn in H. injection H as <- <- <-. exists []. rewrite app_nil_r.
    cbn. split; [reflexivity|lia].
  - cbn [submit_rows] in H.
    destruct (submit_row_spec r index w)
      as (b & w1 & evs1 & msgs1 & Hrow & _ & _ & E1 & _ & _ & Hfalse & _).
    rewrite (bind_step _ _ _ _ _ Hrow) in H.
    apply bind_ret_inv in H as ([] & w2 & Hcb & H).
    apply call_progress_ret in Hcb as (E2 & _).
    apply IH in H as (msgs3 & E3 & Hlen).
    exists (msgs1 ++ msgs3)%list.
    split; [rewrite E3, E2, E1; now rewrite <- app_assoc|].
    rewrite length_app. destruct b; [lia|].
    assert (msgs1 <> []) by auto.
    destruct msgs1; [congruence|]. cbn [length]. lia.
Qed.

(** A run that returns a result: the loop over the rows, and the state
    left. *)
Lemma run_ret_errors (df : list row) (cb : option callback) (w w' : world)
      (res : run_result) :
  run page form_url (inr df) cb w = (Ret res, w') ->
  exists w0 w1 success fail,
    w_errors w0 = []
    /\ submit_rows page form_url cb (Z.of_nat (length df)) df 0 0 0 w0
       = (Ret (success, fail), w1)
    /\ res = mk_run_result (Z.of_nat (length df)) success fail (w_errors w1)
    /\ w_errors w' = w_errors w1.
Proof.
  unfold run. rewrite bind_ret_l. intros H.
  apply bind_ret_inv in H as ([] & wa & Ha & H).
  apply bind_ret_inv in H as ([] & wb & Hb & H).
  apply try_finally_ret_inv in H as (wc & H & Hrel).
  apply bind_ret_inv in H as ([] & wd & Hd & H).
  unfold map_and_submit in H.
  apply bind_ret_inv in H as (fm & we & He & H).
  apply bind_ret_inv in H as ([] & wf & Hf & H).
  destruct fm as [|entry fm]; [discriminate H|].
  apply bind_ret_inv in H as ([success fail] & wg & Hg & H).
  apply bind_ret_inv in H as (errs & wh & Hh & H).
  unfold get_errors in Hh. injection Hh as <- <-.
  unfold ret in H. injection H as <- <-.
  exists wf, wg, success, fail.
  split.
  { unfold set_form_map in Hf. injection Hf as <-. cbn [w_errors].
    destruct (steady_extract_form_mapping wd) as (E1 & _ & _).
    destruct (steady_open_form wb) as (E2 & _ & _).
    rewrite He in E1. rewrite Hd in E2. cbn [snd] in *.
    unfold reset_errors in Hb. injection Hb as <-. cbn in E2. congruence. }
  split; [exact Hg|]. split; [reflexivity|].
  unfold release, has_driver, driver_quit, call_unit, call, log, bind in Hrel.
  cbn [fst snd] in Hrel. destruct (w_driver wg).
  - cbn in Hrel. destruct (r_exn (page (w_clock wg))); [discriminate Hrel|].
    injection Hrel as <-. reflexivity.
  - cbn in Hrel. now injection Hrel as <-.
Qed.

(** The counts of a result. *)
Lemma run_result_counts (df : list row) (cb : option callback) (w w' : world)
      (res : run_result) :
  run page form_url (inr df) cb w = (Ret res, w') ->
  total_rows res = Z.of_nat (length df)
  /\ success_count res + fail_count res = total_rows res
  /\ 0 <= success_count res
  /\ 0 <= fail_count res <= Z.of_nat (length (errors res))
  /\ errors res = w_errors w'.
Proof.
  intros Hrun.
  apply run_ret_errors in Hrun
    as (w0 & w1 & success & fail & E0 & Hrows & -> & E').
  cbn [success_count total_rows fail_count errors].
  pose proof (submit_rows_spec _ _ _ _ _ _ _ _ _ _ Hrows)
    as (Hsum & Hs & Hf & _).
  pose proof (submit_rows_failures _ _ _ _ _ _ _ _ _ _ Hrows)
    as (msgs & E & Hlen).
  split; [reflexivity|]. split; [lia|]. split; [lia|].
  split; [rewrite E, E0; cbn [app]; lia|]. now rewrite E'.
Qed.

(** X19.  The result of a run that returns: [total_rows] is the number of
    rows of the sheet, every row is counted once, as a success or as a
    failure, every failure has left at least one message, and [errors] is
    [self.errors] as the run leaves it.  A sheet without rows gives the
    result 0, 0, 0 and no message. *)
Theorem run_counts (df : list row) (cb : option callback) (w w' : world)
        (res : run_result) :
  run page form_url (inr df) cb w = (Ret res, w') ->
  total_rows res = Z.of_nat (length df)
  /\ success_count res + fail_count res = total_rows res
  /\ 0 <= success_count res
  /\ 0 <= fail_count res <= Z.of_nat (length (errors res))
  /\ errors res = w_errors w'
  /\ (df = [] -> res = mk_run_result 0 0 0 []).
Proof.
  intros Hrun.
  destruct (run_result_counts _ _ _ _ _ Hrun) as (A & B & C & D & E).
  repeat (split; [assumption|]).
  intros ->. apply run_ret_errors in Hrun
    as (w0 & w1 & success & fail & E0 & Hrows & -> & E').
  cbn in Hrows. injection Hrows as <- <- <-. now rewrite E0.
Qed.

(** *** The calls of the progress callback *)

Lemma progress_rows_app (a b : list event) :
  progress_rows (a ++ b) = (progress_rows a ++ progress_rows b)%list.
Proof.
  induction a as [|ev a IH]; [reflexivity|].
  destruct ev; cbn [app progress_rows]; rewrite IH; reflexivity.
Qed.

Lemma progress_rows_quiet (evs : list event) :
  Forall quiet evs -> progress_rows evs = [].
Proof.
  induction 1 as [|ev evs Hev _ IH]; [reflexivity|].
  destruct ev; cbn [progress_rows]; try exact IH. destruct Hev.
Qed.

Lemma count_from_app (first : Z) (j n : nat) :
  count_from first (j + n)
  = (count_from first j ++ count_from (first + Z.of_nat j) n)%list.
Proof.
  revert first. induction j as [|j IH]; intros first.
  - cbn [count_from app Nat.add]. now rewrite Z.add_0_r.
  - cbn [count_from app Nat.add]. rewrite IH. do 3 f_equal. lia.
Qed.

Lemma reports_quiet (first : Z) {A : Type} (m : M A) :
  emits quiet m -> reports first 0 m.
Proof.
  intros H w. destruct (H w) as (evs & T & F). exists evs, 0%nat.
  split; [exact T|]. split; [now apply progress_rows_quiet|]. auto.
Qed.

Lemma reports_raise (first : Z) (n : nat) {A : Type} (e : exn) :
  reports first n (@raise A e).
Proof.
  intros w. exists [], 0%nat. cbn. rewrite app_nil_r.
  repeat split; [lia|discriminate].
Qed.

Lemma reports_bind (first : Z) (j n : nat) {A B : Type} (m : M A)
      (f : A -> M B) :
  reports first j m ->
  (forall a, reports (first + Z.of_nat j) n (f a)) ->
  reports first (j + n) (bind m f).
Proof.
  intros Hm Hf w. unfold bind.
  destruct (Hm w) as (evs1 & k1 & T1 & R1 & L1 & D1).
  destruct (m w) as [[a|e] w1]; cbn [fst snd] in *.
  - rewrite (D1 a eq_refl) in *.
    destruct (Hf a w1) as (evs2 & k2 & T2 & R2 & L2 & D2).
    exists (evs1 ++ evs2)%list, (j + k2)%nat.
    split; [rewrite T2, T1; now rewrite app_assoc|].
    split; [now rewrite progress_rows_app, R1, R2, count_from_app|].
    split; [lia|]. intros b Hb. now rewrite (D2 b Hb).
  - exists evs1, k1. split; [exact T1|]. split; [exact R1|].
    split; [lia|]. discriminate.
Qed.

Lemma reports_bind_quiet (first : Z) (n : nat) {A B : Type} (m : M A)
      (f : A -> M B) :
  reports first n m -> (forall a, emits quiet (f a)) ->
  reports first n (bind m f).
Proof.
  intros Hm Hf.
  pose proof (reports_bind first n 0 m f Hm
                (fun a => reports_quiet _ _ (Hf a))) as H.
  now rewrite Nat.add_0_r in H.
Qed.

Lemma reports_try_finally (first : Z) (n : nat) {A : Type} (body : M A)
      (final : M unit) :
  reports first n body -> emits quiet final ->
  reports first n (try_finally body final).
Proof.
  intros Hb Hf w. unfold try_finally.
  destruct (Hb w) as (evs1 & k & T1 & R1 & L1 & D1).
  destruct (body w) as [o w1]; cbn [fst snd] in *.
  destruct (Hf w1) as (evs2 & T2 & F2).
  exists (evs1 ++ evs2)%list, k.
  destruct (final w1) as [[u|e] w2]; cbn [fst snd] in *.
  - split; [rewrite T2, T1; now rewrite app_assoc|].
    split; [rewrite progress_rows_app, R1, (progress_rows_quiet _ F2);
            now rewrite app_nil_r|].
    split; [exact L1|exact D1].
  - split; [rewrite T2, T1; now rewrite app_assoc|].
    split; [rewrite progress_rows_app, R1, (progress_rows_quiet _ F2);
            now rewrite app_nil_r|].
    split; [exact L1|discriminate].
Qed.

Lemma row_event_quiet (ev : event) : row_event ev -> quiet ev.
Proof. destruct ev; simpl; tauto. Qed.

Lemma reports_call_progress (f : callback) (current total success fail : Z)
      (message : string) :
  reports current 1
          (call_progress (Some f) current total success fail message).
Proof.
  intros w. exists [EvProgress current total success fail message], 1%nat.
  unfold call_progress, bind, log.
  destruct (f current total success fail message); cbn; auto.
Qed.

Lemma reports_submit_rows (f : callback) (total : Z) (rows : list row) :
  forall index success fail,
    reports (index + 1) (length rows)
            (submit_rows page form_url (Some f) total rows index success fail).
Proof.
  induction rows as [|r rest IH]; intros index success fail.
  - apply reports_quiet, emits_ret.
  - cbn [submit_rows length].
    apply (reports_bind (index + 1) 0 (S (length rest))).
    { apply reports_quiet, emits_submit_row, row_event_quiet. }
    intros ok. rewrite Z.add_0_r.
    apply (reports_bind (index + 1) 1 (length rest));
      [apply reports_call_progress|].
    intros _. apply IH.
Qed.

(** The calls of the progress callback in a run. *)
Lemma run_reports (df : list row) (f : callback) :
  reports 1 (length df) (run page form_url (inr df) (Some f)).
Proof.
  unfold run. rewrite bind_ret_l.
  apply (reports_bind 1 0 (length df)).
  { apply reports_quiet. unfold _create_driver. repeat follow. }
  intros _. apply (reports_bind 1 0 (length df)).
  { apply reports_quiet. auto with submitter. }
  intros _. apply reports_try_finally; [|now apply emits_release].
  apply (reports_bind 1 0 (length df)).
  { apply reports_quiet. now apply emits_open_form. }
  intros _. unfold map_and_submit.
  apply (reports_bind 1 0 (length df)).
  { apply reports_quiet. apply emits_extract_form_mapping.
    intros info. exact I. }
  intros fm. apply (reports_bind 1 0 (length df)).
  { apply reports_quiet. auto with submitter. }
  intros _. destruct fm as [|entry fm]; [apply reports_raise|].
  apply reports_bind_quiet; [apply (reports_submit_rows f)|].
  intros [success fail].
  apply emits_bind; [auto with submitter|]. intros errs. apply emits_ret.
Qed.

(** X20.  The progress callback is called once for each row, in the order
    of the sheet, with the 1-based number of the row: the row numbers it
    is given in a run are 1, 2, ..., k, where k is the number of rows of
    the sheet when the run returns a result, and at most that number when
    the run raises. *)
Theorem run_progress_in_order (df : list row) (f : callback) (w : world) :
  exists evs k,
    w_trace (snd (run page form_url (inr df) (Some f) w))
    = (w_trace w ++ evs)%list
    /\ progress_rows evs = count_from 1 k
    /\ (k <= length df)%nat
    /\ (forall res,
           fst (run page form_url (inr df) (Some f) w) = Ret res ->
           k = length df).
Proof. exact (run_reports df f w). Qed.

End Facts.

(** * Further properties *)

(** ** [normalize] as a matching key *)

Lemma lower_char_newline (c : ascii) :
  Ascii.eqb (lower_char c) "010" = Ascii.eqb c "010".
Proof. each_char c; reflexivity. Qed.

Lemma remove_char_lower (x : ascii) (s : string) :
  (forall c, Ascii.eqb (lower_char c) x = Ascii.eqb c x) ->
  remove_char x (lower s) = lower (remove_char x s).
Proof.
  intros Hx. induction s as [|c r IH]; simpl; [reflexivity|].
  rewrite Hx. destruct (Ascii.eqb c x); simpl; now rewrite IH.
Qed.

Lemma lstrip_lower (s : string) : lstrip (lower s) = lower (lstrip s).
Proof.
  induction s as [|c r IH]; simpl; [reflexivity|].
  rewrite isspace_lower_char. destruct (isspace c); [exact IH|reflexivity].
Qed.

Lemma rstrip_lower (s : string) : rstrip (lower s) = lower (rstrip s).
Proof.
  induction s as [|c r IH]; simpl; [reflexivity|].
  rewrite IH. destruct (rstrip r); simpl.
  - rewrite isspace_lower_char. now destruct (isspace c).
  - reflexivity.
Qed.

Lemma lower_lower (s : string) : lower (lower s) = lower s.
Proof.
  induction s as [|c r IH]; simpl; [reflexivity|].
  now rewrite lower_char_idem, IH.
Qed.

(** X1.  On the strings of the model, whose characters are the code
    points U+0000..U+00FF, the key does not depend on the case of the
    letters: a column "FULL NAME" and a question "Full Name" meet.  There
    [str.lower] works character by character, and so commutes with the
    removal of newlines and asterisks.  (Outside that range it does not:
    the lower case of a capital sigma depends on what follows it.) *)
Theorem normalize_ignores_case (s : string) :
  normalize (VStr (lower s)) = normalize (VStr s).
Proof.
  unfold normalize, normalize_str, strip.
  rewrite (remove_char_lower "010" s lower_char_newline).
  rewrite (remove_char_lower "*" _ lower_char_star).
  rewrite lstrip_lower, rstrip_lower, lower_lower. reflexivity.
Qed.

Lemma remove_char_app (x : ascii) (a b : string) :
  remove_char x (a ++ b) = (remove_char x a ++ remove_char x b)%string.
Proof.
  induction a as [|c a IH]; simpl; [reflexivity|].
  destruct (Ascii.eqb c x); simpl; now rewrite IH.
Qed.

Lemma remove_char_blank (x : ascii) (u : string) :
  string_forallb isspace u = true ->
  string_forallb isspace (remove_char x u) = true.
Proof.
  induction u as [|c u IH]; simpl; [reflexivity|].
  intros H. apply andb_prop in H as [H1 H2].
  destruct (Ascii.eqb c x); [now apply IH|]. simpl. now rewrite H1, IH.
Qed.

Lemma rstrip_blank (u : string) :
  string_forallb isspace u = true -> rstrip u = "".
Proof.
  induction u as [|c u IH]; simpl; [reflexivity|].
  intros H. apply andb_prop in H as [H1 H2]. now rewrite (IH H2), H1.
Qed.

Lemma rstrip_app_blank (t u : string) :
  string_forallb isspace u = true -> rstrip (t ++ u) = rstrip t.
Proof.
  intros Hu. induction t as [|c t IH]; simpl.
  - now apply rstrip_blank.
  - now rewrite IH.
Qed.

Lemma lstrip_blank (u : string) :
  string_forallb isspace u = true -> lstrip u = "".
Proof.
  induction u as [|c u IH]; simpl; [reflexivity|].
  intros H. apply andb_prop in H as [H1 H2]. rewrite H1. now apply IH.
Qed.

Lemma strip_app_blank (t u : string) :
  string_forallb isspace u = true -> strip (t ++ u) = strip t.
Proof.
  intros Hu. unfold strip. induction t as [|c t IH]; simpl.
  - now rewrite (lstrip_blank u Hu).
  - destruct (isspace c); [exact IH|].
    change (String c (t ++ u)) with (String c t ++ u)%string.
    now apply rstrip_app_blank.
Qed.

Lemma remove_star_blank (u : string) :
  string_forallb blank_or_star u = true ->
  string_forallb isspace (remove_char "*" u) = true.
Proof.
  induction u as [|c u IH]; simpl; [reflexivity|].
  intros H. apply andb_prop in H as [H1 H2]. unfold blank_or_star in H1.
  destruct (Ascii.eqb c "*"); [now apply IH|].
  rewrite orb_false_r in H1. simpl. now rewrite H1, IH.
Qed.

Lemma remove_newline_blank_or_star (u : string) :
  string_forallb blank_or_star u = true ->
  string_forallb blank_or_star (remove_char "010" u) = true.
Proof.
  induction u as [|c u IH]; simpl; [reflexivity|].
  intros H. apply andb_prop in H as [H1 H2].
  destruct (Ascii.eqb c "010"); [now apply IH|]. simpl. now rewrite H1, IH.
Qed.

(** X2.  What Google Forms appends to the label of a required question,
    " *", and any other tail of whitespace and asterisks, does not change
    the key. *)
Theorem normalize_ignores_marker (s u : string) :
  string_forallb blank_or_star u = true ->
  normalize (VStr (s ++ u)) = normalize (VStr s).
Proof.
  intros Hu. unfold normalize, normalize_str.
  rewrite !remove_char_app.
  rewrite strip_app_blank; [reflexivity|].
  apply remove_star_blank, remove_newline_blank_or_star, Hu.
Qed.

Lemma normalize_ignores_marker_witness :
  normalize (VStr ("Full Name" ++ " *")) = normalize (VStr "Full Name").
Proof. apply (normalize_ignores_marker "Full Name" " *"). reflexivity. Defined.

(** X3.  A key has no asterisk and no capital letter, starts and ends
    with a character that is not whitespace, and its only whitespace is
    single spaces. *)
Theorem normalize_shape (x : pyval) :
  head_nonspace (normalize x) = true
  /\ last_nonspace (normalize x) = true
  /\ spaced (normalize x) = true
  /\ string_forallb not_star (normalize x) = true
  /\ string_forallb is_lowered (normalize x) = true.
Proof.
  destruct (normalize_str_normal
              (match x with VStr s => s | _ => py_str x end))
    as (Hh & Hs & Hstar & Hlow).
  unfold normalize. repeat split; auto. now apply spaced_last_nonspace.
Qed.

(** ** [_parse_date_value] on strings *)

Lemma strptime_valid (v fmt : string) (dt : datelike) :
  strptime v fmt = inr dt -> valid_date dt = true.
Proof.
  unfold strptime. destruct (parse_format fmt) as [ds|]; [|discriminate].
  destruct (re_matches ds no_groups v) as [|[g [|c rest]] l]; try discriminate.
  destruct (valid_date _) eqn:E; [|discriminate].
  intros H. injection H as <-. exact E.
Qed.

Lemma try_formats_valid (v : string) (fmts : list string) (d m y : Z) :
  try_formats v fmts = (Some d, Some m, Some y) ->
  valid_date (mk_datelike d m y) = true.
Proof.
  induction fmts as [|fmt rest IH]; simpl; [discriminate|].
  destruct (strptime v fmt) as [e|dt] eqn:E.
  - destruct (is_value_error e); [exact IH|discriminate].
  - intros H. unfold triple_of in H. injection H as <- <- <-.
    destruct dt. exact (strptime_valid _ _ _ E).
Qed.

(** X4.  A date read in a string is a date of the calendar: the month is
    1 to 12, the day exists in that month of that year (29 February only
    in leap years), and the year is 1 to 9999. *)
Theorem parse_date_string_valid (s : string) (d m y : Z) :
  _parse_date_value (VStr s) = (Some d, Some m, Some y) ->
  1 <= y <= 9999 /\ 1 <= m <= 12 /\ 1 <= d <= days_in_month y m.
Proof.
  cbn [_parse_date_value]. intros H. apply try_formats_valid in H.
  unfold valid_date in H. cbn [dl_day dl_month dl_year] in H.
  repeat (apply andb_prop in H as [H ?]).
  repeat match goal with
         | E : (_ <=? _) = true |- _ => apply Z.leb_le in E
         end.
  lia.
Qed.

Lemma parse_date_string_valid_witness :
  1 <= 2024 <= 9999 /\ 1 <= 2 <= 12 /\ 1 <= 29 <= days_in_month 2024 2.
Proof. apply (parse_date_string_valid "29-02-2024"). reflexivity. Defined.

Lemma lstrip_app_blank (a t : string) :
  string_forallb isspace a = true -> lstrip (a ++ t) = lstrip t.
Proof.
  induction a as [|c a IH]; simpl; [reflexivity|].
  intros H. apply andb_prop in H as [H1 H2]. rewrite H1. now apply IH.
Qed.

(** X5.  Whitespace before and after a date string does not change how it
    is read. *)
Theorem parse_date_ignores_spaces (a s b : string) :
  string_forallb isspace a = true ->
  string_forallb isspace b = true ->
  _parse_date_value (VStr (a ++ s ++ b)) = _parse_date_value (VStr s).
Proof.
  intros Ha Hb. cbn [_parse_date_value].
  replace (strip (a ++ s ++ b)) with (strip s); [reflexivity|].
  unfold strip. rewrite (lstrip_app_blank a _ Ha).
  symmetry. apply (strip_app_blank s b Hb).
Qed.

Lemma parse_date_ignores_spaces_witness :
  _parse_date_value (VStr (" " ++ "15-08-1990" ++ "  "))
  = _parse_date_value (VStr "15-08-1990").
Proof.
  apply (parse_date_ignores_spaces " " "15-08-1990" "  "); reflexivity.
Defined.

(** X21.  Serial numbers are read one to one: two serials in the range of
    a [Timestamp] that are read as the same day, month and year are the
    same number. *)
Theorem parse_date_serial_one_to_one (n1 n2 : Z) :
  serial_min <= n1 <= serial_max ->
  serial_min <= n2 <= serial_max ->
  _parse_date_value (VInt n1) = _parse_date_value (VInt n2) ->
  n1 = n2.
Proof.
  intros H1 H2.
  destruct (serial_in_range n1 H1) as (dt1 & E1 & _ & O1).
  destruct (serial_in_range n2 H2) as (dt2 & E2 & _ & O2).
  cbn [_parse_date_value]. rewrite E1, E2. unfold triple_of.
  intros H. injection H as Hd Hm Hy.
  assert (toordinal dt1 = toordinal dt2).
  { unfold toordinal. now rewrite Hd, Hm, Hy. }
  lia.
Qed.

Lemma parse_date_serial_one_to_one_witness : 44197 = 44197.
Proof.
  apply (parse_date_serial_one_to_one 44197 44197);
    [unfold serial_min, serial_max; lia ..|reflexivity].
Defined.

(** ** The texts of a date, read back *)

Lemma forall_from_spec (p : Z -> bool) (n : nat) :
  forall first, forall_from p first n = true ->
  forall z, first <= z < first + Z.of_nat n -> p z = true.
Proof.
  induction n as [|n IH]; intros first H z Hz; [lia|].
  cbn [forall_from] in H. apply andb_prop in H as [H1 H2].
  destruct (Z.eq_dec z first) as [->|Hne]; [exact H1|].
  apply (IH (first + 1) H2). lia.
Qed.

Lemma year_text_all : forall_from year_text 1000 (Z.to_nat 9000) = true.
Proof. vm_compute. reflexivity. Qed.

Lemma year_text_ok (y : Z) : 1000 <= y <= 9999 -> year_text y = true.
Proof.
  intros H. apply (forall_from_spec _ _ _ year_text_all). lia.
Qed.

(** A year of four digits, as text. *)
Lemma str_of_year (y : Z) :
  1000 <= y <= 9999 ->
  exists a b c e,
    str_of_Z y = String a (String b (String c (String e "")))
    /\ isdigit a = true /\ isdigit b = true
    /\ isdigit c = true /\ isdigit e = true
    /\ ((digit_val a * 10 + digit_val b) * 10 + digit_val c) * 10
       + digit_val e = y.
Proof.
  intros H. pose proof (year_text_ok y H) as T. unfold year_text in T.
  destruct (str_of_Z y) as [|a [|b [|c [|e [|x r]]]]]; try discriminate T.
  exists a, b, c, e. split; [reflexivity|].
  apply andb_prop in T as [T V]. apply andb_prop in T as [T E].
  apply andb_prop in T as [T C]. apply andb_prop in T as [A B].
  apply Z.eqb_eq in V. repeat split; assumption.
Qed.

Lemma re_matches_head (d : directive) (ds : list directive) (g g' : groups)
      (s r : string) (tl : list (groups * string)) (x : groups * string)
      (tl' : list (groups * string)) :
  re_directive d g s = (g', r) :: tl ->
  re_matches ds g' r = x :: tl' ->
  exists tl'', re_matches (d :: ds) g s = x :: tl''.
Proof.
  intros H1 H2. cbn [re_matches]. rewrite H1. cbn [flat_map]. rewrite H2.
  eexists. reflexivity.
Qed.

Lemma re_day (d : Z) (g : groups) (r : string) :
  1 <= d <= 31 ->
  exists tl,
    re_directive Dir_d g (zfill2 (str_of_Z d) ++ r)
    = (mk_groups (Some d) (g_m g) (g_Y g) (g_y g), r) :: tl.
Proof.
  intros H.
  assert (C : d = 1 \/ d = 2 \/ d = 3 \/ d = 4 \/ d = 5 \/ d = 6 \/ d = 7
              \/ d = 8 \/ d = 9 \/ d = 10 \/ d = 11 \/ d = 12 \/ d = 13
              \/ d = 14 \/ d = 15 \/ d = 16 \/ d = 17 \/ d = 18 \/ d = 19
              \/ d = 20 \/ d = 21 \/ d = 22 \/ d = 23 \/ d = 24 \/ d = 25
              \/ d = 26 \/ d = 27 \/ d = 28 \/ d = 29 \/ d = 30 \/ d = 31)
    by lia.
  repeat (destruct C as [->|C]); try subst d; eexists; reflexivity.
Qed.

Lemma re_month (m : Z) (g : groups) (r : string) :
  1 <= m <= 12 ->
  exists tl,
    re_directive Dir_m g (zfill2 (str_of_Z m) ++ r)
    = (mk_groups (g_d g) (Some m) (g_Y g) (g_y g), r) :: tl.
Proof.
  intros H.
  assert (C : m = 1 \/ m = 2 \/ m = 3 \/ m = 4 \/ m = 5 \/ m = 6 \/ m = 7
              \/ m = 8 \/ m = 9 \/ m = 10 \/ m = 11 \/ m = 12) by lia.
  repeat (destruct C as [->|C]); try subst m; eexists; reflexivity.
Qed.

Lemma re_year (y : Z) (g : groups) (r : string) :
  1000 <= y <= 9999 ->
  re_directive Dir_Y g (str_of_Z y ++ r)
  = [(mk_groups (g_d g) (g_m g) (Some y) (g_y g), r)].
Proof.
  intros H. destruct (str_of_year y H) as (a & b & c & e & -> & A & B & C & E & V).
  cbn [re_directive append re_Y]. rewrite A, B, C, E. cbn [andb map].
  now rewrite V.
Qed.

Lemma re_dash (g : groups) (r : string) :
  re_directive (Lit "-") g (String "-" r) = [(g, r)].
Proof. reflexivity. Qed.

Lemma valid_date_intro (d m y : Z) :
  1 <= y <= 9999 -> 1 <= m <= 12 -> 1 <= d <= days_in_month y m ->
  valid_date (mk_datelike d m y) = true.
Proof.
  intros Hy Hm Hd. unfold valid_date. cbn [dl_day dl_month dl_year].
  repeat (apply andb_true_intro; split); apply Z.leb_le; lia.
Qed.

Lemma strptime_typed_date (d m y : Z) :
  1000 <= y <= 9999 -> 1 <= m <= 12 -> 1 <= d <= days_in_month y m ->
  strptime (typed_date d m y) "%d-%m-%Y" = inr (mk_datelike d m y).
Proof.
  intros Hy Hm Hd. pose proof (days_in_month_bounds y m) as Hb.
  unfold strptime.
  change (parse_format "%d-%m-%Y") with (Some fmt_dmY).
  unfold typed_date, fmt_dmY.
  assert (H : exists tl,
             re_matches [Dir_d; Lit "-"; Dir_m; Lit "-"; Dir_Y] no_groups
               (zfill2 (str_of_Z d) ++ "-" ++ zfill2 (str_of_Z m) ++ "-"
                ++ str_of_Z y)
             = (mk_groups (Some d) (Some m) (Some y) None, "") :: tl).
  { destruct (re_day d no_groups
                     (String "-" (zfill2 (str_of_Z m)
                                  ++ String "-" (str_of_Z y))))
      as [tl1 H1]; [lia|].
    destruct (re_month m (mk_groups (Some d) None None None)
                       (String "-" (str_of_Z y)) Hm) as [tl2 H2].
    pose proof (re_year y (mk_groups (Some d) (Some m) None None) "" Hy) as H3.
    rewrite string_app_nil_r in H3.
    eapply re_matches_head; [exact H1|].
    cbn [g_d g_m g_Y g_y no_groups].
    cbn [re_matches]. rewrite re_dash. cbn [flat_map].
    rewrite app_nil_r, H2.
    cbn [flat_map g_d g_m g_Y g_y]. rewrite re_dash. cbn [flat_map].
    rewrite app_nil_r, H3.
    cbn [flat_map g_d g_m g_Y g_y app]. reflexivity. }
  destruct H as [tl ->]. cbn [g_d g_m year_of_groups g_Y g_y].
  rewrite valid_date_intro by lia. reflexivity.
Qed.

Lemma strptime_html5_date (d m y : Z) :
  1000 <= y <= 9999 -> 1 <= m <= 12 -> 1 <= d <= days_in_month y m ->
  strptime (html5_date d m y) "%Y-%m-%d" = inr (mk_datelike d m y).
Proof.
  intros Hy Hm Hd. pose proof (days_in_month_bounds y m) as Hb.
  unfold strptime.
  change (parse_format "%Y-%m-%d") with (Some fmt_Ymd).
  unfold html5_date, fmt_Ymd.
  assert (H : exists tl,
             re_matches [Dir_Y; Lit "-"; Dir_m; Lit "-"; Dir_d] no_groups
               (str_of_Z y ++ "-" ++ zfill2 (str_of_Z m) ++ "-"
                ++ zfill2 (str_of_Z d))
             = (mk_groups (Some d) (Some m) (Some y) None, "") :: tl).
  { pose proof (re_year y no_groups
                        (String "-" (zfill2 (str_of_Z m)
                                     ++ String "-" (zfill2 (str_of_Z d))))
                        Hy) as H1.
    destruct (re_month m (mk_groups None None (Some y) None)
                       (String "-" (zfill2 (str_of_Z d))) Hm) as [tl2 H2].
    destruct (re_day d (mk_groups None (Some m) (Some y) None) "")
      as [tl3 H3]; [lia|].
    rewrite string_app_nil_r in H3.
    eapply re_matches_head; [exact H1|].
    cbn [g_d g_m g_Y g_y no_groups].
    cbn [re_matches]. rewrite re_dash. cbn [flat_map].
    rewrite app_nil_r, H2.
    cbn [flat_map g_d g_m g_Y g_y]. rewrite re_dash. cbn [flat_map].
    rewrite app_nil_r, H3.
    cbn [flat_map g_d g_m g_Y g_y app]. reflexivity. }
  destruct H as [tl ->]. cbn [g_d g_m year_of_groups g_Y g_y].
  rewrite valid_date_intro by lia. reflexivity.
Qed.

Lemma forallb_string_app (p : ascii -> bool) (a b : string) :
  string_forallb p (a ++ b)
  = string_forallb p a && string_forallb p b.
Proof.
  induction a as [|c a IH]; simpl; [reflexivity|].
  now rewrite IH, andb_assoc.
Qed.

Lemma digit_not_space (c : ascii) :
  isdigit c = true -> negb (isspace c) = true.
Proof. each_char c; intros H; try reflexivity; discriminate H. Qed.

Lemma digits_no_space (s : string) :
  string_forallb isdigit s = true ->
  string_forallb (fun c => negb (isspace c)) s = true.
Proof.
  induction s as [|c s IH]; simpl; [reflexivity|].
  intros H. apply andb_prop in H as [H1 H2].
  now rewrite (digit_not_space c H1), (IH H2).
Qed.

Lemma zfill2_digits (s : string) :
  string_forallb isdigit s = true -> string_forallb isdigit (zfill2 s) = true.
Proof.
  destruct s as [|c [|d r]]; [reflexivity| |auto].
  simpl. intros H. apply andb_prop in H as [H _].
  destruct (Ascii.eqb c "-" || Ascii.eqb c "+") eqn:E; simpl.
  - revert H E. each_char c; intros H E; try discriminate H; discriminate E.
  - now rewrite H.
Qed.

Lemma str_of_Z_all_digits (i : Z) :
  0 <= i -> string_forallb isdigit (str_of_Z i) = true.
Proof.
  intros H. destruct (str_of_Z_digits i H) as (c & r & -> & Hd). exact Hd.
Qed.

Lemma no_space_ends (s : string) :
  string_forallb (fun c => negb (isspace c)) s = true ->
  head_nonspace s = true /\ last_nonspace s = true.
Proof.
  induction s as [|c s IH]; simpl; [auto|].
  intros H. apply andb_prop in H as [H1 H2]. split; [exact H1|].
  destruct s as [|d r]; [exact H1|]. now apply IH.
Qed.

Lemma strip_no_space (s : string) :
  string_forallb (fun c => negb (isspace c)) s = true -> strip s = s.
Proof.
  intros H. destruct (no_space_ends s H). now apply strip_fix.
Qed.

Lemma date_text_no_space (a b c : string) :
  string_forallb isdigit a = true -> string_forallb isdigit b = true ->
  string_forallb isdigit c = true ->
  strip (a ++ "-" ++ b ++ "-" ++ c) = (a ++ "-" ++ b ++ "-" ++ c)%string.
Proof.
  intros A B C. apply strip_no_space.
  rewrite !forallb_string_app.
  rewrite (digits_no_space a A), (digits_no_space b B), (digits_no_space c C).
  reflexivity.
Qed.

(** X22.  The texts the date filler makes of a date read back as that
    date: for every date of the calendar with a year of four digits, both
    the text typed into a plain input, DD-MM-YYYY, and the value set on an
    HTML5 date input, YYYY-MM-DD, are read by [_parse_date_value] as the
    day, month and year they were made of. *)
Theorem date_texts_read_back (d m y : Z) :
  1000 <= y <= 9999 -> 1 <= m <= 12 -> 1 <= d <= days_in_month y m ->
  _parse_date_value (VStr (typed_date d m y)) = (Some d, Some m, Some y)
  /\ _parse_date_value (VStr (html5_date d m y)) = (Some d, Some m, Some y).
Proof.
  intros Hy Hm Hd. pose proof (days_in_month_bounds y m) as Hb.
  assert (Dd : string_forallb isdigit (zfill2 (str_of_Z d)) = true)
    by (apply zfill2_digits, str_of_Z_all_digits; lia).
  assert (Dm : string_forallb isdigit (zfill2 (str_of_Z m)) = true)
    by (apply zfill2_digits, str_of_Z_all_digits; lia).
  assert (Dy : string_forallb isdigit (str_of_Z y) = true)
    by (apply str_of_Z_all_digits; lia).
  pose proof (strptime_typed_date d m y Hy Hm Hd) as T.
  pose proof (strptime_html5_date d m y Hy Hm Hd) as H.
  cbn [_parse_date_value]. unfold date_formats. split.
  - unfold typed_date in *. rewrite (date_text_no_space _ _ _ Dd Dm Dy).
    now rewrite (try_formats_hit _ _ _ _ T).
  - unfold html5_date in *. rewrite (date_text_no_space _ _ _ Dy Dm Dd).
    skip_by H excl_dmY_Ymd.
    now rewrite (try_formats_hit _ _ _ _ H).
Qed.

Lemma date_texts_read_back_witness :
  _parse_date_value (VStr (typed_date 29 2 2024))
  = (Some 29, Some 2, Some 2024)
  /\ _parse_date_value (VStr (html5_date 29 2 2024))
     = (Some 29, Some 2, Some 2024).
Proof.
  apply (date_texts_read_back 29 2 2024);
    [lia|lia|change (days_in_month 2024 2) with 29; lia].
Defined.

(** ** The background task of the server *)

Lemma on_progress_kept (evs : list event) :
  forall job,
    js_job_id (fold_left on_progress evs job) = js_job_id job
    /\ js_status (fold_left on_progress evs job) = js_status job
    /\ js_errors (fold_left on_progress evs job) = js_errors job.
Proof.
  induction evs as [|ev evs IH]; intros job; [auto|].
  cbn [fold_left]. destruct (IH (on_progress job ev)) as (A & B & C).
  rewrite A, B, C. now destruct ev.
Qed.

Lemma last_cons_default {A : Type} (x : A) (l : list A) (d d' : A) :
  last (x :: l) d = last (x :: l) d'.
Proof.
  revert x. induction l as [|y l IH]; intros x; [reflexivity|].
  change (last (y :: l) d = last (y :: l) d'). apply IH.
Qed.

Lemma on_progress_row (evs : list event) :
  forall job,
    js_current_row (fold_left on_progress evs job)
    = last (progress_rows evs) (js_current_row job).
Proof.
  induction evs as [|ev evs IH]; intros job; [reflexivity|].
  cbn [fold_left]. rewrite IH.
  destruct ev; cbn [on_progress progress_rows js_current_row];
    try reflexivity.
  destruct (progress_rows evs) as [|z l]; [reflexivity|].
  change (last (current_row :: z :: l) (js_current_row job))
    with (last (z :: l) (js_current_row job)).
  apply last_cons_default.
Qed.

Lemma last_count_from (n : nat) :
  forall first d,
    last (count_from first n) d
    = if Nat.eqb n 0 then d else first + Z.of_nat n - 1.
Proof.
  induction n as [|n IH]; intros first d; [reflexivity|].
  cbn [count_from Nat.eqb]. destruct n as [|n].
  - cbn. lia.
  - change (last (first :: count_from (first + 1) (S n)) d)
      with (last (count_from (first + 1) (S n)) d).
    rewrite IH. cbn [Nat.eqb]. lia.
Qed.

Lemma existsb_eqb_In (path : string) (fs : list string) :
  existsb (String.eqb path) fs = true <-> In path fs.
Proof.
  rewrite existsb_exists. split.
  - intros (p & Hin & E). apply String.eqb_eq in E. now subst p.
  - intros Hin. exists path. split; [exact Hin|apply String.eqb_refl].
Qed.

(** What the [finally] clause does to the file. *)
Lemma remove_file_spec (path : string) (removal : option exn)
      (fs : list string) :
  (In path fs -> fst (remove_file path removal fs) = removal)
  /\ (~ In path fs -> fst (remove_file path removal fs) = None)
  /\ (fst (remove_file path removal fs) = None ->
      ~ In path (snd (remove_file path removal fs)))
  /\ (forall e, fst (remove_file path removal fs) = Some e ->
                snd (remove_file path removal fs) = fs).
Proof.
  unfold remove_file.
  destruct (existsb (String.eqb path) fs) eqn:E.
  - apply existsb_eqb_In in E.
    destruct removal as [e|]; cbn [fst snd].
    + repeat split; try tauto; discriminate.
    + split; [reflexivity|]. split; [tauto|]. split; [|discriminate].
      intros _ H. apply filter_In in H as [_ H].
      now rewrite String.eqb_refl in H.
  - assert (Hno : ~ In path fs).
    { intros H. apply existsb_eqb_In in H. congruence. }
    cbn [fst snd]. repeat split; try tauto; try discriminate.
Qed.

Lemma run_unreadable (page : oracle) (form_url : string) (e : exn)
      (cb : option callback) (w : world) :
  run page form_url (inl e) cb w = (Raise e, w).
Proof. reflexivity. Qed.

(** X25.  The background task brings a job to its end, whatever becomes
    of the uploaded file.  For a job that is in [job_status], the status
    of the job, as [get_job_status] gives it after the task, is
    "completed" or "failed", never "pending" or "running"; the other jobs
    are as they were.  A completed job has the number of rows of the sheet
    as [total_rows], counts that add up to it, at least one error for each
    failure, and, when it started with [current_row] 0, a [current_row]
    equal to [total_rows].  A sheet that cannot be read fails the job with
    the text of the exception.  The task raises nothing but what
    [os.remove] raises in the [finally] clause: when the file is there,
    the task raises exactly when [os.remove] does, and leaves the file
    then; when the task returns, the file is not there. *)
Theorem task_ends_job (page : oracle) (job_id form_url excel_path : string)
        (excel : exn + list row) (removal : option exn) (s : server)
        (job : JobStatus) :
  dict_get job_id (job_status s) = Some job ->
  let out := run_submission_task page job_id form_url excel_path excel
                                 removal s in
  (In excel_path (files s) -> fst out = removal)
  /\ (~ In excel_path (files s) -> fst out = None)
  /\ (fst out = None -> ~ In excel_path (files (snd out)))
  /\ (forall e, fst out = Some e -> files (snd out) = files s)
  /\ (forall other,
         other <> job_id ->
         get_job_status other (snd out) = get_job_status other s)
  /\ exists job',
      get_job_status job_id (snd out) = inr job'
      /\ js_job_id job' = js_job_id job
      /\ (js_status job' = "completed" \/ js_status job' = "failed")
      /\ (js_status job' = "completed" ->
          exists df,
            excel = inr df
            /\ js_total_rows job' = Z.of_nat (length df)
            /\ js_success_count job' + js_fail_count job'
               = js_total_rows job'
            /\ 0 <= js_success_count job'
            /\ 0 <= js_fail_count job' <= Z.of_nat (length (js_errors job'))
            /\ (js_current_row job = 0 ->
                js_current_row job' = js_total_rows job'))
      /\ (forall e,
             excel = inl e ->
             js_status job' = "failed" /\ js_message job' = exn_str e).
Proof.
  intros Hjob. cbv zeta. unfold run_submission_task. rewrite Hjob.
  destruct (run page form_url excel (Some progress_callback) initial_world)
    as [o w] eqn:R.
  destruct (remove_file_spec excel_path removal (files s))
    as (F1 & F2 & F3 & F4).
  destruct (remove_file excel_path removal (files s)) as [in_finally fs].
  cbn [fst snd files job_status] in *.
  split.
  { intros Hin. rewrite (F1 Hin). now destruct removal. }
  split.
  { intros Hno. now rewrite (F2 Hno). }
  split.
  { intros H. apply F3. now destruct in_finally. }
  split.
  { intros e H. destruct in_finally as [e'|]; [|discriminate H].
    exact (F4 e' eq_refl). }
  split.
  { intros other Hne. unfold get_job_status. cbn [job_status].
    rewrite dict_get_set.
    destruct (String.eqb job_id other) eqn:E; [|reflexivity].
    apply String.eqb_eq in E. now destruct Hne. }
  eexists. split.
  { unfold get_job_status. cbn [job_status].
    now rewrite dict_get_set, String.eqb_refl. }
  destruct (on_progress_kept (w_trace w) (running job)) as (Kid & _ & _).
  destruct o as [res|e].
  - cbn [completed js_job_id js_status js_total_rows js_success_count
         js_fail_count js_errors js_current_row js_message].
    split; [exact Kid|]. split; [now left|]. split.
    + intros _. destruct excel as [e|df];
        [rewrite run_unreadable in R; discriminate R|].
      exists df. split; [reflexivity|].
      destruct (run_result_counts _ _ _ _ _ _ _ R) as (A & B & C & D & _).
      repeat (split; [assumption|]).
      intros Hzero. rewrite on_progress_row.
      destruct (run_reports page form_url df progress_callback
                            initial_world)
        as (evs & k & T & P & _ & Hk).
      rewrite R in T, Hk. cbn [fst snd initial_world w_trace app] in T, Hk.
      rewrite T, P, (Hk res eq_refl), last_count_from, A.
      cbn [running js_current_row]. rewrite Hzero.
      destruct (length df); cbn [Nat.eqb]; lia.
    + intros e ->. rewrite run_unreadable in R. discriminate R.
  - cbn [failed js_job_id js_status js_message].
    split; [exact Kid|]. split; [now right|].
    split; [discriminate|].
    intros e' ->. rewrite run_unreadable in R. injection R as <- _.
    split; reflexivity.
Qed.

(** * The theorems at work on scripted pages *)

Lemma run_all_confirmed_witness :
  exists oks,
    fst (row_answers confirmed_page sample_url None
                     (Z.of_nat (length [sample_row])) [sample_row] 0 0 0
                     (before_rows confirmed_page sample_url initial_world))
    = Ret oks
    /\ length oks = length [sample_row]
    /\ total_rows (mk_run_result 1 1 0 []) = Z.of_nat (length [sample_row])
    /\ success_count (mk_run_result 1 1 0 []) = how_many true oks
    /\ fail_count (mk_run_result 1 1 0 []) = how_many false oks
    /\ (Forall (fun ok => ok = true) oks ->
        success_count (mk_run_result 1 1 0 [])
        = Z.of_nat (length [sample_row])
        /\ fail_count (mk_run_result 1 1 0 []) = 0
        /\ Forall failed_fields_message (errors (mk_run_result 1 1 0 []))
        /\ ((forall col,
                ~ In (EvFilled col false)
                     (w_trace (snd (run confirmed_page sample_url
                                        (inr [sample_row]) None
                                        initial_world)))) ->
            errors (mk_run_result 1 1 0 []) = [])).
Proof.
  apply (run_all_confirmed confirmed_page sample_url [sample_row] None
                           initial_world).
  vm_compute. reflexivity.
Defined.

(** A run in which no row is confirmed: the two rows answer [False], and
    the result counts them as failures. *)
Example run_none_confirmed :
  fst (run unconfirmed_page sample_url (inr [sample_row; sample_row]) None
           initial_world)
  = Ret (mk_run_result 2 0 2
           [("Row 1: " ++ exn_str timeout_exception)%string;
            ("Row 2: " ++ exn_str timeout_exception)%string])
  /\ fst (row_answers unconfirmed_page sample_url None 2
                      [sample_row; sample_row] 0 0 0
                      (before_rows unconfirmed_page sample_url
                                   initial_world))
     = Ret [false; false].
Proof. split; vm_compute; reflexivity. Qed.

(** C1, as stated, fails: the one row of this run is confirmed, and the
    list of errors is not empty, because its field could not be filled. *)
Lemma run_all_confirmed_counterexample :
  fst (run unfilled_page sample_url (inr [sample_row]) None initial_world)
  = Ret (mk_run_result 1 1 0 ["Row 1: Failed fields - Name"])
  /\ ~ (forall page url df cb w res w',
           run page url (inr df) cb w = (Ret res, w') ->
           success_count res = Z.of_nat (length df) ->
           res = mk_run_result (Z.of_nat (length df)) (Z.of_nat (length df))
                               0 []).
Proof.
  split; [vm_compute; reflexivity|].
  intros H.
  specialize (H unfilled_page sample_url [sample_row] None initial_world
                (mk_run_result 1 1 0 ["Row 1: Failed fields - Name"])
                (snd (run unfilled_page sample_url (inr [sample_row]) None
                          initial_world))).
  assert (E : mk_run_result 1 1 0 ["Row 1: Failed fields - Name"]
              = mk_run_result 1 1 0 []).
  { apply H; vm_compute; reflexivity. }
  discriminate E.
Qed.

Lemma run_no_fields_witness :
  exists e w',
    run no_fields_page sample_url (inr [sample_row]) None initial_world
    = (Raise e, w')
    /\ w_trace w'
       = (w_trace
            (snd (_extract_form_mapping no_fields_page
                    (snd (open_form no_fields_page sample_url
                            (snd (reset_errors
                                    (snd (_create_driver no_fields_page
                                                         initial_world))))))))
          ++ [EvQuit])%list
    /\ w_errors w' = []
    /\ (r_exn (no_fields_page
                 (w_clock
                    (snd (_extract_form_mapping no_fields_page
                            (snd (open_form no_fields_page sample_url
                                    (snd (reset_errors
                                            (snd (_create_driver
                                                    no_fields_page
                                                    initial_world))))))))))
        = None ->
        e = no_fields_exception).
Proof.
  apply (run_no_fields no_fields_page sample_url [sample_row] None
           initial_world
           (snd (_create_driver no_fields_page initial_world))
           (snd (open_form no_fields_page sample_url
                   (snd (reset_errors
                           (snd (_create_driver no_fields_page
                                                initial_world)))))));
    vm_compute; reflexivity.
Defined.


Lemma submit_button_not_found_witness :
  exists w' msg,
    _submit_row no_button_page sample_url sample_row 0 mapped_world
    = (Ret false, w')
    /\ w_errors w'
       = (w_errors (snd (fill_form no_button_page sample_url sample_row 0
                                   mapped_world))
          ++ [msg])%list
    /\ msg = ("Row " ++ str_of_Z (0 + 1) ++ ": Submit button not found")%string
    /\ py_in "Submit" msg = true
    /\ py_in "submit" (lower msg) = true
    /\ py_in (str_of_Z (0 + 1)) msg = true.
Proof.
  apply (submit_button_not_found no_button_page sample_url
                                 sample_row 0 mapped_world).
  - vm_compute. reflexivity.
  - vm_compute. reflexivity.
Defined.

(** C7, as stated, fails: the message recorded when the submit button is
    not found reads "Submit", not "submit". *)
Lemma submit_button_not_found_counterexample :
  times_out (no_button_page
               (w_clock (snd (fill_form no_button_page sample_url sample_row 0
                                        mapped_world))))
  /\ fst (_submit_row no_button_page sample_url sample_row 0 mapped_world)
     = Ret false
  /\ w_errors (snd (_submit_row no_button_page sample_url sample_row 0
                                mapped_world))
     = ["Row 1: Submit button not found"]
  /\ py_in "submit" "Row 1: Submit button not found" = false
  /\ py_in "1" "Row 1: Submit button not found" = true.
Proof.
  split; [vm_compute; reflexivity|]. split; [vm_compute; reflexivity|].
  split; [vm_compute; reflexivity|]. split; vm_compute; reflexivity.
Qed.

Lemma form_map_last_wins_witness :
  exists evs,
    w_trace (snd (_extract_form_mapping two_names_page initial_world))
    = (w_trace initial_world ++ evs)%list
    /\ NoDup (dict_keys [("name", second_name_field)])
    /\ (forall k info,
           dict_get k [("name", second_name_field)] = Some info ->
           k = normalize (VStr (fi_label info))
           /\ normalize (VStr k) = k)
    /\ (forall k, dict_get k [("name", second_name_field)]
                  = last_mapped k evs).
Proof.
  apply (form_map_last_wins two_names_page initial_world).
  vm_compute. reflexivity.
Defined.

(** Two questions whose labels normalize to "name": the second one is the
    one the form map keeps. *)
Example two_names_second_wins :
  fst (_extract_form_mapping two_names_page initial_world)
  = Ret [("name", second_name_field)].
Proof. vm_compute. reflexivity. Qed.

Example normalize_examples :
  normalize (VStr "Full Name ") = "full name"
  /\ normalize (VStr "Date of Birth *") = "date of birth"
  /\ normalize (VInt 12) = "12".
Proof. repeat split. Qed.

Example parse_date_examples :
  _parse_date_value (VStr "15-08-1990") = (Some 15, Some 8, Some 1990)
  /\ _parse_date_value (VStr "not-a-date") = (None, None, None)
  /\ _parse_date_value (VInt 44197) = (Some 1, Some 1, Some 2021).
Proof. repeat split; vm_compute; reflexivity. Qed.

(** * The further properties at work on scripted pages *)

Lemma fill_field_is_bounded_witness :
  (w_clock (snd (_fill_field_with_retry typing_page name_field (VStr "Asha")
                                        3 mapped_world))
   <= w_clock mapped_world + 3 * 7)%nat
  /\ (3%nat = 0%nat ->
      _fill_field_with_retry typing_page name_field (VStr "Asha") 3
                             mapped_world
      = (Ret false, mapped_world)).
Proof.
  apply (fill_field_is_bounded typing_page name_field (VStr "Asha") 3
                               mapped_world).
  reflexivity.
Defined.

Lemma fill_field_true_has_typed_witness :
  exists field before after,
    w_trace (snd (_fill_field_with_retry typing_page name_field (VStr "Asha")
                                         3 mapped_world))
    = (w_trace mapped_world
       ++ before ++ EvSendKeys field (py_str (VStr "Asha")) :: after)%list
    /\ truthy (r_text
                 (typing_page
                    (pred (w_clock
                             (snd (_fill_field_with_retry
                                     typing_page name_field (VStr "Asha") 3
                                     mapped_world))))))
       = true.
Proof.
  apply (fill_field_true_has_typed typing_page name_field (VStr "Asha") 3
                                   mapped_world).
  - reflexivity.
  - vm_compute. reflexivity.
Defined.

Lemma date_field_finds_its_question_witness :
  _fill_date_field blank_page (question_xpath 2) (VStr "15-08-1990") 3
  = retry 3 (date_attempt blank_page (base_xpath (str_of_Z 2)) 15 8 1990).
Proof.
  apply (date_field_finds_its_question blank_page 2 (VStr "15-08-1990") 3).
  - lia.
  - vm_compute. reflexivity.
Defined.

Lemma form_map_indices_witness :
  NoDup (indices [("name", second_name_field)])
  /\ forall key info,
       dict_get key [("name", second_name_field)] = Some info ->
       1 <= fi_index info
       /\ fi_xpath info = question_xpath (fi_index info)
       /\ search_index (fi_xpath info) = Some (str_of_Z (fi_index info)).
Proof.
  apply (form_map_indices two_names_page initial_world
           (snd (_extract_form_mapping two_names_page initial_world))).
  vm_compute. reflexivity.
Defined.

Lemma page_failed_to_load_witness :
  exists w',
    _extract_form_mapping blank_page initial_world
    = (Raise (py_exception "Page failed to load"), w')
    /\ w_clock w' = S (w_clock initial_world)
    /\ w_trace w' = w_trace initial_world.
Proof.
  apply (page_failed_to_load blank_page initial_world).
  reflexivity.
Defined.

Lemma form_access_denied_witness :
  exists w',
    _extract_form_mapping denied_page initial_world
    = (Raise (py_exception "Form access denied - the form may be restricted"),
       w')
    /\ w_clock w' = (5 + w_clock initial_world)%nat
    /\ w_trace w' = w_trace initial_world.
Proof.
  apply (form_access_denied denied_page initial_world
           (Some "<html>Sorry, you need Access to this form</html>"));
    try reflexivity.
  discriminate.
Defined.

Lemma no_questions_found_witness :
  exists w',
    _extract_form_mapping no_questions_page initial_world
    = (Raise (py_exception
                "No form questions found. The form may not have loaded correctly."),
       w')
    /\ w_trace w' = w_trace initial_world.
Proof.
  apply (no_questions_found no_questions_page initial_world (Some "<html>"));
    try reflexivity.
  discriminate.
Defined.

Lemma row_not_loaded_witness :
  exists w',
    _submit_row offline_page sample_url sample_row 0 mapped_world
    = (Ret false, w')
    /\ w_trace w' = (w_trace mapped_world ++ [EvGet sample_url])%list
    /\ w_clock w' = S (w_clock mapped_world)
    /\ w_errors w'
       = (w_errors mapped_world
          ++ [(row_prefix 0
               ++ exn_str (mk_exn WebDriverException
                                  "net::ERR_INTERNET_DISCONNECTED"))%string])%list.
Proof.
  apply (row_not_loaded offline_page sample_url sample_row 0 mapped_world).
  reflexivity.
Defined.

Lemma run_quits_browser_witness :
  exists evs,
    w_trace (snd (run confirmed_page sample_url (inr [sample_row]) None
                      initial_world))
    = (w_trace initial_world ++ evs ++ [EvQuit])%list
    /\ Forall not_quit evs.
Proof.
  apply (run_quits_browser confirmed_page sample_url [sample_row] None
                           initial_world).
  reflexivity.
Defined.

Lemma row_confirmation_witness :
  let w1 := snd (fill_form filled_row_page sample_url sample_row 0
                           mapped_world) in
  let c := w_clock w1 in
  exists b w',
    _submit_row filled_row_page sample_url sample_row 0 mapped_world
    = (Ret b, w')
    /\ w_trace w' = w_trace w1
    /\ w_clock w' = (4 + c)%nat
    /\ (r_exn (filled_row_page (3 + c)%nat) = None ->
        r_elems (filled_row_page (3 + c)%nat) <> [] ->
        b = true /\ w_errors w' = w_errors w1)
    /\ (times_out (filled_row_page (3 + c)%nat) ->
        b = false
        /\ w_errors w'
           = (w_errors w1
              ++ [(row_prefix 0
                   ++ "Submission confirmation not received")%string])%list)
    /\ (forall e,
           r_exn (filled_row_page (3 + c)%nat) = Some e ->
           is_timeout e = false ->
           b = false
           /\ w_errors w'
              = (w_errors w1 ++ [(row_prefix 0 ++ exn_str e)%string])%list).
Proof.
  apply (row_confirmation filled_row_page sample_url sample_row 0
           mapped_world
           (snd (fill_form filled_row_page sample_url sample_row 0
                           mapped_world))).
  - vm_compute. reflexivity.
  - reflexivity.
  - vm_compute. discriminate.
  - reflexivity.
  - reflexivity.
Defined.

Lemma run_counts_witness :
  total_rows (mk_run_result 1 1 0 []) = Z.of_nat (length [sample_row])
  /\ success_count (mk_run_result 1 1 0 [])
     + fail_count (mk_run_result 1 1 0 [])
     = total_rows (mk_run_result 1 1 0 [])
  /\ 0 <= success_count (mk_run_result 1 1 0 [])
  /\ 0 <= fail_count (mk_run_result 1 1 0 [])
     <= Z.of_nat (length (errors (mk_run_result 1 1 0 [])))
  /\ errors (mk_run_result 1 1 0 [])
     = w_errors (snd (run confirmed_page sample_url (inr [sample_row]) None
                          initial_world))
  /\ ([sample_row] = [] -> mk_run_result 1 1 0 [] = mk_run_result 0 0 0 []).
Proof.
  apply (run_counts confirmed_page sample_url [sample_row] None
                    initial_world).
  vm_compute. reflexivity.
Defined.

Lemma date_attempt_unlabelled_witness :
  exists w',
    date_attempt unlabelled_date_page (base_xpath "1") 15 8 1990 initial_world
    = (Ret true, w')
    /\ w_trace w' = w_trace initial_world
    /\ w_clock w'
       = (w_clock initial_world + 1
          + 5 * length (r_elems (unlabelled_date_page
                                   (w_clock initial_world))))%nat.
Proof.
  apply (date_attempt_unlabelled unlabelled_date_page (base_xpath "1")
                                 15 8 1990 initial_world).
  - reflexivity.
  - simpl. lia.
  - intros [|[|n]] Hn; simpl in Hn; [lia|split; reflexivity|].
    destruct n; split; reflexivity.
Defined.

Lemma task_ends_job_witness :
  let s := mk_server [("job-1", pending "job-1")] ["/tmp/upload.xlsx"] in
  let out := run_submission_task confirmed_page "job-1" sample_url
                                 "/tmp/upload.xlsx" (inr [sample_row])
                                 None s in
  (In "/tmp/upload.xlsx" (files s) -> fst out = None)
  /\ (~ In "/tmp/upload.xlsx" (files s) -> fst out = None)
  /\ (fst out = None -> ~ In "/tmp/upload.xlsx" (files (snd out)))
  /\ (forall e, fst out = Some e -> files (snd out) = files s)
  /\ (forall other,
         other <> "job-1" ->
         get_job_status other (snd out) = get_job_status other s)
  /\ exists job',
      get_job_status "job-1" (snd out) = inr job'
      /\ js_job_id job' = js_job_id (pending "job-1")
      /\ (js_status job' = "completed" \/ js_status job' = "failed")
      /\ (js_status job' = "completed" ->
          exists df,
            @inr exn (list row) [sample_row] = inr df
            /\ js_total_rows job' = Z.of_nat (length df)
            /\ js_success_count job' + js_fail_count job'
               = js_total_rows job'
            /\ 0 <= js_success_count job'
            /\ 0 <= js_fail_count job' <= Z.of_nat (length (js_errors job'))
            /\ (js_current_row (pending "job-1") = 0 ->
                js_current_row job' = js_total_rows job'))
      /\ (forall e,
             @inr exn (list row) [sample_row] = inl e ->
             js_status job' = "failed" /\ js_message job' = exn_str e).
Proof.
  apply (task_ends_job confirmed_page "job-1" sample_url "/tmp/upload.xlsx"
                       (inr [sample_row]) None
                       (mk_server [("job-1", pending "job-1")]
                                  ["/tmp/upload.xlsx"])
                       (pending "job-1")).
  reflexivity.
Defined.

(** The job of the example, once its task has run. *)
Example job_completed :
  get_job_status "job-1"
    (snd (run_submission_task confirmed_page "job-1" sample_url
            "/tmp/upload.xlsx" (inr [sample_row]) None
            (mk_server [("job-1", pending "job-1")] ["/tmp/upload.xlsx"])))
  = inr (mk_JobStatus "job-1" "completed" 1 1 0 1
                      "Completed: 1 successful, 0 failed" []).
Proof. vm_compute. reflexivity. Qed.

(** The same task when the file cannot be removed: the job is completed,
    the exception of [os.remove] leaves the task, and the file stays. *)
Example job_completed_file_kept :
  let e := mk_exn PyException "[Errno 13] Permission denied" in
  let out := run_submission_task confirmed_page "job-1" sample_url
               "/tmp/upload.xlsx" (inr [sample_row]) (Some e)
               (mk_server [("job-1", pending "job-1")]
                          ["/tmp/upload.xlsx"]) in
  fst out = Some e
  /\ files (snd out) = ["/tmp/upload.xlsx"]
  /\ get_job_status "job-1" (snd out)
     = inr (mk_JobStatus "job-1" "completed" 1 1 0 1
                         "Completed: 1 successful, 0 failed" []).
Proof. repeat split; vm_compute; reflexivity. Qed.
